(** * Azure credential and blob-configuration resolution (api/common/conf_azure.go)

    A shallow embedding of [conf_azure.go] and the properties of its
    authorizer chain, subscription and account lookup, and blob
    configuration merge.

    Conventions of the embedding:
    - Go strings are byte strings: [string] of the Standard Library.
    - A Go [error] is modelled by its message; [(T, error)] results whose
      value is only meaningful when the error is nil are [res T].
    - SDK calls (go-autorest, azure-sdk-for-go, ini, homedir, net/url, os)
      are fields of a [World]: within one invocation each of them is a
      function of its arguments.  Every call that touches a file, the
      network or the control plane is recorded in a trace of [Event]s.
    - A nil-pointer dereference is a panic: the computation stops and has
      no result ([None] in the monad [M]). Logging calls are left out. *)

From Stdlib Require Import String Ascii ZArith Lia List.
From stdpp Require Import base option list gmap strings.

Local Open Scope string_scope.
Local Open Scope Z_scope.
Local Open Scope list_scope.

(** ** Go string primitives *)

Module GoStrings.

(** [len(s)] *)
Definition len (s : string) : Z := Z.of_nat (String.length s).

(** [s[:n]] *)
Fixpoint slice_to (n : nat) (s : string) : string :=
  match n, s with
  | O, _ => EmptyString
  | S _, EmptyString => EmptyString
  | S n', String c s' => String c (slice_to n' s')
  end.

(** [s[n:]] *)
Fixpoint slice_from (n : nat) (s : string) : string :=
  match n, s with
  | O, _ => s
  | S _, EmptyString => EmptyString
  | S n', String _ s' => slice_from n' s'
  end.

(** Position of the first occurrence of [sep] in [s]. *)
Fixpoint index_nat (s sep : string) : option nat :=
  if String.prefix sep s then Some O
  else match s with
       | EmptyString => None
       | String _ s' => option_map S (index_nat s' sep)
       end.

(** [strings.Index(s, sep)]: -1 when [sep] does not occur. *)
Definition Index (s sep : string) : Z :=
  match index_nat s sep with
  | Some i => Z.of_nat i
  | None => -1
  end.

Fixpoint mem (c : ascii) (cutset : string) : bool :=
  match cutset with
  | EmptyString => false
  | String d cutset' => if Ascii.eqb c d then true else mem c cutset'
  end.

(** [strings.TrimLeft(s, cutset)] for a cutset of ASCII bytes. *)
Fixpoint TrimLeft (s cutset : string) : string :=
  match s with
  | EmptyString => EmptyString
  | String c s' => if mem c cutset then TrimLeft s' cutset else s
  end.

(** [strings.TrimRight(s, cutset)] for a cutset of ASCII bytes. *)
Fixpoint TrimRight (s cutset : string) : string :=
  match s with
  | EmptyString => EmptyString
  | String c s' =>
      match TrimRight s' cutset with
      | EmptyString => if mem c cutset then EmptyString else String c EmptyString
      | r => String c r
      end
  end.

(** [strings.Trim(s, cutset)] *)
Definition Trim (s cutset : string) : string :=
  TrimRight (TrimLeft s cutset) cutset.

(** [strings.SplitN(s, sep, n)] for a non-empty [sep] and [n >= 0]: at
    most [n] pieces, the last one being the unsplit remainder. *)
Fixpoint SplitN (s sep : string) (n : nat) : list string :=
  match n with
  | O => []
  | S O => [s]
  | S n' =>
      match index_nat s sep with
      | None => [s]
      | Some m =>
          slice_to m s :: SplitN (slice_from (m + String.length sep) s) sep n'
      end
  end.

(** [strings.Split(s, sep)] for a non-empty [sep]: all the pieces. *)
Definition Split (s sep : string) : list string :=
  SplitN s sep (S (String.length s)).

End GoStrings.
Import GoStrings.

(** ** Results, events and the trace monad *)

Definition error := string.

Inductive res (A : Type) : Type :=
| Ok (a : A)
| Err (e : error).
Arguments Ok {A} a.
Arguments Err {A} e.

(** Calls to the collaborators of the module. *)
Inductive Event : Type :=
| EvProfilePath
| EvLoadProfile (path : string)
| EvGetSettingsFromEnvironment
| EvEnvClientCredentials
| EvGetSettingsFromFile
| EvAccessTokensPath
| EvLoadTokens (path : string)
| EvEnsureFresh
| EvGetMSIVMEndpoint
| EvNewAccountsClient (subscriptionID : string)
| EvAccountsList
| EvListKeys (resourceGroup account : string)
| EvIniLoad (path : string).

(** A computation: the calls it made, and its value unless it panicked. *)
Definition M (A : Type) : Type := (list Event * option A)%type.

Definition ret {A} (a : A) : M A := ([], Some a).
Definition panic {A} : M A := ([], None).
Definition call {A} (ev : Event) (a : A) : M A := ([ev], Some a).
Definition bind {A B} (m : M A) (k : A -> M B) : M B :=
  match m with
  | (t, Some a) => let (t', r) := k a in (t ++ t', r)
  | (t, None) => (t, None)
  end.
(** [*p] for a pointer that may be nil. *)
Definition deref {A} (p : option A) : M A :=
  match p with
  | Some a => ret a
  | None => panic
  end.

(** [err != nil] *)
Definition is_err (err : option error) : bool :=
  match err with
  | Some _ => true
  | None => false
  end.

Definition trace {A} (m : M A) : list Event := fst m.
Definition value {A} (m : M A) : option A := snd m.

Declare Scope go_scope.
Delimit Scope go_scope with go.
Notation "'let*' x ':=' m 'in' k" := (bind m (fun x => k))
  (at level 10, x name, m at level 100, k at level 200) : go_scope.
(** [x, err := m; if err != nil { return zero, err }; k] *)
Notation "'let?' x ':=' m 'in' k" :=
  (bind m (fun r => match r with Ok x => k | Err e => ret (Err e) end))
  (at level 10, x name, m at level 100, k at level 200) : go_scope.
Local Open Scope go_scope.

(** ** Data of the SDKs *)

(** [cli.Subscription] (the fields the module reads). *)
Record Subscription := {
  ID : string;
  TenantID : string;
  IsDefault : bool
}.

(** [cli.Profile] *)
Record Profile := { Subscriptions : list Subscription }.

(** [cli.Token]: authority, client, resource and the token material. *)
Record Token := {
  Authority : string;
  ClientID : string;
  Resource : string;
  RawToken : string
}.

(** [url.URL] (the fields a parse of an endpoint fills). *)
Record URL := {
  Scheme : string;
  Host : string;
  Path : string;
  RawQuery : string;
  Fragment : string
}.

Definition set_Path (u : URL) (p : string) : URL :=
  {| Scheme := Scheme u; Host := Host u; Path := p;
     RawQuery := RawQuery u; Fragment := Fragment u |}.

(** [auth.MSIConfig] *)
Record MSIConfig := { msiResource : string; msiClientID : string }.

(** [azure.Environment] (the endpoints the module reads). *)
Record AzureEnvironment := {
  ResourceManagerEndpoint : string;
  ActiveDirectoryEndpoint : string
}.

(** [auth.EnvironmentSettings] *)
Record EnvironmentSettings := {
  Values : gmap string string;
  Environment : AzureEnvironment
}.

(** [m[k]] on a Go [map[string]string]: the empty string when absent. *)
Definition map_get (m : gmap string string) (k : string) : string :=
  default "" (m !! k).

Definition set_Value (env : EnvironmentSettings) (k v : string) : EnvironmentSettings :=
  {| Values := <[k := v]> (Values env); Environment := Environment env |}.

(** [azblob.Endpoints], [azblob.Account], [azblob.AccountListResult] *)
Record Endpoints := { Blob : option string }.

Record Account := {
  accName : option string;
  accID : option string;
  PrimaryEndpoints : option Endpoints
}.

Record AccountListResult := { accValue : option (list Account) }.

(** [azblob.KeyPermission] is a string type. *)
Definition KeyPermission := string.
Definition Full : KeyPermission := "Full".
Definition Read : KeyPermission := "Read".

(** [azblob.AccountKey], [azblob.AccountListKeysResult] *)
Record AccountKey := {
  KeyName : option string;
  keyValue : option string;
  Permissions : KeyPermission
}.

Record AccountListKeysResult := { Keys : option (list AccountKey) }.

(** An ini file: sections by name, keys by name in each section. *)
Abbreviation IniSection := (gmap string string).
Abbreviation IniFile := (gmap string (gmap string string)).

(** [AZBlobConfig] ([SasToken] is never set in this file). [time.Duration]
    is a number of nanoseconds. *)
Record AZBlobConfig := {
  Endpoint : string;
  AccountName : string;
  AccountKeyValue : string;
  TokenRenewBuffer : Z;
  Container : string;
  Prefix : string
}.

Definition with_hint (config : AZBlobConfig) (container prefix : string) : AZBlobConfig :=
  {| Endpoint := Endpoint config; AccountName := AccountName config;
     AccountKeyValue := AccountKeyValue config;
     TokenRenewBuffer := TokenRenewBuffer config;
     Container := container; Prefix := prefix |}.

Definition zeroConfig : AZBlobConfig :=
  {| Endpoint := ""; AccountName := ""; AccountKeyValue := "";
     TokenRenewBuffer := 0; Container := ""; Prefix := "" |}.

Definition Minute : Z := 60 * 1000000000.

(** [AzureAuthorizerConfig] (the log handle is left out). *)
Record AzureAuthorizerConfig := { TenantId : string }.

Section Model.

(** Opaque objects of the SDKs. *)
Context {AuthorizerT SPT OAuthConfig ADALToken Credentials FileSettings : Type}.

(** [azblob.AccountsClient]: the subscription it is scoped to and the
    authorizer of its base client. *)
Record AccountsClient := {
  SubscriptionID : string;
  ClientAuthorizer : option AuthorizerT
}.

(** The collaborators. *)
Record World := {
  os_Getenv : string -> string;
  homedir_Expand : string -> string * option error;
  url_Parse : string -> res URL;
  url_Hostname : URL -> string;
  url_String : URL -> string;
  ini_Load : string -> res IniFile;
  cli_ProfilePath : res string;
  cli_LoadProfile : string -> res Profile;
  cli_AccessTokensPath : res string;
  cli_LoadTokens : string -> res (list Token);
  cli_ToADALToken : Token -> res ADALToken;
  auth_Resource : string;
  auth_ActiveDirectoryEndpoint : string;
  auth_GetSettingsFromEnvironment : res EnvironmentSettings;
  auth_GetClientCredentials : EnvironmentSettings -> res Credentials;
  auth_CredentialsAuthorizer : Credentials -> res AuthorizerT;
  auth_GetMSI : EnvironmentSettings -> MSIConfig;
  auth_GetSettingsFromFile : res FileSettings;
  auth_ClientCredentialsAuthorizerWithResource : FileSettings -> string -> res AuthorizerT;
  adal_NewOAuthConfig : string -> string -> res OAuthConfig;
  adal_NewServicePrincipalTokenFromManualToken :
    OAuthConfig -> string -> string -> ADALToken -> res SPT;
  adal_GetMSIVMEndpoint : res string;
  adal_NewServicePrincipalTokenFromMSI : string -> string -> res SPT;
  adal_NewServicePrincipalTokenFromMSIWithUserAssignedID :
    string -> string -> string -> res SPT;
  adal_EnsureFresh : SPT -> option error;
  autorest_NewBearerAuthorizer : SPT -> AuthorizerT;
  azblob_List : AccountsClient -> res AccountListResult;
  azblob_ListKeys : AccountsClient -> string -> string -> res AccountListKeysResult;
  PublicCloud_StorageEndpointSuffix : string
}.

Context (w : World).

(** *** azureDefaultSubscription *)

(** The loop over [profile.Subscriptions] and the error after it. *)
Fixpoint findDefault (subs : list Subscription) : res Subscription :=
  match subs with
  | [] => Err "Unable to find default azure subscription id"
  | s :: rest => if IsDefault s then Ok s else findDefault rest
  end.

Definition azureDefaultSubscription : M (res Subscription) :=
  let? profilePath := call EvProfilePath (cli_ProfilePath w) in
  let? profile := call (EvLoadProfile profilePath) (cli_LoadProfile w profilePath) in
  ret (findDefault (Subscriptions profile)).

(** *** sptTest, tokenToAuthorizer, msiToAuthorizer *)

Definition sptTest (spt : SPT) : M (res AuthorizerT) :=
  let* err := call EvEnsureFresh (adal_EnsureFresh w spt) in
  match err with
  | Some e => ret (Err e)
  | None => ret (Ok (autorest_NewBearerAuthorizer w spt))
  end.

Definition tokenToAuthorizer (t : Token) : M (res AuthorizerT) :=
  let? u := ret (url_Parse w (Authority t)) in
  let tenantId := Path u in
  let u := set_Path u "" in
  let? oauth := ret (adal_NewOAuthConfig w (url_String w u) tenantId) in
  let? aToken := ret (cli_ToADALToken w t) in
  let? spt := ret (adal_NewServicePrincipalTokenFromManualToken w oauth
                     (ClientID t) (Resource t) aToken) in
  sptTest spt.

Definition msiToAuthorizer (mc : MSIConfig) : M (res AuthorizerT) :=
  let? msiEndpoint := call EvGetMSIVMEndpoint (adal_GetMSIVMEndpoint w) in
  let? spt :=
    ret (if String.eqb (msiClientID mc) ""
         then adal_NewServicePrincipalTokenFromMSI w msiEndpoint (msiResource mc)
         else adal_NewServicePrincipalTokenFromMSIWithUserAssignedID w
                msiEndpoint (msiResource mc) (msiClientID mc)) in
  sptTest spt.

(** *** AzureAuthorizerConfig.Authorizer *)

(** Lines 127-133: the tenant of the default subscription when none is
    configured. *)
Definition resolveTenant (c : AzureAuthorizerConfig) : M (res AzureAuthorizerConfig) :=
  if String.eqb (TenantId c) "" then
    let? defaultSubscription := azureDefaultSubscription in
    ret (Ok {| TenantId := TenantID defaultSubscription |})
  else ret (Ok c).

(** Lines 140-144: [Some a] when the block returns the authorizer [a]. *)
Definition envClientCredentials (env : EnvironmentSettings) : M (option AuthorizerT) :=
  let* cred := call EvEnvClientCredentials (auth_GetClientCredentials w env) in
  match cred with
  | Ok cred =>
      match auth_CredentialsAuthorizer w cred with
      | Ok authorizer => ret (Some authorizer)
      | Err _ => ret None
      end
  | Err _ => ret None
  end.

(** Lines 146-151. *)
Definition fileClientCredentials : M (option AuthorizerT) :=
  let* settings := call EvGetSettingsFromFile (auth_GetSettingsFromFile w) in
  match settings with
  | Ok settings =>
      match auth_ClientCredentialsAuthorizerWithResource w settings (auth_Resource w) with
      | Ok authorizer => ret (Some authorizer)
      | Err _ => ret None
      end
  | Err _ => ret None
  end.

(** Lines 153-158: defaults written into [env.Values]. *)
Definition fillDefaults (env : EnvironmentSettings) : EnvironmentSettings :=
  let env :=
    if String.eqb (map_get (Values env) (auth_Resource w)) ""
    then set_Value env (auth_Resource w) (ResourceManagerEndpoint (Environment env))
    else env in
  if String.eqb (map_get (Values env) (auth_ActiveDirectoryEndpoint w)) ""
  then set_Value env (auth_ActiveDirectoryEndpoint w)
         (ActiveDirectoryEndpoint (Environment env))
  else env.

(** Lines 159-160. *)
Definition adEndpointOf (env : EnvironmentSettings) (c : AzureAuthorizerConfig) : string :=
  Trim (map_get (Values env) (auth_ActiveDirectoryEndpoint w)) "/" +:+ "/" +:+ TenantId c.

(** Outcome of the cached-token block: it returned an authorizer, or
    control reached the test of [err] after the loop. *)
Inductive scan : Type :=
| Found (authorizer : AuthorizerT)
| NotFound (err : option error).

(** Lines 167-176: the loop over the cached tokens; [err] is the variable
    the conversions assign. *)
Fixpoint scanTokens (adEndpoint : string) (accessTokens : list Token)
         (err : option error) : M scan :=
  match accessTokens with
  | [] => ret (NotFound err)
  | t :: rest =>
      if String.eqb (Authority t) adEndpoint then
        let* r := tokenToAuthorizer t in
        match r with
        | Ok authorizer => ret (Found authorizer)
        | Err e => scanTokens adEndpoint rest (Some e)
        end
      else scanTokens adEndpoint rest err
  end.

(** Lines 163-177. *)
Definition cachedTokens (adEndpoint : string) : M scan :=
  let* accessTokensPath := call EvAccessTokensPath (cli_AccessTokensPath w) in
  match accessTokensPath with
  | Ok accessTokensPath =>
      let* accessTokens :=
        call (EvLoadTokens accessTokensPath) (cli_LoadTokens w accessTokensPath) in
      match accessTokens with
      | Ok accessTokens => scanTokens adEndpoint accessTokens None
      | Err e => ret (NotFound (Some e))
      end
  | Err _ => ret (NotFound None)
  end.

Definition Authorizer (c : AzureAuthorizerConfig) : M (res AuthorizerT) :=
  let? c := resolveTenant c in
  let? env := call EvGetSettingsFromEnvironment (auth_GetSettingsFromEnvironment w) in
  let* r := envClientCredentials env in
  match r with
  | Some authorizer => ret (Ok authorizer)
  | None =>
  let* r := fileClientCredentials in
  match r with
  | Some authorizer => ret (Ok authorizer)
  | None =>
  let env := fillDefaults env in
  let adEndpoint := adEndpointOf env c in
  let* r := cachedTokens adEndpoint in
  match r with
  | Found authorizer => ret (Ok authorizer)
  | NotFound (Some e) => ret (Err e)
  | NotFound None => msiToAuthorizer (auth_GetMSI w env)
  end end end.

(** *** azureAccountsClient, azureFindAccount *)

Definition azureAccountsClient (account : string) : M (res AccountsClient) :=
  let? defaultSubscription := azureDefaultSubscription in
  let* c := call (EvNewAccountsClient (ID defaultSubscription))
              {| SubscriptionID := ID defaultSubscription; ClientAuthorizer := None |} in
  let? authorizer := Authorizer {| TenantId := TenantID defaultSubscription |} in
  ret (Ok {| SubscriptionID := SubscriptionID c; ClientAuthorizer := Some authorizer |}).

(** Lines 235-246: the loop over the accounts and the error after it. *)
Fixpoint findAccount (accounts : list Account) (account : string)
  : M (res (string * string)) :=
  match accounts with
  | [] => ret (Err ("Azure account not found: " +:+ account))
  | acc :: rest =>
      let* name := deref (accName acc) in
      if String.eqb name account then
        let* id := deref (accID acc) in
        let parts := SplitN id "/" 6 in
        if negb (Nat.eqb (length parts) 6) then
          ret (Err ("Malformed account id: " +:+ id))
        else
          let* endpoints := deref (PrimaryEndpoints acc) in
          let* blob := deref (Blob endpoints) in
          let* resourceGroup := deref (parts !! 4%nat) in
          ret (Ok (blob, resourceGroup))
      else findAccount rest account
  end.

Definition azureFindAccount (client : AccountsClient) (account : string)
  : M (res (string * string)) :=
  let? accountsRes := call EvAccountsList (azblob_List w client) in
  let* accounts := deref (accValue accountsRes) in
  findAccount accounts account.

(** *** AzureBlobConfig *)

Definition emulatorEndpoint : string := "http://127.0.0.1:8080/devstoreaccount1/".

(** Lines 254-265: the endpoint and the config after the [container@host/path]
    hint. *)
Definition wasbHint (endpoint wasb : string) (config : AZBlobConfig)
  : string * AZBlobConfig :=
  let at_ := Index wasb "@" in
  if negb (at_ =? -1) then
    let storageEndpoint := "https://" +:+ slice_from (Z.to_nat (at_ + 1)) wasb in
    match url_Parse w storageEndpoint with
    | Ok u =>
        (storageEndpoint,
         with_hint config (slice_to (Z.to_nat at_) wasb) (Trim (Path u) "/"))
    | Err _ => (endpoint, config)
    end
  else (endpoint, config).

(** Lines 267-279: the account after the endpoint was looked at; [Err]
    when the function returns the parse error. *)
Definition accountFromEndpoint (endpoint account : string) : res string :=
  if negb (String.eqb endpoint "") && negb (String.eqb endpoint emulatorEndpoint) then
    match url_Parse w endpoint with
    | Err e => Err e
    | Ok u =>
        let dot := Index (url_Hostname w u) "." in
        if negb (dot =? -1)
        then Ok (slice_to (Z.to_nat dot) (url_Hostname w u))
        else Ok account
    end
  else Ok account.

(** Lines 281-300: account, key and config directory after the ini file. *)
Definition configFile (account key configDir : string) : M (string * string * string) :=
  if String.eqb account "" || String.eqb key "" then
    let configDir :=
      if String.eqb configDir "" then fst (homedir_Expand w "~/.azure") else configDir in
    let* config := call (EvIniLoad (configDir +:+ "/config"))
                     (ini_Load w (configDir +:+ "/config")) in
    match config with
    | Ok config =>
        match config !! "storage" with
        | Some sect =>
            let account :=
              if String.eqb account "" then
                match sect !! "account" with Some v => v | None => account end
              else account in
            let key :=
              if String.eqb key "" then
                match sect !! "key" with Some v => v | None => key end
              else key in
            ret (account, key, configDir)
        | None => ret (account, key, configDir)
        end
    | Err _ => ret (account, key, configDir)
    end
  else ret (account, key, configDir).

Definition missingAccount (configDir : string) : error :=
  "Missing account: configure via AZURE_STORAGE_ACCOUNT or " +:+ configDir +:+ "/config".

Definition missingKey (configDir : string) : error :=
  "Missing key: configure via AZURE_STORAGE_KEY or " +:+ configDir +:+ "/config".

(** Lines 333-338: the loop that prefers a full-permission key. *)
Fixpoint preferFull (keys : list AccountKey) (key : string) : M string :=
  match keys with
  | [] => ret key
  | k :: rest =>
      if String.eqb (Permissions k) Full then deref (keyValue k)
      else preferFull rest key
  end.

(** Lines 332-340: the loop and the assignment after it. *)
Definition selectKey (keys : list AccountKey) (key : string) : M string :=
  let* key := preferFull keys key in
  let* first := deref (keys !! 0%nat) in
  let* key := deref (keyValue first) in
  ret key.

(** The block either returns from the function with an error or lets
    control go on. *)
Inductive flow (A : Type) : Type :=
| Continue (a : A)
| Return (e : error).
Arguments Continue {A} a.
Arguments Return {A} e.

(** Lines 308-345: endpoint, key and [err] after the control-plane lookup. *)
Definition discover (endpoint key account configDir : string)
  : M (flow (string * string * option error)) :=
  if String.eqb endpoint "" || String.eqb key "" then
    let* client := azureAccountsClient account in
    match client with
    | Ok client =>
        let* found := azureFindAccount client account in
        let '(endpoint, resourceGroup, err) :=
          match found with
          | Ok (blob, resourceGroup) => (blob, resourceGroup, None)
          | Err e => ("", "", Some e)
          end in
        if is_err err && String.eqb key "" then
          ret (Return (missingKey configDir))
        else if String.eqb key "" then
          let* keysRes := call (EvListKeys resourceGroup account)
                            (azblob_ListKeys w client resourceGroup account) in
          match keysRes with
          | Err _ => ret (Return (missingKey configDir))
          | Ok keysRes =>
              let* keys := deref (Keys keysRes) in
              if Nat.eqb (length keys) 0 then ret (Return (missingKey configDir))
              else
                let* key := selectKey keys key in
                ret (Continue (endpoint, key, None))
          end
        else ret (Continue (endpoint, key, err))
    | Err e => ret (Return e)
    end
  else ret (Continue (endpoint, key, None)).

(** Lines 354-357. *)
Definition finish (config : AZBlobConfig) (endpoint account key : string) : AZBlobConfig :=
  {| Endpoint := endpoint; AccountName := account; AccountKeyValue := key;
     TokenRenewBuffer := 15 * Minute;
     Container := Container config; Prefix := Prefix config |}.

Definition AzureBlobConfig (endpoint wasb : string) : M (AZBlobConfig * option error) :=
  let account := os_Getenv w "AZURE_STORAGE_ACCOUNT" in
  let key := os_Getenv w "AZURE_STORAGE_KEY" in
  let configDir := os_Getenv w "AZURE_CONFIG_DIR" in
  let '(endpoint, config) := wasbHint endpoint wasb zeroConfig in
  match accountFromEndpoint endpoint account with
  | Err e => ret (config, Some e)
  | Ok account =>
      let* acd := configFile account key configDir in
      let '(account, key, configDir) := acd in
      if String.eqb account "" then ret (config, Some (missingAccount configDir))
      else
        let* d := discover endpoint key account configDir in
        match d with
        | Return e => ret (config, Some e)
        | Continue (endpoint, key, err) =>
            let endpoint :=
              if String.eqb endpoint ""
              then "https://" +:+ account +:+ ".blob." +:+ PublicCloud_StorageEndpointSuffix w
              else endpoint in
            ret (finish config endpoint account key, err)
        end
  end.

End Model.

Arguments Continue {A} a.
Arguments Return {A} e.

(** ** Vocabulary of the statements *)

Definition nonDefault (s : Subscription) : Prop := IsDefault s = false.

(** Number of [sep]-separated segments of [s]. *)
Definition segments (s sep : string) : nat := length (Split s sep).

(** First and last byte of a string. *)
Definition head_char (s : string) : option ascii :=
  match s with
  | EmptyString => None
  | String c _ => Some c
  end.

Fixpoint last_char (s : string) : option ascii :=
  match s with
  | EmptyString => None
  | String c EmptyString => Some c
  | String _ s' => last_char s'
  end.

(** [s] has no slash at either end. *)
Definition noSlashAround (s : string) : Prop :=
  head_char s <> Some "/"%char /\ last_char s <> Some "/"%char.

(** Every byte of [s] is one of [cutset]. *)
Fixpoint onlyOf (cutset s : string) : bool :=
  match s with
  | EmptyString => true
  | String c s' => mem c cutset && onlyOf cutset s'
  end.

(** An account whose name, identifier and blob endpoint are all present. *)
Definition wellFormedAccount (acc : Account) : Prop :=
  accName acc <> None /\ accID acc <> None /\
  exists endpoints, PrimaryEndpoints acc = Some endpoints /\ Blob endpoints <> None.

(** An account of another name. *)
Definition otherName (account : string) (acc : Account) : Prop :=
  exists name, accName acc = Some name /\ name <> account.

(** The credential source an event belongs to: 1 the CLI profile (tenant
    resolution), 2 the environment, 3 the settings file, 4 the CLI token
    cache, 5 the managed identity. Refreshing a token happens in steps 4
    and 5. *)
Definition ofStep (k : nat) (ev : Event) : bool :=
  match k, ev with
  | 1%nat, (EvProfilePath | EvLoadProfile _) => true
  | 2%nat, (EvGetSettingsFromEnvironment | EvEnvClientCredentials) => true
  | 3%nat, EvGetSettingsFromFile => true
  | 4%nat, (EvAccessTokensPath | EvLoadTokens _ | EvEnsureFresh) => true
  | 5%nat, (EvGetMSIVMEndpoint | EvEnsureFresh) => true
  | _, _ => false
  end.

(** The events of a trace come in the order of the five steps. *)
Definition inStepOrder (tr : list Event) : Prop :=
  exists t1 t2 t3 t4 t5,
    tr = t1 ++ t2 ++ t3 ++ t4 ++ t5 /\
    Forall (fun ev => ofStep 1 ev = true) t1 /\
    Forall (fun ev => ofStep 2 ev = true) t2 /\
    Forall (fun ev => ofStep 3 ev = true) t3 /\
    Forall (fun ev => ofStep 4 ev = true) t4 /\
    Forall (fun ev => ofStep 5 ev = true) t5.

(** Events that consult the settings file, the token cache or the
    managed-identity endpoint. *)
Definition consults (ev : Event) : bool :=
  ofStep 3 ev || ofStep 4 ev || ofStep 5 ev.

Definition isListKeys (ev : Event) : bool :=
  match ev with
  | EvListKeys _ _ => true
  | _ => false
  end.

Definition isIniLoad (ev : Event) : bool :=
  match ev with
  | EvIniLoad _ => true
  | _ => false
  end.

(** Calls to the control plane: building the accounts client, listing the
    accounts, listing the keys. *)
Definition controlPlane (ev : Event) : bool :=
  match ev with
  | EvNewAccountsClient _ | EvAccountsList | EvListKeys _ _ => true
  | _ => false
  end.

Section Vocabulary.

Context {AuthorizerT SPT OAuthConfig ADALToken Credentials FileSettings : Type}.
Context (w : @World AuthorizerT SPT OAuthConfig ADALToken Credentials FileSettings).

(** A cached token the scan passes over: its authority is another one, or
    its conversion fails. *)
Definition rejected (adEndpoint : string) (t : Token) : Prop :=
  Authority t <> adEndpoint \/
  exists e, value (tokenToAuthorizer w t) = Some (Err e).

(** The run gets as far as the token cache: the tenant is known, the
    environment settings were read, and neither the environment nor the
    settings file gave an authorizer. *)
Definition reachesTokenCache (c c' : AzureAuthorizerConfig)
           (env : EnvironmentSettings) : Prop :=
  value (resolveTenant w c) = Some (Ok c') /\
  auth_GetSettingsFromEnvironment w = Ok env /\
  value (envClientCredentials w env) = Some None /\
  value (fileClientCredentials w) = Some None.

(** What the collaborators answer at each step of [Authorizer].

    The first step: with a tenant configured nothing is read; with none,
    the CLI gives the path of the profile, the profile loads, and the
    tenant is the one of its first default subscription.  [c'] is the
    config after the step and [t1] the calls the step makes. *)
Definition tenantStep (c c' : AzureAuthorizerConfig) (t1 : list Event) : Prop :=
  (TenantId c <> "" /\ c' = c /\ t1 = []) \/
  (TenantId c = "" /\
   exists path profile l1 s l2,
     cli_ProfilePath w = Ok path /\ cli_LoadProfile w path = Ok profile /\
     Subscriptions profile = l1 ++ s :: l2 /\
     Forall nonDefault l1 /\ IsDefault s = true /\
     c' = {| TenantId := TenantID s |} /\
     t1 = [EvProfilePath; EvLoadProfile path]).

(** The environment has client credentials and they give the authorizer
    [a]; or it has none, or they give no authorizer. *)
Definition envYields (env : EnvironmentSettings) (a : AuthorizerT) : Prop :=
  exists cred,
    auth_GetClientCredentials w env = Ok cred /\
    auth_CredentialsAuthorizer w cred = Ok a.

Definition envFails (env : EnvironmentSettings) : Prop :=
  forall cred,
    auth_GetClientCredentials w env = Ok cred ->
    exists e, auth_CredentialsAuthorizer w cred = Err e.

(** The same for the settings file. *)
Definition fileYields (a : AuthorizerT) : Prop :=
  exists settings,
    auth_GetSettingsFromFile w = Ok settings /\
    auth_ClientCredentialsAuthorizerWithResource w settings (auth_Resource w) = Ok a.

Definition fileFails : Prop :=
  forall settings,
    auth_GetSettingsFromFile w = Ok settings ->
    exists e,
      auth_ClientCredentialsAuthorizerWithResource w settings (auth_Resource w) = Err e.

(** Every call of the conversion of the cached token [t] succeeds, the
    refresh included, and [a] is the authorizer around its token. *)
Definition converts (t : Token) (a : AuthorizerT) : Prop :=
  exists u oauth aToken spt,
    url_Parse w (Authority t) = Ok u /\
    adal_NewOAuthConfig w (url_String w (set_Path u "")) (Path u) = Ok oauth /\
    cli_ToADALToken w t = Ok aToken /\
    adal_NewServicePrincipalTokenFromManualToken w oauth (ClientID t) (Resource t)
      aToken = Ok spt /\
    adal_EnsureFresh w spt = None /\
    a = autorest_NewBearerAuthorizer w spt.

(** The managed identity of [mc] gives the authorizer [a]. *)
Definition msiYields (mc : MSIConfig) (a : AuthorizerT) : Prop :=
  exists msiEndpoint spt,
    adal_GetMSIVMEndpoint w = Ok msiEndpoint /\
    (if String.eqb (msiClientID mc) ""
     then adal_NewServicePrincipalTokenFromMSI w msiEndpoint (msiResource mc)
     else adal_NewServicePrincipalTokenFromMSIWithUserAssignedID w
            msiEndpoint (msiResource mc) (msiClientID mc)) = Ok spt /\
    adal_EnsureFresh w spt = None /\
    a = autorest_NewBearerAuthorizer w spt.

(** The endpoint after the wasb hint. *)
Definition effectiveEndpoint (endpoint wasb : string) : string :=
  fst (wasbHint w endpoint wasb zeroConfig).

(** The endpoint the wasb hint stands for. *)
Definition storageEndpointOf (wasb : string) : string :=
  "https://" +:+ slice_from (Z.to_nat (Index wasb "@" + 1)) wasb.

(** The endpoint synthesized from the account name. *)
Definition publicEndpoint (account : string) : string :=
  "https://" +:+ account +:+ ".blob." +:+ PublicCloud_StorageEndpointSuffix w.

(** The sentence of the specification on a scan of the token cache that
    converts no token, as it is worded: the managed identity gives the
    result of the chain. *)
Definition exhaustedScanFallsBack (c : AzureAuthorizerConfig) : Prop :=
  forall c' env path accessTokens,
    reachesTokenCache c c' env ->
    cli_AccessTokensPath w = Ok path ->
    cli_LoadTokens w path = Ok accessTokens ->
    Forall (rejected (adEndpointOf w (fillDefaults w env) c')) accessTokens ->
    value (Authorizer w c) =
    value (msiToAuthorizer w (auth_GetMSI w (fillDefaults w env))).

(** The sentence of the specification on an error obtaining the
    token-cache path, as it is worded: the error is the error of the chain
    and the managed identity is not tried. *)
Definition tokenPathErrorFatal (c : AzureAuthorizerConfig) : Prop :=
  forall c' env e,
    reachesTokenCache c c' env ->
    cli_AccessTokensPath w = Err e ->
    value (Authorizer w c) = Some (Err e) /\
    ~ In EvGetMSIVMEndpoint (trace (Authorizer w c)).

(** The sentence of the specification on explicit credentials, as it is
    worded: account and key come back unchanged and the control plane is
    not called. *)
Definition explicitCredentialsUntouched (endpoint wasb : string) : Prop :=
  os_Getenv w "AZURE_STORAGE_ACCOUNT" <> "" ->
  os_Getenv w "AZURE_STORAGE_KEY" <> "" ->
  (forall config,
     value (AzureBlobConfig w endpoint wasb) = Some (config, None) ->
     AccountName config = os_Getenv w "AZURE_STORAGE_ACCOUNT" /\
     AccountKeyValue config = os_Getenv w "AZURE_STORAGE_KEY") /\
  Forall (fun ev => controlPlane ev = false) (trace (AzureBlobConfig w endpoint wasb)).

(** The sentence of the specification on the wasb hint, as it is worded:
    the endpoint after the hint is "https://" followed by the host. *)
Definition wasbEndpointIsHost (endpoint wasb : string) : Prop :=
  forall u,
    Index wasb "@" <> -1 ->
    url_Parse w (storageEndpointOf wasb) = Ok u ->
    Container (snd (wasbHint w endpoint wasb zeroConfig)) =
      slice_to (Z.to_nat (Index wasb "@")) wasb /\
    Prefix (snd (wasbHint w endpoint wasb zeroConfig)) = Trim (Path u) "/" /\
    effectiveEndpoint endpoint wasb = "https://" +:+ Host u.

(** The sentence of the specification on the resource identifier, as it is
    worded: any identifier whose number of segments is not 6 is malformed. *)
Definition malformedUnlessSixSegments (client : AccountsClient) (account : string) : Prop :=
  forall accs l1 acc l2 id,
    azblob_List w client = Ok {| accValue := Some accs |} ->
    accs = l1 ++ acc :: l2 -> Forall (otherName account) l1 ->
    accName acc = Some account -> accID acc = Some id ->
    segments id "/" <> 6%nat ->
    value (azureFindAccount w client account) =
    Some (Err ("Malformed account id: " +:+ id)).

End Vocabulary.

(** ** A concrete world

    Used to run the model on examples.  The opaque SDK objects are names;
    URLs are of the form [scheme://host[:port]/path]. *)

Module Sample.

(** [url.Parse] on [scheme://host/path]; a blank is an invalid character. *)
Definition parseURL (s : string) : res URL :=
  if mem " "%char s then Err "invalid character in host name"
  else
    match index_nat s "://" with
    | Some i =>
        let rest := slice_from (i + 3) s in
        match index_nat rest "/" with
        | Some j =>
            Ok {| Scheme := slice_to i s; Host := slice_to j rest;
                  Path := slice_from j rest; RawQuery := ""; Fragment := "" |}
        | None =>
            Ok {| Scheme := slice_to i s; Host := rest; Path := "";
                  RawQuery := ""; Fragment := "" |}
        end
    | None =>
        Ok {| Scheme := ""; Host := ""; Path := s; RawQuery := ""; Fragment := "" |}
    end.

(** [URL.Hostname]: the host without its port. *)
Definition hostname (u : URL) : string :=
  match index_nat (Host u) ":" with
  | Some i => slice_to i (Host u)
  | None => Host u
  end.

Definition urlString (u : URL) : string :=
  (if String.eqb (Scheme u) "" then "" else Scheme u +:+ "://") +:+ Host u +:+ Path u.

(** What varies between the examples. *)
Record Setup := {
  getenv : string -> string;
  iniFile : res IniFile;
  profile : res Profile;
  envSettings : res EnvironmentSettings;
  envCredentials : res string;
  fileCredentials : res string;
  tokensPath : res string;
  tokens : res (list Token);
  refresh : string -> option error;
  msiEndpoint : res string;
  accounts : res AccountListResult;
  keys : res AccountListKeysResult
}.

Definition world (s : Setup) : @World string string string string string string :=
  {| os_Getenv := getenv s;
     homedir_Expand := fun _ => ("/home/user/.azure", None);
     url_Parse := parseURL;
     url_Hostname := hostname;
     url_String := urlString;
     ini_Load := fun _ => iniFile s;
     cli_ProfilePath := Ok "/home/user/.azure/azureProfile.json";
     cli_LoadProfile := fun _ => profile s;
     cli_AccessTokensPath := tokensPath s;
     cli_LoadTokens := fun _ => tokens s;
     cli_ToADALToken := fun t => Ok (RawToken t);
     auth_Resource := "AZURE_AD_RESOURCE";
     auth_ActiveDirectoryEndpoint := "ActiveDirectoryEndpoint";
     auth_GetSettingsFromEnvironment := envSettings s;
     auth_GetClientCredentials := fun _ => envCredentials s;
     auth_CredentialsAuthorizer := fun cred => Ok ("bearer:" +:+ cred);
     auth_GetMSI := fun env =>
       {| msiResource := map_get (Values env) "AZURE_AD_RESOURCE";
          msiClientID := map_get (Values env) "AZURE_CLIENT_ID" |};
     auth_GetSettingsFromFile := fileCredentials s;
     auth_ClientCredentialsAuthorizerWithResource :=
       fun settings _ => Ok ("bearer:" +:+ settings);
     adal_NewOAuthConfig := fun endpoint tenant => Ok (endpoint +:+ tenant);
     adal_NewServicePrincipalTokenFromManualToken :=
       fun _ _ _ token => Ok token;
     adal_GetMSIVMEndpoint := msiEndpoint s;
     adal_NewServicePrincipalTokenFromMSI := fun _ _ => Ok "msi";
     adal_NewServicePrincipalTokenFromMSIWithUserAssignedID :=
       fun _ _ clientID => Ok ("msi:" +:+ clientID);
     adal_EnsureFresh := refresh s;
     autorest_NewBearerAuthorizer := fun spt => "bearer:" +:+ spt;
     azblob_List := fun _ => accounts s;
     azblob_ListKeys := fun _ _ _ => keys s;
     PublicCloud_StorageEndpointSuffix := "core.windows.net" |}.

Definition publicCloud : AzureEnvironment :=
  {| ResourceManagerEndpoint := "https://management.azure.com/";
     ActiveDirectoryEndpoint := "https://login.microsoftonline.com/" |}.

Definition sub (id tenant : string) (isDefault : bool) : Subscription :=
  {| ID := id; TenantID := tenant; IsDefault := isDefault |}.

(** A machine with a CLI login, no explicit credentials, no cached
    token and a managed identity. *)
Definition base : Setup :=
  {| getenv := fun _ => "";
     iniFile := Err "open /home/user/.azure/config: no such file or directory";
     profile := Ok {| Subscriptions := [sub "s0" "t0" false; sub "s1" "t1" true] |};
     envSettings := Ok {| Values := ∅; Environment := publicCloud |};
     envCredentials := Err "missing client id";
     fileCredentials := Err "auth file not found";
     tokensPath := Ok "/home/user/.azure/accessTokens.json";
     tokens := Ok [];
     refresh := fun _ => None;
     msiEndpoint := Ok "http://169.254.169.254/metadata/identity/oauth2/token";
     accounts := Ok {| accValue := Some [] |};
     keys := Ok {| Keys := Some [] |} |}.

(** Changes of one part of a setup. *)
Definition with_getenv (s : Setup) (f : string -> string) : Setup :=
  {| getenv := f; iniFile := iniFile s; profile := profile s;
     envSettings := envSettings s; envCredentials := envCredentials s;
     fileCredentials := fileCredentials s; tokensPath := tokensPath s;
     tokens := tokens s; refresh := refresh s; msiEndpoint := msiEndpoint s;
     accounts := accounts s; keys := keys s |}.

Definition with_envCredentials (s : Setup) (cred : res string) : Setup :=
  {| getenv := getenv s; iniFile := iniFile s; profile := profile s;
     envSettings := envSettings s; envCredentials := cred;
     fileCredentials := fileCredentials s; tokensPath := tokensPath s;
     tokens := tokens s; refresh := refresh s; msiEndpoint := msiEndpoint s;
     accounts := accounts s; keys := keys s |}.

Definition with_tokens (s : Setup) (path : res string) (toks : res (list Token))
           (fresh : string -> option error) : Setup :=
  {| getenv := getenv s; iniFile := iniFile s; profile := profile s;
     envSettings := envSettings s; envCredentials := envCredentials s;
     fileCredentials := fileCredentials s; tokensPath := path;
     tokens := toks; refresh := fresh; msiEndpoint := msiEndpoint s;
     accounts := accounts s; keys := keys s |}.

Definition with_accounts (s : Setup) (accs : res AccountListResult) : Setup :=
  {| getenv := getenv s; iniFile := iniFile s; profile := profile s;
     envSettings := envSettings s; envCredentials := envCredentials s;
     fileCredentials := fileCredentials s; tokensPath := tokensPath s;
     tokens := tokens s; refresh := refresh s; msiEndpoint := msiEndpoint s;
     accounts := accs; keys := keys s |}.

(** The tenant of the examples and its authority. *)
Definition tenant : AzureAuthorizerConfig := {| TenantId := "t1" |}.

Definition settings : EnvironmentSettings :=
  {| Values := ∅; Environment := publicCloud |}.

Definition cached (authority raw : string) : Token :=
  {| Authority := authority; ClientID := "04b07795-8ddb-461a-bbee-02f9e1bf7b46";
     Resource := "https://management.core.windows.net/"; RawToken := raw |}.

Definition stale : Token := cached "https://login.microsoftonline.com/t1" "stale".
Definition fresh : Token := cached "https://login.microsoftonline.com/t1" "fresh".
Definition foreign : Token := cached "https://login.microsoftonline.com/t0" "fresh".

(** Refreshing the stale token is refused. *)
Definition refreshUnlessStale (spt : string) : option error :=
  if String.eqb spt "stale" then Some "refresh token has expired" else None.

Definition tokensFile : string := "/home/user/.azure/accessTokens.json".

(** Client credentials in the environment. *)
Definition withEnvCredentials : Setup := with_envCredentials base (Ok "sp-env").

(** Client credentials in the settings file only. *)
Definition withFileCredentials : Setup :=
  {| getenv := getenv base; iniFile := iniFile base; profile := profile base;
     envSettings := envSettings base; envCredentials := envCredentials base;
     fileCredentials := Ok "sp-file"; tokensPath := tokensPath base;
     tokens := tokens base; refresh := refresh base; msiEndpoint := msiEndpoint base;
     accounts := accounts base; keys := keys base |}.

(** A cached token of another tenant followed by a fresh one of the
    tenant. *)
Definition foreignThenFresh : Setup :=
  with_tokens base (Ok tokensFile) (Ok [foreign; fresh]) refreshUnlessStale.

(** One cached token of the tenant, stale, and one of another tenant. *)
Definition staleToken : Setup :=
  with_tokens base (Ok tokensFile) (Ok [stale; foreign]) refreshUnlessStale.

(** A stale token of the tenant followed by a fresh one. *)
Definition staleThenFresh : Setup :=
  with_tokens base (Ok tokensFile) (Ok [stale; fresh]) refreshUnlessStale.

(** The path of the token cache cannot be found. *)
Definition noTokensPath : Setup :=
  with_tokens base (Err "cannot expand user-specific home dir") (Ok []) (fun _ => None).

(** AZURE_STORAGE_ACCOUNT and AZURE_STORAGE_KEY are set; the subscription
    has no storage account. *)
Definition storageEnv (name : string) : string :=
  if String.eqb name "AZURE_STORAGE_ACCOUNT" then "myaccount"
  else if String.eqb name "AZURE_STORAGE_KEY" then "secret"
  else "".

Definition explicitCredentials : Setup := with_getenv base storageEnv.

(** A subscription with three storage accounts. *)
Definition account (name id : string) : Account :=
  {| accName := Some name; accID := Some id;
     PrimaryEndpoints := Some {| Blob := Some ("https://" +:+ name +:+ ".blob.core.windows.net/") |} |}.

Definition longID : string :=
  "/subscriptions/s1/resourceGroups/rg1/providers/Microsoft.Storage/storageAccounts/myaccount".

Definition threeAccounts : Setup :=
  with_accounts base
    (Ok {| accValue := Some [account "other" "/subscriptions/s1/resourceGroups/rg0/providers";
                             account "myaccount" longID;
                             account "short" "/sub/rg/providers/x"] |}).

(** AZURE_STORAGE_ACCOUNT is set, no key is configured; the account is
    listed and has a read-only key followed by a full-permission key. *)
Definition accountEnv (name : string) : string :=
  if String.eqb name "AZURE_STORAGE_ACCOUNT" then "myaccount" else "".

Definition readKey : AccountKey :=
  {| KeyName := Some "key1"; keyValue := Some "B"; Permissions := Read |}.

Definition fullKey : AccountKey :=
  {| KeyName := Some "key2"; keyValue := Some "A"; Permissions := Full |}.

Definition listedKeys : Setup :=
  {| getenv := accountEnv; iniFile := iniFile base; profile := profile base;
     envSettings := envSettings base; envCredentials := envCredentials base;
     fileCredentials := fileCredentials base; tokensPath := tokensPath base;
     tokens := tokens base; refresh := refresh base; msiEndpoint := msiEndpoint base;
     accounts := Ok {| accValue := Some [account "myaccount" longID] |};
     keys := Ok {| Keys := Some [readKey; fullKey] |} |}.

(** AZURE_STORAGE_ACCOUNT is set, no key is configured, and the
    subscription does not list the account. *)
Definition accountOnly : Setup := with_getenv base accountEnv.

(** No CLI login: the profile cannot be loaded. *)
Definition noProfile : Setup :=
  {| getenv := getenv base; iniFile := iniFile base;
     profile := Err "open /home/user/.azure/azureProfile.json: no such file or directory";
     envSettings := envSettings base; envCredentials := envCredentials base;
     fileCredentials := fileCredentials base; tokensPath := tokensPath base;
     tokens := tokens base; refresh := refresh base; msiEndpoint := msiEndpoint base;
     accounts := accounts base; keys := keys base |}.

(** A key whose value pointer is nil. *)
Definition nilKey : AccountKey :=
  {| KeyName := Some "key0"; keyValue := None; Permissions := Full |}.

(** Settings with the Active Directory endpoint given, with and without a
    slash at its end. *)
Definition settingsWith (adEndpoint : string) : EnvironmentSettings :=
  {| Values := {[ "ActiveDirectoryEndpoint" := adEndpoint ]};
     Environment := publicCloud |}.

Definition client : @AccountsClient string :=
  {| SubscriptionID := "s1"; ClientAuthorizer := Some "bearer:msi" |}.

End Sample.

(** ** Properties *)

Section MonadLemmas.

Context {A B : Type}.

Lemma bind_ret (a : A) (k : A -> M B) : bind (ret a) k = k a.
Proof. unfold bind, ret. destruct (k a); reflexivity. Qed.

Lemma bind_call (ev : Event) (a : A) (k : A -> M B) :
  bind (call ev a) k = (ev :: trace (k a), value (k a)).
Proof. unfold bind, call. destruct (k a); reflexivity. Qed.

Lemma bind_ext (m : M A) (k k' : A -> M B) :
  (forall a, k a = k' a) -> bind m k = bind m k'.
Proof. intros H. destruct m as [t [a|]]; simpl; [rewrite H|]; reflexivity. Qed.

Lemma bind_panic (k : A -> M B) : bind panic k = panic.
Proof. reflexivity. Qed.

Lemma trace_bind (m : M A) (k : A -> M B) :
  trace (bind m k) =
  trace m ++ match value m with Some a => trace (k a) | None => [] end.
Proof.
  destruct m as [t [a|]]; simpl.
  - destruct (k a); reflexivity.
  - symmetry. apply app_nil_r.
Qed.

Lemma value_bind (m : M A) (k : A -> M B) :
  value (bind m k) = match value m with Some a => value (k a) | None => None end.
Proof.
  destruct m as [t [a|]]; simpl; [destruct (k a)|]; reflexivity.
Qed.

End MonadLemmas.

Section SubscriptionProperties.

Context {AuthorizerT SPT OAuthConfig ADALToken Credentials FileSettings : Type}.
Context (w : @World AuthorizerT SPT OAuthConfig ADALToken Credentials FileSettings).

Lemma findDefault_Ok subs s :
  findDefault subs = Ok s ->
  exists l1 l2, subs = l1 ++ s :: l2 /\ IsDefault s = true /\ Forall nonDefault l1.
Proof.
  induction subs as [|x rest IH]; simpl; [discriminate|].
  destruct (IsDefault x) eqn:Hx.
  - intros [= ->]. exists [], rest. auto.
  - intros H. destruct (IH H) as (l1 & l2 & -> & Hs & Hl).
    exists (x :: l1), l2. repeat split; auto.
Qed.

Lemma findDefault_first l1 s l2 :
  Forall nonDefault l1 -> IsDefault s = true ->
  findDefault (l1 ++ s :: l2) = Ok s.
Proof.
  induction 1 as [|x l1 Hx _ IH]; simpl; intros Hs.
  - now rewrite Hs.
  - rewrite Hx. auto.
Qed.

Lemma findDefault_none subs :
  Forall nonDefault subs ->
  findDefault subs = Err "Unable to find default azure subscription id".
Proof.
  induction 1 as [|x l Hx _ IH]; simpl; [reflexivity|]. now rewrite Hx.
Qed.

Lemma azureDefaultSubscription_loaded path profile :
  cli_ProfilePath w = Ok path -> cli_LoadProfile w path = Ok profile ->
  azureDefaultSubscription w =
  ([EvProfilePath; EvLoadProfile path], Some (findDefault (Subscriptions profile))).
Proof.
  intros Hp Hl. unfold azureDefaultSubscription.
  rewrite bind_call, Hp, bind_call, Hl. reflexivity.
Qed.

(** C5. [azureDefaultSubscription] returns the first subscription of the
    CLI profile whose [IsDefault] flag is set; when the profile has no
    such entry (the empty list included) it returns the error "Unable to
    find default azure subscription id", and anything it returns is a
    default-flagged entry preceded only by entries that are not. It never
    panics. *)
Theorem azureDefaultSubscription_first_default :
  value (azureDefaultSubscription w) <> None /\
  (forall s, value (azureDefaultSubscription w) = Some (Ok s) ->
     exists path profile l1 l2,
       cli_ProfilePath w = Ok path /\ cli_LoadProfile w path = Ok profile /\
       Subscriptions profile = l1 ++ s :: l2 /\
       IsDefault s = true /\ Forall nonDefault l1) /\
  (forall path profile,
     cli_ProfilePath w = Ok path -> cli_LoadProfile w path = Ok profile ->
     (forall l1 s l2,
        Subscriptions profile = l1 ++ s :: l2 ->
        Forall nonDefault l1 -> IsDefault s = true ->
        value (azureDefaultSubscription w) = Some (Ok s)) /\
     (Forall nonDefault (Subscriptions profile) ->
      value (azureDefaultSubscription w) =
      Some (Err "Unable to find default azure subscription id"))).
Proof.
  split; [|split].
  - unfold azureDefaultSubscription. rewrite bind_call.
    destruct (cli_ProfilePath w) as [path|e]; [|discriminate].
    rewrite bind_call. destruct (cli_LoadProfile w path); discriminate.
  - intros s. unfold azureDefaultSubscription. rewrite bind_call.
    destruct (cli_ProfilePath w) as [path|e] eqn:Hp; [|discriminate].
    rewrite bind_call.
    destruct (cli_LoadProfile w path) as [profile|e] eqn:Hl; [|discriminate].
    simpl. intros [= H]. apply findDefault_Ok in H as (l1 & l2 & ? & ? & ?).
    exists path, profile, l1, l2. auto.
  - intros path profile Hp Hl.
    rewrite (azureDefaultSubscription_loaded _ _ Hp Hl). simpl. split.
    + intros l1 s l2 -> Hl1 Hs. now rewrite findDefault_first.
    + intros H. now rewrite findDefault_none.
Qed.

End SubscriptionProperties.

Lemma azureDefaultSubscription_first_default_witness :
  value (azureDefaultSubscription (Sample.world Sample.base))
  = Some (Ok (Sample.sub "s1" "t1" true)).
Proof.
  pose proof (azureDefaultSubscription_first_default (Sample.world Sample.base))
    as (_ & _ & H).
  destruct (H "/home/user/.azure/azureProfile.json"
              {| Subscriptions := [Sample.sub "s0" "t0" false; Sample.sub "s1" "t1" true] |}
              eq_refl eq_refl) as [Hfirst _].
  apply (Hfirst [Sample.sub "s0" "t0" false] (Sample.sub "s1" "t1" true) []).
  - reflexivity.
  - repeat constructor.
  - reflexivity.
Defined.

(** ** Splitting on a separator *)

Section SplitProperties.

Local Open Scope nat_scope.

Lemma length_slice_from n s :
  String.length (slice_from n s) = String.length s - n.
Proof.
  revert s. induction n as [|n IH]; intros [|c s]; simpl; auto with arith.
Qed.

Lemma prefix_length a b :
  String.prefix a b = true -> String.length a <= String.length b.
Proof.
  revert b. induction a as [|c a IH]; intros [|d b]; simpl; try lia; try discriminate.
  destruct (Ascii.ascii_dec c d); [|discriminate].
  intros H. apply IH in H. lia.
Qed.

Lemma index_nat_unfold s sep :
  index_nat s sep =
  if String.prefix sep s then Some 0
  else match s with
       | EmptyString => None
       | String _ s' => option_map S (index_nat s' sep)
       end.
Proof. destruct s; reflexivity. Qed.

Lemma index_nat_bound s sep i :
  index_nat s sep = Some i -> i + String.length sep <= String.length s.
Proof.
  revert i. induction s as [|c s IH]; intros i; rewrite index_nat_unfold;
    match goal with |- context [String.prefix sep ?t] =>
      destruct (String.prefix sep t) eqn:Hp end.
  - intros [= <-]. apply prefix_length in Hp. lia.
  - discriminate.
  - intros [= <-]. apply prefix_length in Hp. lia.
  - destruct (index_nat s sep) as [j|]; simpl; [|discriminate].
    intros [= <-]. specialize (IH j eq_refl). lia.
Qed.

Lemma SplitN_SS s sep n :
  SplitN s sep (S (S n)) =
  match index_nat s sep with
  | None => [s]
  | Some i => slice_to i s :: SplitN (slice_from (i + String.length sep) s) sep (S n)
  end.
Proof. reflexivity. Qed.

Lemma SplitN_nonempty s sep n : 0 < n -> 0 < length (SplitN s sep n).
Proof.
  destruct n as [|[|n]]; [lia|simpl; lia|]. rewrite SplitN_SS.
  destruct (index_nat s sep); simpl; lia.
Qed.

Lemma index_nat_empty sep :
  0 < String.length sep -> index_nat EmptyString sep = None.
Proof. destruct sep; simpl; [lia|reflexivity]. Qed.

(** [SplitN] with a limit of [n] pieces yields [n] pieces when the full
    split has at least [n], and the full split otherwise. *)
Lemma SplitN_length s sep n m :
  0 < String.length sep -> 0 < n -> String.length s < m ->
  length (SplitN s sep n) = Nat.min n (length (SplitN s sep m)).
Proof.
  intros Hsep. revert s m. induction n as [|n IH]; intros s m Hn Hm; [lia|].
  destruct n as [|n].
  - assert (0 < length (SplitN s sep m)) by (apply SplitN_nonempty; lia).
    change (length (SplitN s sep 1)) with 1. lia.
  - destruct m as [|[|m]]; [lia| |].
    + destruct s; simpl in Hm; [|lia].
      rewrite SplitN_SS, index_nat_empty by assumption. reflexivity.
    + rewrite !SplitN_SS.
      destruct (index_nat s sep) as [i|] eqn:Hi; [|reflexivity].
      apply index_nat_bound in Hi. cbn [length].
      rewrite (IH _ (S m)); [lia|lia|]. rewrite length_slice_from. lia.
Qed.

(** The pieces before the last one are pieces of the full split. *)
Lemma SplitN_lookup s sep n m i :
  0 < String.length sep -> S i < n -> String.length s < m ->
  SplitN s sep n !! i = SplitN s sep m !! i.
Proof.
  intros Hsep. revert s m i. induction n as [|n IH]; intros s m i Hn Hm; [lia|].
  destruct n as [|n]; [lia|].
  destruct m as [|[|m]]; [lia| |].
  - destruct s; simpl in Hm; [|lia].
    rewrite SplitN_SS, index_nat_empty by assumption. reflexivity.
  - rewrite !SplitN_SS.
    destruct (index_nat s sep) as [j|] eqn:Hj; [|reflexivity].
    apply index_nat_bound in Hj.
    destruct i as [|i]; [reflexivity|]. cbn [lookup list_lookup].
    apply IH; [lia|]. rewrite length_slice_from. lia.
Qed.

Lemma SplitN_segments s sep n :
  0 < String.length sep -> 0 < n ->
  length (SplitN s sep n) = Nat.min n (segments s sep).
Proof. intros. apply SplitN_length; auto. Qed.

Lemma SplitN_segment s sep n i :
  0 < String.length sep -> S i < n ->
  SplitN s sep n !! i = Split s sep !! i.
Proof. intros. apply SplitN_lookup; auto. Qed.

End SplitProperties.

(** ** Key selection *)

Section KeySelection.

Lemma selectKey_value first rest key0 :
  value (selectKey (first :: rest) key0) =
  match value (preferFull (first :: rest) key0) with
  | Some _ => keyValue first
  | None => None
  end.
Proof.
  unfold selectKey. rewrite value_bind.
  destruct (value (preferFull (first :: rest) key0)); [|reflexivity].
  cbn [lookup list_lookup deref]. rewrite bind_ret.
  destruct (keyValue first); reflexivity.
Qed.

Lemma preferFull_total keys key0 :
  Forall (fun k => keyValue k <> None) keys ->
  value (preferFull keys key0) <> None.
Proof.
  induction 1 as [|k rest Hk _ IH]; simpl; [discriminate|].
  destruct (String.eqb (Permissions k) Full); [|assumption].
  destruct (keyValue k); [discriminate|contradiction].
Qed.

Lemma selectKey_trace keys key0 : trace (selectKey keys key0) = [].
Proof.
  unfold selectKey. rewrite trace_bind.
  assert (Hp : forall ks, trace (preferFull ks key0) = []).
  { induction ks as [|k ks IH]; simpl; [reflexivity|].
    destruct (String.eqb (Permissions k) Full); [|assumption].
    destruct (keyValue k); reflexivity. }
  rewrite Hp. destruct (value (preferFull keys key0)); [|reflexivity].
  destruct keys as [|k ks]; [reflexivity|]. cbn [lookup list_lookup deref].
  rewrite bind_ret. destruct (keyValue k); reflexivity.
Qed.

End KeySelection.

(** ** Account lookup *)

Section AccountLookup.

Context {AuthorizerT SPT OAuthConfig ADALToken Credentials FileSettings : Type}.
Context (w : @World AuthorizerT SPT OAuthConfig ADALToken Credentials FileSettings).

Local Open Scope nat_scope.

Lemma findAccount_cons acc rest account :
  findAccount (acc :: rest) account =
  bind (deref (accName acc)) (fun name =>
    if String.eqb name account then
      bind (deref (accID acc)) (fun id =>
        let parts := SplitN id "/" 6 in
        if negb (Nat.eqb (length parts) 6) then
          ret (Err ("Malformed account id: " +:+ id))
        else
          bind (deref (PrimaryEndpoints acc)) (fun endpoints =>
          bind (deref (Blob endpoints)) (fun blob =>
          bind (deref (parts !! 4)) (fun resourceGroup =>
          ret (Ok (blob, resourceGroup))))))
    else findAccount rest account).
Proof. reflexivity. Qed.

Lemma findAccount_skip l1 accs account :
  Forall (otherName account) l1 ->
  findAccount (l1 ++ accs) account = findAccount accs account.
Proof.
  induction 1 as [|acc l1 (name & Hn & Hne) _ IH]; [reflexivity|].
  simpl. rewrite Hn. cbn [deref]. rewrite bind_ret.
  apply String.eqb_neq in Hne. now rewrite Hne.
Qed.

Lemma findAccount_none accs account :
  Forall (otherName account) accs ->
  findAccount accs account = ret (Err ("Azure account not found: " +:+ account)).
Proof.
  intros H. rewrite <- (app_nil_r accs). now rewrite findAccount_skip.
Qed.

Lemma findAccount_malformed acc rest account id :
  accName acc = Some account -> accID acc = Some id ->
  segments id "/" < 6 ->
  findAccount (acc :: rest) account = ret (Err ("Malformed account id: " +:+ id)).
Proof.
  intros Hn Hid Hseg. rewrite findAccount_cons, Hn. cbn [deref]. rewrite bind_ret.
  rewrite String.eqb_refl, Hid. cbn [deref]. rewrite bind_ret. cbv zeta.
  rewrite (SplitN_segments id "/" 6) by (simpl; lia).
  destruct (Nat.eqb_spec (Nat.min 6 (segments id "/")) 6); [lia|reflexivity].
Qed.

Lemma findAccount_found acc rest account id endpoints blob :
  accName acc = Some account -> accID acc = Some id ->
  6 <= segments id "/" ->
  PrimaryEndpoints acc = Some endpoints -> Blob endpoints = Some blob ->
  exists resourceGroup,
    Split id "/" !! 4 = Some resourceGroup /\
    findAccount (acc :: rest) account = ret (Ok (blob, resourceGroup)).
Proof.
  intros Hn Hid Hseg Hpe Hblob.
  destruct (lookup_lt_is_Some_2 (Split id "/") 4) as [rg Hrg];
    [unfold segments in Hseg; lia|].
  exists rg. split; [assumption|].
  rewrite findAccount_cons, Hn. cbn [deref]. rewrite bind_ret.
  rewrite String.eqb_refl, Hid. cbn [deref]. rewrite bind_ret. cbv zeta.
  rewrite (SplitN_segments id "/" 6) by (simpl; lia).
  destruct (Nat.eqb_spec (Nat.min 6 (segments id "/")) 6); [|lia].
  cbn [negb]. rewrite Hpe. cbn [deref]. rewrite bind_ret, Hblob.
  cbn [deref]. rewrite bind_ret.
  rewrite (SplitN_segment id "/" 6 4), Hrg by (simpl; lia).
  cbn [deref]. now rewrite bind_ret.
Qed.

Lemma azureFindAccount_listed client account accs :
  azblob_List w client = Ok {| accValue := Some accs |} ->
  azureFindAccount w client account =
  (EvAccountsList :: trace (findAccount accs account),
   value (findAccount accs account)).
Proof.
  intros Hl. unfold azureFindAccount. rewrite bind_call, Hl.
  cbn [accValue deref]. now rewrite bind_ret.
Qed.

(** C8 (amended). [azureFindAccount] scans the listed accounts in order for
    a name match. On the first match it splits the account's resource
    identifier on "/" into at most 6 pieces, the sixth being the unsplit
    remainder: an identifier of fewer than 6 slash-separated segments
    gives the error "Malformed account id: <id>" without a panic, and an
    identifier of 6 segments or more gives the blob primary endpoint
    together with the segment at index 4 as the resource group. When no
    account of the list has the name, the error is "Azure account not
    found: <account>". An error of the listing itself is returned as it
    is. *)
Theorem azureFindAccount_first_match client account :
  (forall e, azblob_List w client = Err e ->
             value (azureFindAccount w client account) = Some (Err e)) /\
  (forall accs, azblob_List w client = Ok {| accValue := Some accs |} ->
     (Forall (otherName account) accs ->
      value (azureFindAccount w client account) =
      Some (Err ("Azure account not found: " +:+ account))) /\
     (forall l1 acc l2 id,
        accs = l1 ++ acc :: l2 -> Forall (otherName account) l1 ->
        accName acc = Some account -> accID acc = Some id ->
        (segments id "/" < 6 ->
         value (azureFindAccount w client account) =
         Some (Err ("Malformed account id: " +:+ id))) /\
        (forall endpoints blob,
           6 <= segments id "/" ->
           PrimaryEndpoints acc = Some endpoints -> Blob endpoints = Some blob ->
           exists resourceGroup,
             Split id "/" !! 4 = Some resourceGroup /\
             value (azureFindAccount w client account) =
             Some (Ok (blob, resourceGroup))))).
Proof.
  split.
  - intros e He. unfold azureFindAccount. now rewrite bind_call, He.
  - intros accs Hl. rewrite (azureFindAccount_listed _ _ _ Hl). cbn [value snd].
    split.
    + intros H. now rewrite findAccount_none.
    + intros l1 acc l2 id -> Hl1 Hn Hid. rewrite findAccount_skip by assumption.
      split.
      * intros Hseg. now rewrite (findAccount_malformed _ _ _ _ Hn Hid Hseg).
      * intros endpoints blob Hseg Hpe Hblob.
        destruct (findAccount_found acc l2 account id endpoints blob)
          as (rg & Hrg & ->); auto.
        exists rg. auto.
Qed.

End AccountLookup.

(** ** The authorizer chain *)

Section AuthorizerChain.

Context {AuthorizerT SPT OAuthConfig ADALToken Credentials FileSettings : Type}.
Context (w : @World AuthorizerT SPT OAuthConfig ADALToken Credentials FileSettings).

Lemma sptTest_eq spt :
  sptTest w spt =
  ([EvEnsureFresh],
   Some (match adal_EnsureFresh w spt with
         | Some e => Err e
         | None => Ok (autorest_NewBearerAuthorizer w spt)
         end)).
Proof.
  unfold sptTest. rewrite bind_call. destruct (adal_EnsureFresh w spt); reflexivity.
Qed.

Lemma tokenToAuthorizer_total t0 :
  exists t r, tokenToAuthorizer w t0 = (t, Some r) /\
              Forall (fun ev => ofStep 4 ev = true) t.
Proof.
  unfold tokenToAuthorizer. rewrite bind_ret.
  destruct (url_Parse w (Authority t0)) as [u|e];
    [|do 2 eexists; split; [reflexivity|constructor]].
  rewrite bind_ret.
  destruct (adal_NewOAuthConfig _ _ _) as [oauth|e];
    [|do 2 eexists; split; [reflexivity|constructor]].
  rewrite bind_ret.
  destruct (cli_ToADALToken w t0) as [aToken|e];
    [|do 2 eexists; split; [reflexivity|constructor]].
  rewrite bind_ret.
  destruct (adal_NewServicePrincipalTokenFromManualToken _ _ _ _ _) as [spt|e];
    [|do 2 eexists; split; [reflexivity|constructor]].
  rewrite sptTest_eq. do 2 eexists; split; [reflexivity|repeat constructor].
Qed.

Lemma msiToAuthorizer_total mc :
  exists t r, msiToAuthorizer w mc = (t, Some r) /\
              Forall (fun ev => ofStep 5 ev = true) t.
Proof.
  unfold msiToAuthorizer. rewrite bind_call.
  destruct (adal_GetMSIVMEndpoint w) as [ep|e];
    [|do 2 eexists; split; [reflexivity|repeat constructor]].
  cbv beta iota. rewrite bind_ret.
  match goal with |- context [match ?x with Ok _ => _ | Err _ => _ end] =>
    destruct x as [spt|e] end;
    [|do 2 eexists; split; [reflexivity|repeat constructor]].
  rewrite sptTest_eq. do 2 eexists; split; [reflexivity|repeat constructor].
Qed.

Lemma azureDefaultSubscription_total :
  exists t r, azureDefaultSubscription w = (t, Some r) /\
              Forall (fun ev => ofStep 1 ev = true) t.
Proof.
  unfold azureDefaultSubscription. rewrite bind_call.
  destruct (cli_ProfilePath w) as [path|e];
    [|do 2 eexists; split; [reflexivity|repeat constructor]].
  rewrite bind_call.
  destruct (cli_LoadProfile w path) as [profile|e];
    do 2 eexists; (split; [reflexivity|repeat constructor]).
Qed.

Lemma resolveTenant_total c :
  exists t r, resolveTenant w c = (t, Some r) /\
              Forall (fun ev => ofStep 1 ev = true) t.
Proof.
  unfold resolveTenant. destruct (String.eqb (TenantId c) "").
  - destruct azureDefaultSubscription_total as (t & r & -> & Ht).
    destruct r as [s|e]; do 2 eexists; (split; [reflexivity|]);
      rewrite app_nil_r; assumption.
  - do 2 eexists; split; [reflexivity|constructor].
Qed.

Lemma envClientCredentials_eq env :
  exists r, envClientCredentials w env = ([EvEnvClientCredentials], Some r).
Proof.
  unfold envClientCredentials. rewrite bind_call.
  destruct (auth_GetClientCredentials w env) as [cred|e]; [|eexists; reflexivity].
  destruct (auth_CredentialsAuthorizer w cred); eexists; reflexivity.
Qed.

Lemma fileClientCredentials_eq :
  exists r, fileClientCredentials w = ([EvGetSettingsFromFile], Some r).
Proof.
  unfold fileClientCredentials. rewrite bind_call.
  destruct (auth_GetSettingsFromFile w) as [settings|e]; [|eexists; reflexivity].
  destruct (auth_ClientCredentialsAuthorizerWithResource w settings _);
    eexists; reflexivity.
Qed.

Lemma scanTokens_total adEndpoint accessTokens err :
  exists t r, scanTokens w adEndpoint accessTokens err = (t, Some r) /\
              Forall (fun ev => ofStep 4 ev = true) t.
Proof.
  revert err. induction accessTokens as [|t0 rest IH]; intros err; simpl.
  - do 2 eexists; split; [reflexivity|constructor].
  - destruct (String.eqb (Authority t0) adEndpoint); [|apply IH].
    destruct (tokenToAuthorizer_total t0) as (t & r & -> & Ht).
    destruct r as [a|e]; cbn [bind].
    + do 2 eexists; split; [reflexivity|]. now rewrite app_nil_r.
    + destruct (IH (Some e)) as (t' & r & -> & Ht').
      do 2 eexists; split; [reflexivity|]. apply Forall_app; split; assumption.
Qed.

Lemma cachedTokens_total adEndpoint :
  exists t r, cachedTokens w adEndpoint = (t, Some r) /\
              Forall (fun ev => ofStep 4 ev = true) t.
Proof.
  unfold cachedTokens. rewrite bind_call.
  destruct (cli_AccessTokensPath w) as [path|e];
    [|do 2 eexists; split; [reflexivity|repeat constructor]].
  rewrite bind_call.
  destruct (cli_LoadTokens w path) as [accessTokens|e];
    [|do 2 eexists; split; [reflexivity|repeat constructor]].
  destruct (scanTokens_total adEndpoint accessTokens None) as (t & r & -> & Ht).
  do 2 eexists; split; [reflexivity|]. repeat constructor. assumption.
Qed.

(** The trace and the value of the chain once the tenant and the
    environment settings are known. *)
Lemma Authorizer_reach c c' env :
  value (resolveTenant w c) = Some (Ok c') ->
  auth_GetSettingsFromEnvironment w = Ok env ->
  let env' := fillDefaults w env in
  let tokens := cachedTokens w (adEndpointOf w env' c') in
  let msi := msiToAuthorizer w (auth_GetMSI w env') in
  Authorizer w c =
  match value (envClientCredentials w env) with
  | Some (Some a) =>
      (trace (resolveTenant w c) ++
         [EvGetSettingsFromEnvironment; EvEnvClientCredentials], Some (Ok a))
  | _ =>
      match value (fileClientCredentials w) with
      | Some (Some a) =>
          (trace (resolveTenant w c) ++
             [EvGetSettingsFromEnvironment; EvEnvClientCredentials;
              EvGetSettingsFromFile], Some (Ok a))
      | _ =>
          match value tokens with
          | Some (Found a) =>
              (trace (resolveTenant w c) ++
                 [EvGetSettingsFromEnvironment; EvEnvClientCredentials;
                  EvGetSettingsFromFile] ++ trace tokens, Some (Ok a))
          | Some (NotFound (Some e)) =>
              (trace (resolveTenant w c) ++
                 [EvGetSettingsFromEnvironment; EvEnvClientCredentials;
                  EvGetSettingsFromFile] ++ trace tokens, Some (Err e))
          | _ =>
              (trace (resolveTenant w c) ++
                 [EvGetSettingsFromEnvironment; EvEnvClientCredentials;
                  EvGetSettingsFromFile] ++ trace tokens ++ trace msi,
               value msi)
          end
      end
  end.
Proof.
  intros Hc Henv env' tokens msi. subst tokens msi env'. unfold Authorizer.
  destruct (resolveTenant_total c) as (t1 & r1 & Hr1 & _).
  rewrite Hr1 in *. cbn [value snd] in Hc. injection Hc as ->.
  cbn [bind trace fst]. rewrite bind_call, Henv. cbv beta iota.
  destruct (envClientCredentials_eq env) as (r2 & ->). cbn [bind trace value fst snd].
  destruct r2 as [a|]; [cbn; reflexivity|].
  destruct fileClientCredentials_eq as (r3 & ->). cbn [bind trace value fst snd].
  destruct r3 as [a|]; [cbn; reflexivity|].
  destruct (cachedTokens_total (adEndpointOf w (fillDefaults w env) c'))
    as (t4 & r4 & -> & _).
  cbn [bind trace value fst snd].
  destruct r4 as [a|[e|]]; [cbn; rewrite ?app_nil_r; reflexivity..|].
  destruct (msiToAuthorizer_total (auth_GetMSI w (fillDefaults w env)))
    as (t5 & r5 & -> & _).
  cbn. reflexivity.
Qed.

Lemma Authorizer_inStepOrder c : inStepOrder (trace (Authorizer w c)).
Proof.
  destruct (resolveTenant_total c) as (t1 & r1 & Hr1 & Ht1).
  destruct r1 as [c'|e];
    [destruct (auth_GetSettingsFromEnvironment w) as [env|e] eqn:Henv|].
  - rewrite (Authorizer_reach c c' env) by (rewrite ?Hr1; auto). rewrite Hr1.
    cbn [trace fst].
    destruct (envClientCredentials_eq env) as (r2 & ->). cbn [value snd].
    destruct r2 as [a|].
    { exists t1, [EvGetSettingsFromEnvironment; EvEnvClientCredentials], [], [], [].
      cbn [fst]. split; [reflexivity|]. repeat split; repeat constructor; assumption. }
    destruct fileClientCredentials_eq as (r3 & ->). cbn [value snd].
    destruct r3 as [a|].
    { exists t1, [EvGetSettingsFromEnvironment; EvEnvClientCredentials],
        [EvGetSettingsFromFile], [], [].
      cbn [fst]. split; [reflexivity|]. repeat split; repeat constructor; assumption. }
    destruct (cachedTokens_total (adEndpointOf w (fillDefaults w env) c'))
      as (t4 & r4 & -> & Ht4).
    destruct (msiToAuthorizer_total (auth_GetMSI w (fillDefaults w env)))
      as (t5 & r5 & -> & Ht5).
    cbn [value snd trace fst].
    destruct r4 as [a|[e|]]; cbn [fst].
    + exists t1, [EvGetSettingsFromEnvironment; EvEnvClientCredentials],
        [EvGetSettingsFromFile], t4, [].
      split; [now rewrite app_nil_r|].
      repeat split; repeat constructor; assumption.
    + exists t1, [EvGetSettingsFromEnvironment; EvEnvClientCredentials],
        [EvGetSettingsFromFile], t4, [].
      split; [now rewrite app_nil_r|].
      repeat split; repeat constructor; assumption.
    + exists t1, [EvGetSettingsFromEnvironment; EvEnvClientCredentials],
        [EvGetSettingsFromFile], t4, t5.
      split; [reflexivity|]. repeat split; repeat constructor; assumption.
  - unfold Authorizer. rewrite Hr1. cbn [bind]. rewrite bind_call, Henv.
    exists t1, [EvGetSettingsFromEnvironment], [], [], [].
    cbn. split; [reflexivity|]. repeat split; repeat constructor; assumption.
  - unfold Authorizer. rewrite Hr1. cbn.
    exists t1, [], [], [], []. split; [reflexivity|].
    repeat split; repeat constructor; assumption.
Qed.

Lemma step1_consults t :
  Forall (fun ev => ofStep 1 ev = true) t -> Forall (fun ev => consults ev = false) t.
Proof. apply List.Forall_impl. intros [] H; try discriminate; reflexivity. Qed.

Lemma step4_no_msi t :
  Forall (fun ev => ofStep 4 ev = true) t -> ~ In EvGetMSIVMEndpoint t.
Proof.
  intros H Hin. rewrite Forall_forall in H.
  apply list_elem_of_In in Hin. specialize (H _ Hin). discriminate.
Qed.

Lemma step1_no_msi t :
  Forall (fun ev => ofStep 1 ev = true) t -> ~ In EvGetMSIVMEndpoint t.
Proof.
  intros H Hin. rewrite Forall_forall in H.
  apply list_elem_of_In in Hin. specialize (H _ Hin). discriminate.
Qed.

(** The chain relative to its blocks: the events of every run come in the
    order of the five steps, and the first block that yields an authorizer
    gives the result, the trace ending with that block. *)
Lemma Authorizer_blocks_first_success c :
  inStepOrder (trace (Authorizer w c)) /\
  forall c' env,
    value (resolveTenant w c) = Some (Ok c') ->
    auth_GetSettingsFromEnvironment w = Ok env ->
    (forall a,
       value (envClientCredentials w env) = Some (Some a) ->
       value (Authorizer w c) = Some (Ok a) /\
       trace (Authorizer w c) =
         trace (resolveTenant w c) ++
           [EvGetSettingsFromEnvironment; EvEnvClientCredentials] /\
       Forall (fun ev => consults ev = false) (trace (Authorizer w c))) /\
    (value (envClientCredentials w env) = Some None ->
     (forall a,
        value (fileClientCredentials w) = Some (Some a) ->
        value (Authorizer w c) = Some (Ok a) /\
        trace (Authorizer w c) =
          trace (resolveTenant w c) ++
            [EvGetSettingsFromEnvironment; EvEnvClientCredentials;
             EvGetSettingsFromFile] /\
        Forall (fun ev => ofStep 4 ev = false /\ ofStep 5 ev = false)
               (trace (Authorizer w c))) /\
     (value (fileClientCredentials w) = Some None ->
      let env' := fillDefaults w env in
      let tokens := cachedTokens w (adEndpointOf w env' c') in
      let msi := msiToAuthorizer w (auth_GetMSI w env') in
      (forall a,
         value tokens = Some (Found a) ->
         value (Authorizer w c) = Some (Ok a) /\
         trace (Authorizer w c) =
           trace (resolveTenant w c) ++
             [EvGetSettingsFromEnvironment; EvEnvClientCredentials;
              EvGetSettingsFromFile] ++ trace tokens /\
         ~ In EvGetMSIVMEndpoint (trace (Authorizer w c))) /\
      (value tokens = Some (NotFound None) ->
       value (Authorizer w c) = value msi /\
       trace (Authorizer w c) =
         trace (resolveTenant w c) ++
           [EvGetSettingsFromEnvironment; EvEnvClientCredentials;
            EvGetSettingsFromFile] ++ trace tokens ++ trace msi))).
Proof.
  split; [apply Authorizer_inStepOrder|].
  intros c' env Hc Henv.
  pose proof (Authorizer_reach c c' env Hc Henv) as Heq. cbv zeta in Heq.
  destruct (resolveTenant_total c) as (t1 & r1 & Hr1 & Ht1).
  destruct (cachedTokens_total (adEndpointOf w (fillDefaults w env) c'))
    as (t4 & r4 & Hr4 & Ht4).
  split; [|intros Hnone; split].
  - intros a Ha. rewrite Ha in Heq. rewrite Heq, Hr1. cbn [trace value fst snd].
    repeat split. apply Forall_app; split; [now apply step1_consults|].
    repeat constructor.
  - intros a Ha. rewrite Hnone, Ha in Heq. rewrite Heq, Hr1.
    cbn [trace value fst snd]. repeat split.
    apply Forall_app; split.
    + revert Ht1. apply List.Forall_impl. intros [] H; try discriminate; auto.
    + repeat constructor.
  - intros Hnone'. cbv zeta. rewrite Hnone, Hnone' in Heq. split.
    + intros a Ha. rewrite Ha in Heq. rewrite Heq, Hr1, Hr4.
      cbn [trace value fst snd]. repeat split.
      rewrite !in_app_iff. intros [H|[H|H]].
      * revert H. now apply step1_no_msi.
      * cbn in H. intuition discriminate.
      * revert H. now apply step4_no_msi.
    + intros Ha. rewrite Ha in Heq. rewrite Heq. split; reflexivity.
Qed.

End AuthorizerChain.

(** ** The cached-token step *)

Section CachedTokens.

Context {AuthorizerT SPT OAuthConfig ADALToken Credentials FileSettings : Type}.
Context (w : @World AuthorizerT SPT OAuthConfig ADALToken Credentials FileSettings).

Lemma scanTokens_cons adEndpoint t rest err :
  scanTokens w adEndpoint (t :: rest) err =
  if String.eqb (Authority t) adEndpoint then
    bind (tokenToAuthorizer w t) (fun r =>
      match r with
      | Ok authorizer => ret (Found authorizer)
      | Err e => scanTokens w adEndpoint rest (Some e)
      end)
  else scanTokens w adEndpoint rest err.
Proof. reflexivity. Qed.

Lemma scanTokens_rejected adEndpoint l1 rest err :
  Forall (rejected w adEndpoint) l1 ->
  exists err', value (scanTokens w adEndpoint (l1 ++ rest) err) =
               value (scanTokens w adEndpoint rest err').
Proof.
  intros H. revert err. induction H as [|t l1 Ht _ IH]; intros err.
  - exists err. reflexivity.
  - cbn [app]. rewrite scanTokens_cons.
    destruct (String.eqb_spec (Authority t) adEndpoint) as [Heq|Hne]; [|apply IH].
    destruct Ht as [Hne|[e He]]; [contradiction|].
    rewrite value_bind, He. apply IH.
Qed.

Lemma scanTokens_no_match adEndpoint l err :
  Forall (fun t => Authority t <> adEndpoint) l ->
  scanTokens w adEndpoint l err = ret (NotFound err).
Proof.
  induction 1 as [|t l Ht _ IH]; [reflexivity|]. rewrite scanTokens_cons.
  apply String.eqb_neq in Ht. now rewrite Ht.
Qed.

Lemma scanTokens_found adEndpoint l1 t l2 a err :
  Forall (rejected w adEndpoint) l1 -> Authority t = adEndpoint ->
  value (tokenToAuthorizer w t) = Some (Ok a) ->
  value (scanTokens w adEndpoint (l1 ++ t :: l2) err) = Some (Found a).
Proof.
  intros Hl1 Ht Ha. destruct (scanTokens_rejected _ _ (t :: l2) err Hl1) as [err' ->].
  rewrite scanTokens_cons. apply String.eqb_eq in Ht. rewrite Ht.
  now rewrite value_bind, Ha.
Qed.

Lemma scanTokens_last_error adEndpoint l1 t l2 e err :
  Forall (rejected w adEndpoint) l1 -> Authority t = adEndpoint ->
  value (tokenToAuthorizer w t) = Some (Err e) ->
  Forall (fun t' => Authority t' <> adEndpoint) l2 ->
  value (scanTokens w adEndpoint (l1 ++ t :: l2) err) = Some (NotFound (Some e)).
Proof.
  intros Hl1 Ht He Hl2.
  destruct (scanTokens_rejected _ _ (t :: l2) err Hl1) as [err' ->].
  rewrite scanTokens_cons. apply String.eqb_eq in Ht. rewrite Ht.
  rewrite value_bind, He. now rewrite scanTokens_no_match.
Qed.

(** Once a conversion has failed, a scan over tokens that are all passed
    over ends with an error in [err]. *)
Lemma scanTokens_rejected_error adEndpoint l e :
  Forall (rejected w adEndpoint) l ->
  exists e', value (scanTokens w adEndpoint l (Some e)) = Some (NotFound (Some e')).
Proof.
  intros H. revert e. induction H as [|t l Ht _ IH]; intros e.
  - exists e. reflexivity.
  - rewrite scanTokens_cons.
    destruct (String.eqb_spec (Authority t) adEndpoint) as [Heq|Hne]; [|apply IH].
    destruct Ht as [Hne|[e0 He0]]; [contradiction|].
    rewrite value_bind, He0. apply IH.
Qed.

Lemma scanTokens_all_rejected adEndpoint l1 t l2 e err :
  Forall (rejected w adEndpoint) l1 -> Authority t = adEndpoint ->
  value (tokenToAuthorizer w t) = Some (Err e) ->
  Forall (rejected w adEndpoint) l2 ->
  exists e',
    value (scanTokens w adEndpoint (l1 ++ t :: l2) err) = Some (NotFound (Some e')) /\
    (Forall (fun t' => Authority t' <> adEndpoint) l2 -> e' = e).
Proof.
  intros Hl1 Ht He Hl2.
  destruct (scanTokens_rejected _ _ (t :: l2) err Hl1) as [err' Hskip].
  assert (Hcons : value (scanTokens w adEndpoint (t :: l2) err') =
                  value (scanTokens w adEndpoint l2 (Some e))).
  { rewrite scanTokens_cons. apply String.eqb_eq in Ht. rewrite Ht.
    now rewrite value_bind, He. }
  destruct (scanTokens_rejected_error adEndpoint l2 e Hl2) as [e' He'].
  exists e'. split; [now rewrite Hskip, Hcons|].
  intros Hnone. rewrite scanTokens_no_match in He' by assumption.
  now injection He'.
Qed.

Lemma cachedTokens_loaded adEndpoint path accessTokens :
  cli_AccessTokensPath w = Ok path -> cli_LoadTokens w path = Ok accessTokens ->
  value (cachedTokens w adEndpoint) = value (scanTokens w adEndpoint accessTokens None).
Proof.
  intros Hp Hl. unfold cachedTokens. now rewrite bind_call, Hp, bind_call, Hl.
Qed.

(** Value and trace of the chain from the token cache on. *)
Lemma Authorizer_tokens c c' env :
  reachesTokenCache w c c' env ->
  let env' := fillDefaults w env in
  let tokens := cachedTokens w (adEndpointOf w env' c') in
  let msi := msiToAuthorizer w (auth_GetMSI w env') in
  let before := trace (resolveTenant w c) ++
                  [EvGetSettingsFromEnvironment; EvEnvClientCredentials;
                   EvGetSettingsFromFile] in
  (forall a, value tokens = Some (Found a) ->
             value (Authorizer w c) = Some (Ok a) /\
             ~ In EvGetMSIVMEndpoint (trace (Authorizer w c))) /\
  (forall e, value tokens = Some (NotFound (Some e)) ->
             value (Authorizer w c) = Some (Err e) /\
             ~ In EvGetMSIVMEndpoint (trace (Authorizer w c))) /\
  (value tokens = Some (NotFound None) ->
   value (Authorizer w c) = value msi /\
   trace (Authorizer w c) = before ++ trace tokens ++ trace msi).
Proof.
  intros (Hc & Henv & H2 & H3). cbv zeta.
  pose proof (Authorizer_reach w c c' env Hc Henv) as Heq. cbv zeta in Heq.
  rewrite H2, H3 in Heq.
  destruct (resolveTenant_total w c) as (t1 & r1 & Hr1 & Ht1).
  destruct (cachedTokens_total w (adEndpointOf w (fillDefaults w env) c'))
    as (t4 & r4 & Hr4 & Ht4).
  assert (Hno : ~ In EvGetMSIVMEndpoint
                  (t1 ++ [EvGetSettingsFromEnvironment; EvEnvClientCredentials;
                          EvGetSettingsFromFile] ++ t4)).
  { rewrite !in_app_iff. intros [H|[H|H]].
    - revert H. now apply step1_no_msi.
    - cbn in H. intuition discriminate.
    - revert H. now apply step4_no_msi. }
  rewrite Hr1, Hr4 in *. cbn [trace value fst snd] in *.
  split; [|split].
  - intros a [= ->]. rewrite Heq. auto.
  - intros e [= ->]. rewrite Heq. auto.
  - intros [= ->]. rewrite Heq. cbn [fst snd]. split; [reflexivity|].
    now rewrite <- !app_assoc.
Qed.

Lemma Authorizer_conversion_error_returned c c' env path l1 t l2 e :
  reachesTokenCache w c c' env ->
  cli_AccessTokensPath w = Ok path ->
  cli_LoadTokens w path = Ok (l1 ++ t :: l2) ->
  Forall (rejected w (adEndpointOf w (fillDefaults w env) c')) l1 ->
  Authority t = adEndpointOf w (fillDefaults w env) c' ->
  value (tokenToAuthorizer w t) = Some (Err e) ->
  Forall (fun t' => Authority t' <> adEndpointOf w (fillDefaults w env) c') l2 ->
  value (Authorizer w c) = Some (Err e) /\
  ~ In EvGetMSIVMEndpoint (trace (Authorizer w c)).
Proof.
  intros Hreach Hp Hl Hl1 Ht He Hl2.
  destruct (Authorizer_tokens c c' env Hreach) as (_ & Herr & _).
  apply Herr. rewrite (cachedTokens_loaded _ _ _ Hp Hl).
  now apply scanTokens_last_error.
Qed.

(** C3 (amended). When the scan of the token cache ends with no token
    converted there are two cases. If no cached token has the target
    authority, the chain proceeds to the managed identity and the result
    of the managed identity is the outcome of the chain. If one or more
    tokens of the target authority were tried and failed, the error of the
    last of them is still in [err] after the loop: [Authorizer] returns it
    as the error of the chain and the managed identity is not tried. *)
Theorem Authorizer_scan_exhausted c c' env path accessTokens :
  reachesTokenCache w c c' env ->
  cli_AccessTokensPath w = Ok path ->
  cli_LoadTokens w path = Ok accessTokens ->
  let adEndpoint := adEndpointOf w (fillDefaults w env) c' in
  let msi := msiToAuthorizer w (auth_GetMSI w (fillDefaults w env)) in
  (Forall (fun t => Authority t <> adEndpoint) accessTokens ->
   value (Authorizer w c) = value msi /\
   trace (Authorizer w c) =
     trace (resolveTenant w c) ++
       [EvGetSettingsFromEnvironment; EvEnvClientCredentials;
        EvGetSettingsFromFile; EvAccessTokensPath; EvLoadTokens path] ++ trace msi) /\
  (forall l1 t l2 e,
     accessTokens = l1 ++ t :: l2 ->
     Forall (rejected w adEndpoint) l1 ->
     Authority t = adEndpoint ->
     value (tokenToAuthorizer w t) = Some (Err e) ->
     Forall (fun t' => Authority t' <> adEndpoint) l2 ->
     value (Authorizer w c) = Some (Err e) /\
     ~ In EvGetMSIVMEndpoint (trace (Authorizer w c))).
Proof.
  intros Hreach Hp Hl. cbv zeta. split.
  - intros Hnone.
    destruct (Authorizer_tokens c c' env Hreach) as (_ & _ & Hmsi).
    assert (Htok : cachedTokens w (adEndpointOf w (fillDefaults w env) c') =
                   ([EvAccessTokensPath; EvLoadTokens path], Some (NotFound None))).
    { unfold cachedTokens. rewrite bind_call, Hp, bind_call, Hl.
      now rewrite scanTokens_no_match. }
    rewrite Htok in Hmsi. destruct (Hmsi eq_refl) as [Hv Htr].
    split; [assumption|]. rewrite Htr. cbn [trace fst]. now rewrite <- !app_assoc.
  - intros l1 t l2 e -> Hl1 Ht He Hl2.
    now apply (Authorizer_conversion_error_returned c c' env path l1 t l2 e).
Qed.

(** C4 (amended). In the cached-token step of [Authorizer], an error loading
    the token-cache file is fatal to the chain: it is returned and the
    managed identity is not tried. An error obtaining the token-cache
    path is not: the token cache is skipped and the result of the managed
    identity is the result of the chain. A failure converting a cached
    token of the target authority does not end the scan: the scan goes
    on, and a later token of that authority that converts gives the
    result. The failure is not forgotten, though: when no later token of
    the authority converts, the error of the last one tried is returned
    as the error of the chain and the managed identity is not tried. *)
Theorem Authorizer_token_cache_errors c c' env :
  reachesTokenCache w c c' env ->
  let adEndpoint := adEndpointOf w (fillDefaults w env) c' in
  let msi := msiToAuthorizer w (auth_GetMSI w (fillDefaults w env)) in
  (forall path e,
     cli_AccessTokensPath w = Ok path -> cli_LoadTokens w path = Err e ->
     value (Authorizer w c) = Some (Err e) /\
     ~ In EvGetMSIVMEndpoint (trace (Authorizer w c))) /\
  (forall e,
     cli_AccessTokensPath w = Err e ->
     value (Authorizer w c) = value msi /\
     trace (Authorizer w c) =
       trace (resolveTenant w c) ++
         [EvGetSettingsFromEnvironment; EvEnvClientCredentials;
          EvGetSettingsFromFile; EvAccessTokensPath] ++ trace msi) /\
  (forall path l1 t l2 a,
     cli_AccessTokensPath w = Ok path ->
     cli_LoadTokens w path = Ok (l1 ++ t :: l2) ->
     Forall (rejected w adEndpoint) l1 ->
     Authority t = adEndpoint ->
     value (tokenToAuthorizer w t) = Some (Ok a) ->
     value (Authorizer w c) = Some (Ok a)) /\
  (forall path l1 t l2 e,
     cli_AccessTokensPath w = Ok path ->
     cli_LoadTokens w path = Ok (l1 ++ t :: l2) ->
     Forall (rejected w adEndpoint) l1 ->
     Authority t = adEndpoint ->
     value (tokenToAuthorizer w t) = Some (Err e) ->
     Forall (rejected w adEndpoint) l2 ->
     exists e',
       value (Authorizer w c) = Some (Err e') /\
       ~ In EvGetMSIVMEndpoint (trace (Authorizer w c)) /\
       (Forall (fun t' => Authority t' <> adEndpoint) l2 -> e' = e)).
Proof.
  intros Hreach. cbv zeta.
  destruct (Authorizer_tokens c c' env Hreach) as (Hfound & Herr & Hmsi).
  split; [|split; [|split]].
  - intros path e Hp Hl. apply Herr. unfold cachedTokens.
    now rewrite bind_call, Hp, bind_call, Hl.
  - intros e Hp.
    assert (Htok : cachedTokens w (adEndpointOf w (fillDefaults w env) c') =
                   ([EvAccessTokensPath], Some (NotFound None))).
    { unfold cachedTokens. now rewrite bind_call, Hp. }
    rewrite Htok in Hmsi. destruct (Hmsi eq_refl) as [Hv Htr].
    split; [assumption|]. rewrite Htr. cbn [trace fst].
    now rewrite <- !app_assoc.
  - intros path l1 t l2 a Hp Hl Hl1 Ht Ha.
    apply (Hfound a). rewrite (cachedTokens_loaded _ _ _ Hp Hl).
    now apply scanTokens_found.
  - intros path l1 t l2 e Hp Hl Hl1 Ht He Hl2.
    destruct (scanTokens_all_rejected (adEndpointOf w (fillDefaults w env) c')
                l1 t l2 e None Hl1 Ht He Hl2) as (e' & Hscan & Hlast).
    exists e'. rewrite <- (cachedTokens_loaded _ _ _ Hp Hl) in Hscan.
    destruct (Herr e' Hscan) as [Hv Hno]. auto.
Qed.

(** What each block does, from the answers of the collaborators. *)
Lemma tenantStep_resolveTenant c c' t1 :
  tenantStep w c c' t1 -> resolveTenant w c = (t1, Some (Ok c')).
Proof.
  intros [(Hc & -> & ->)|
          (Hc & path & profile & l1 & s & l2 & Hp & Hl & Hs & Hl1 & Hd & -> & ->)];
    unfold resolveTenant.
  - apply String.eqb_neq in Hc. now rewrite Hc.
  - rewrite Hc. cbn [String.eqb].
    rewrite (azureDefaultSubscription_loaded w _ _ Hp Hl), Hs.
    rewrite findDefault_first by assumption. reflexivity.
Qed.

Lemma tenantStep_trace c c' t1 :
  tenantStep w c c' t1 -> Forall (fun ev => ofStep 1 ev = true) t1.
Proof.
  intros [(_ & _ & ->)|(_ & path & profile & l1 & s & l2 & _ & _ & _ & _ & _ & _ & ->)];
    repeat constructor.
Qed.

Lemma envYields_eq env a :
  envYields w env a ->
  envClientCredentials w env = ([EvEnvClientCredentials], Some (Some a)).
Proof.
  intros (cred & Hc & Ha). unfold envClientCredentials. now rewrite bind_call, Hc, Ha.
Qed.

Lemma envFails_eq env :
  envFails w env -> envClientCredentials w env = ([EvEnvClientCredentials], Some None).
Proof.
  intros H. unfold envClientCredentials. rewrite bind_call.
  destruct (auth_GetClientCredentials w env) as [cred|e] eqn:Hc; [|reflexivity].
  destruct (H cred Hc) as [e ->]. reflexivity.
Qed.

Lemma fileYields_eq a :
  fileYields w a -> fileClientCredentials w = ([EvGetSettingsFromFile], Some (Some a)).
Proof.
  intros (settings & Hs & Ha). unfold fileClientCredentials.
  now rewrite bind_call, Hs, Ha.
Qed.

Lemma fileFails_eq :
  fileFails w -> fileClientCredentials w = ([EvGetSettingsFromFile], Some None).
Proof.
  intros H. unfold fileClientCredentials. rewrite bind_call.
  destruct (auth_GetSettingsFromFile w) as [settings|e] eqn:Hs; [|reflexivity].
  destruct (H settings Hs) as [e ->]. reflexivity.
Qed.

Lemma converts_eq t a :
  converts w t a -> tokenToAuthorizer w t = ([EvEnsureFresh], Some (Ok a)).
Proof.
  intros (u & oauth & aToken & spt & Hu & Ho & Ht & Hs & Hf & ->).
  unfold tokenToAuthorizer. rewrite bind_ret, Hu. cbv beta iota zeta.
  rewrite bind_ret, Ho. cbv beta iota. rewrite bind_ret, Ht. cbv beta iota.
  rewrite bind_ret, Hs. cbv beta iota. now rewrite sptTest_eq, Hf.
Qed.

Lemma msiYields_eq mc a :
  msiYields w mc a ->
  msiToAuthorizer w mc = ([EvGetMSIVMEndpoint; EvEnsureFresh], Some (Ok a)).
Proof.
  intros (msiEndpoint & spt & He & Hs & Hf & ->).
  unfold msiToAuthorizer. rewrite bind_call, He. cbv beta iota.
  rewrite bind_ret, Hs. cbv beta iota. now rewrite sptTest_eq, Hf.
Qed.

Lemma msiToAuthorizer_head mc :
  exists rest, trace (msiToAuthorizer w mc) = EvGetMSIVMEndpoint :: rest.
Proof. unfold msiToAuthorizer. rewrite bind_call. eexists. reflexivity. Qed.

Lemma scanTokens_skip adEndpoint l1 rest err :
  Forall (fun t => Authority t <> adEndpoint) l1 ->
  scanTokens w adEndpoint (l1 ++ rest) err = scanTokens w adEndpoint rest err.
Proof.
  induction 1 as [|t l Ht _ IH]; [reflexivity|]. cbn [app]. rewrite scanTokens_cons.
  apply String.eqb_neq in Ht. now rewrite Ht.
Qed.

(** C2. [Authorizer] goes through its five credential sources in a fixed
    order, and the first that yields an authorizer gives the result.  The
    events of every run come in the order of the steps.  In terms of what
    the collaborators answer, once the settings of the environment are
    read: the run starts with the calls of tenant resolution (none with a
    tenant configured; otherwise the profile path and the profile, the
    tenant being the one of the first default subscription); if the
    client credentials of the environment give an authorizer, it is the
    result and the run ends there, with no call to the settings file, the
    token cache or the managed-identity endpoint; otherwise the settings
    file is read, and an authorizer from it is the result, the run ending
    there; otherwise the token cache is read, and the first cached token
    of the tenant's authority, if it converts, is the result, the managed
    identity not being tried; and with no cached token of the authority
    the managed identity is tried last, its result being the result of
    the chain. *)
Theorem Authorizer_first_success_wins c :
  inStepOrder (trace (Authorizer w c)) /\
  forall c' t1 env,
  tenantStep w c c' t1 ->
  auth_GetSettingsFromEnvironment w = Ok env ->
  let adEndpoint := adEndpointOf w (fillDefaults w env) c' in
  let mc := auth_GetMSI w (fillDefaults w env) in
  (forall a,
     envYields w env a ->
     Authorizer w c =
       (t1 ++ [EvGetSettingsFromEnvironment; EvEnvClientCredentials], Some (Ok a)) /\
     Forall (fun ev => consults ev = false) (trace (Authorizer w c))) /\
  (envFails w env ->
   (forall a,
      fileYields w a ->
      Authorizer w c =
        (t1 ++ [EvGetSettingsFromEnvironment; EvEnvClientCredentials;
                EvGetSettingsFromFile], Some (Ok a)) /\
      Forall (fun ev => ofStep 4 ev = false /\ ofStep 5 ev = false)
             (trace (Authorizer w c))) /\
   (fileFails w ->
    forall path accessTokens,
      cli_AccessTokensPath w = Ok path ->
      cli_LoadTokens w path = Ok accessTokens ->
      (forall l1 t l2 a,
         accessTokens = l1 ++ t :: l2 ->
         Forall (fun t' => Authority t' <> adEndpoint) l1 ->
         Authority t = adEndpoint ->
         converts w t a ->
         Authorizer w c =
           (t1 ++ [EvGetSettingsFromEnvironment; EvEnvClientCredentials;
                   EvGetSettingsFromFile; EvAccessTokensPath; EvLoadTokens path;
                   EvEnsureFresh], Some (Ok a)) /\
         ~ In EvGetMSIVMEndpoint (trace (Authorizer w c))) /\
      (Forall (fun t' => Authority t' <> adEndpoint) accessTokens ->
       (exists rest,
          trace (msiToAuthorizer w mc) = EvGetMSIVMEndpoint :: rest /\
          Authorizer w c =
            (t1 ++ [EvGetSettingsFromEnvironment; EvEnvClientCredentials;
                    EvGetSettingsFromFile; EvAccessTokensPath; EvLoadTokens path;
                    EvGetMSIVMEndpoint] ++ rest,
             value (msiToAuthorizer w mc))) /\
       (forall a,
          msiYields w mc a ->
          Authorizer w c =
            (t1 ++ [EvGetSettingsFromEnvironment; EvEnvClientCredentials;
                    EvGetSettingsFromFile; EvAccessTokensPath; EvLoadTokens path;
                    EvGetMSIVMEndpoint; EvEnsureFresh], Some (Ok a)))))).
Proof.
  split; [apply Authorizer_inStepOrder|].
  intros c' t1 env Hten Henv. cbv zeta.
  pose proof (tenantStep_resolveTenant _ _ _ Hten) as Hr.
  pose proof (tenantStep_trace _ _ _ Hten) as Ht1.
  assert (Hc : value (resolveTenant w c) = Some (Ok c')) by now rewrite Hr.
  pose proof (Authorizer_reach w c c' env Hc Henv) as Heq. cbv zeta in Heq.
  rewrite Hr in Heq. cbn [trace fst] in Heq.
  split.
  - intros a Ha. rewrite (envYields_eq _ _ Ha) in Heq. cbn [value snd] in Heq.
    split; [exact Heq|]. rewrite Heq. cbn [trace fst].
    apply Forall_app; split; [now apply step1_consults|repeat constructor].
  - intros Hnone. rewrite (envFails_eq _ Hnone) in Heq. cbn [value snd] in Heq. split.
    + intros a Ha. rewrite (fileYields_eq _ Ha) in Heq. cbn [value snd] in Heq.
      split; [exact Heq|]. rewrite Heq. cbn [trace fst].
      apply Forall_app; split; [|repeat constructor].
      revert Ht1. apply List.Forall_impl. intros [] H; try discriminate; auto.
    + intros Hnone' path accessTokens Hp Hl.
      rewrite (fileFails_eq Hnone') in Heq. cbn [value snd] in Heq. split.
      * intros l1 t l2 a -> Hl1 Ht Ha.
        assert (Htok : cachedTokens w (adEndpointOf w (fillDefaults w env) c') =
                       ([EvAccessTokensPath; EvLoadTokens path; EvEnsureFresh],
                        Some (Found a))).
        { unfold cachedTokens. rewrite bind_call, Hp. cbv beta iota.
          rewrite bind_call, Hl. cbv beta iota.
          rewrite scanTokens_skip, scanTokens_cons by assumption.
          apply String.eqb_eq in Ht. rewrite Ht, (converts_eq _ _ Ha). reflexivity. }
        rewrite Htok in Heq. cbn [value snd trace fst app] in Heq.
        split; [exact Heq|]. rewrite Heq. cbn [trace fst].
        rewrite in_app_iff. intros [H|H].
        -- revert H. now apply step1_no_msi.
        -- cbn in H. intuition discriminate.
      * intros Hnomatch.
        assert (Htok : cachedTokens w (adEndpointOf w (fillDefaults w env) c') =
                       ([EvAccessTokensPath; EvLoadTokens path], Some (NotFound None))).
        { unfold cachedTokens. rewrite bind_call, Hp. cbv beta iota.
          rewrite bind_call, Hl. cbv beta iota.
          now rewrite scanTokens_no_match. }
        rewrite Htok in Heq. cbn [value snd trace fst] in Heq. split.
        -- destruct (msiToAuthorizer_head (auth_GetMSI w (fillDefaults w env)))
             as [rest Hrest].
           exists rest. split; [exact Hrest|]. rewrite Heq, Hrest. reflexivity.
        -- intros a Ha. rewrite Heq, (msiYields_eq _ _ Ha). reflexivity.
Qed.

End CachedTokens.

(** ** The blob configuration *)

Section BlobConfig.

Context {AuthorizerT SPT OAuthConfig ADALToken Credentials FileSettings : Type}.
Context (w : @World AuthorizerT SPT OAuthConfig ADALToken Credentials FileSettings).

Lemma wasbHint_none endpoint wasb config :
  Index wasb "@" = -1 -> wasbHint w endpoint wasb config = (endpoint, config).
Proof. intros H. unfold wasbHint. now rewrite H. Qed.

Lemma wasbHint_parsed endpoint wasb config u :
  Index wasb "@" <> -1 -> url_Parse w (storageEndpointOf wasb) = Ok u ->
  wasbHint w endpoint wasb config =
  (storageEndpointOf wasb,
   with_hint config (slice_to (Z.to_nat (Index wasb "@")) wasb) (Trim (Path u) "/")).
Proof.
  intros Hat Hu. unfold wasbHint. apply Z.eqb_neq in Hat. rewrite Hat.
  cbn [negb]. fold (storageEndpointOf wasb). now rewrite Hu.
Qed.

(** The hint leaves the config as it is or sets container and prefix. *)
Lemma wasbHint_config endpoint wasb :
  exists container prefix,
    snd (wasbHint w endpoint wasb zeroConfig) = with_hint zeroConfig container prefix.
Proof.
  unfold wasbHint. destruct (negb (Index wasb "@" =? -1)); [|exists "", ""; reflexivity].
  destruct (url_Parse w _); [|exists "", ""; reflexivity].
  do 2 eexists; reflexivity.
Qed.

Lemma configFile_key_known account key configDir :
  key <> "" ->
  exists t account' configDir',
    configFile w account key configDir = (t, Some (account', key, configDir')) /\
    Forall (fun ev => isIniLoad ev = true) t /\
    (account <> "" -> account' = account /\ t = []).
Proof.
  intros Hk. apply String.eqb_neq in Hk. unfold configFile. rewrite Hk.
  rewrite orb_false_r. destruct (String.eqb_spec account "") as [->|Hne].
  - rewrite bind_call.
    match goal with |- context [ini_Load w ?p] => destruct (ini_Load w p) as [f|e] end;
      [destruct (f !! "storage") as [sect|]|];
      do 3 eexists; (split; [reflexivity|split; [repeat constructor|congruence]]).
  - do 3 eexists. split; [reflexivity|]. split; [constructor|auto].
Qed.

Lemma azureAccountsClient_total account :
  exists t r, azureAccountsClient w account = (t, Some r) /\
              Forall (fun ev => isListKeys ev = false) t.
Proof.
  unfold azureAccountsClient.
  destruct (azureDefaultSubscription_total w) as (t1 & r1 & -> & Ht1).
  assert (H1 : Forall (fun ev => isListKeys ev = false) t1).
  { revert Ht1. apply List.Forall_impl. intros [] H; try discriminate; reflexivity. }
  destruct r1 as [s|e]; cbn [bind];
    [|do 2 eexists; split; [reflexivity|now rewrite app_nil_r]].
  rewrite bind_call.
  pose proof (Authorizer_inStepOrder w {| TenantId := TenantID s |})
    as (a1 & a2 & a3 & a4 & a5 & Htr & F1 & F2 & F3 & F4 & F5).
  destruct (Authorizer w {| TenantId := TenantID s |}) as [ta [ra|]] eqn:Hauth.
  - cbn [trace fst] in Htr. subst ta.
    destruct ra as [a|e]; cbn; do 2 eexists; (split; [reflexivity|]);
      rewrite ?app_nil_r; apply Forall_app; (split; [assumption|]);
      constructor; [reflexivity| |reflexivity|];
      rewrite !Forall_app; repeat split;
      match goal with H : Forall _ ?l |- Forall _ ?l =>
        revert H; apply List.Forall_impl; intros [] ?; try discriminate; reflexivity
      end.
  - exfalso.
    destruct (resolveTenant_total w {| TenantId := TenantID s |}) as (t & r & Hr & _).
    unfold Authorizer in Hauth. rewrite Hr in Hauth. cbn [bind] in Hauth.
    destruct r as [c'|e]; [|discriminate]. rewrite bind_call in Hauth.
    destruct (auth_GetSettingsFromEnvironment w) as [env|e]; [|discriminate].
    cbv beta iota in Hauth.
    destruct (envClientCredentials_eq w env) as (r2 & Hr2). rewrite Hr2 in Hauth.
    cbn [bind trace value fst snd] in Hauth.
    destruct r2; [discriminate|].
    destruct (fileClientCredentials_eq w) as (r3 & Hr3). rewrite Hr3 in Hauth.
    cbn [bind trace value fst snd] in Hauth.
    destruct r3; [discriminate|].
    destruct (cachedTokens_total w (adEndpointOf w (fillDefaults w env) c'))
      as (t4 & r4 & Hr4 & _).
    rewrite Hr4 in Hauth. cbn [bind trace value fst snd] in Hauth.
    destruct r4 as [a|[e|]]; try discriminate.
    destruct (msiToAuthorizer_total w (auth_GetMSI w (fillDefaults w env)))
      as (t5 & r5 & Hr5 & _).
    rewrite Hr5 in Hauth. discriminate.
Qed.

Lemma deref_trace {A B} (p : option A) (k : A -> M B) :
  (forall a, trace (k a) = []) -> trace (bind (deref p) k) = [].
Proof.
  intros H. destruct p as [a|]; [|reflexivity]. cbn [deref]. now rewrite bind_ret.
Qed.

Lemma findAccount_trace accs account : trace (findAccount accs account) = [].
Proof.
  induction accs as [|acc rest IH]; [reflexivity|]. rewrite findAccount_cons.
  apply deref_trace. intros name. destruct (String.eqb name account); [|assumption].
  apply deref_trace. intros id. cbv zeta.
  destruct (negb _); [reflexivity|].
  apply deref_trace. intros endpoints. apply deref_trace. intros blob.
  apply deref_trace. reflexivity.
Qed.

Lemma azureFindAccount_trace client account :
  trace (azureFindAccount w client account) = [EvAccountsList].
Proof.
  unfold azureFindAccount. rewrite bind_call. cbn [trace fst]. f_equal.
  destruct (azblob_List w client) as [accountsRes|e]; [|reflexivity].
  apply deref_trace. intros accs. apply findAccount_trace.
Qed.

(** The lookup block when the key is known: no key is listed, the key is
    kept, and the error of a failed account lookup stays in [err]. *)
Lemma discover_key_known endpoint key account configDir :
  key <> "" ->
  discover w endpoint key account configDir =
  if String.eqb endpoint "" then
    bind (azureAccountsClient w account) (fun client =>
      match client with
      | Ok client =>
          bind (azureFindAccount w client account) (fun found =>
            ret (Continue
                   match found with
                   | Ok (blob, _) => (blob, key, None)
                   | Err e => ("", key, Some e)
                   end))
      | Err e => ret (Return e)
      end)
  else ret (Continue (endpoint, key, None)).
Proof.
  intros Hk. apply String.eqb_neq in Hk. unfold discover. rewrite Hk, orb_false_r.
  destruct (String.eqb endpoint ""); [|reflexivity].
  apply bind_ext. intros [client|e]; [|reflexivity].
  apply bind_ext. intros found.
  destruct found as [[blob rg]|e]; cbn [is_err]; rewrite ?andb_false_r; reflexivity.
Qed.

Lemma discover_key_known_trace endpoint key account configDir :
  key <> "" ->
  Forall (fun ev => isListKeys ev = false)
         (trace (discover w endpoint key account configDir)) /\
  (endpoint <> "" -> discover w endpoint key account configDir =
                     ret (Continue (endpoint, key, None))).
Proof.
  intros Hk. rewrite discover_key_known by assumption. split.
  - destruct (String.eqb endpoint ""); [|constructor].
    rewrite trace_bind.
    destruct (azureAccountsClient_total account) as (t & r & -> & Ht).
    cbn [trace value fst snd]. apply Forall_app. split; [assumption|].
    destruct r as [client|e]; [|constructor].
    rewrite trace_bind, azureFindAccount_trace.
    destruct (value (azureFindAccount w client account)); repeat constructor.
  - intros Hne. apply String.eqb_neq in Hne. now rewrite Hne.
Qed.

(** [AzureBlobConfig] when AZURE_STORAGE_KEY is set. *)
Lemma AzureBlobConfig_key_known endpoint wasb key :
  os_Getenv w "AZURE_STORAGE_KEY" = key -> key <> "" ->
  let endpoint' := effectiveEndpoint w endpoint wasb in
  let config0 := snd (wasbHint w endpoint wasb zeroConfig) in
  match accountFromEndpoint w endpoint' (os_Getenv w "AZURE_STORAGE_ACCOUNT") with
  | Err e => AzureBlobConfig w endpoint wasb = ret (config0, Some e)
  | Ok a =>
      exists t a' configDir',
        Forall (fun ev => isIniLoad ev = true) t /\
        (a <> "" -> a' = a /\ t = []) /\
        AzureBlobConfig w endpoint wasb =
        if String.eqb a' "" then (t, Some (config0, Some (missingAccount configDir')))
        else
          let d := discover w endpoint' key a' configDir' in
          (t ++ trace d,
           match value d with
           | Some (Return e) => Some (config0, Some e)
           | Some (Continue (ep, k, err)) =>
               Some (finish config0
                       (if String.eqb ep "" then publicEndpoint w a' else ep) a' k, err)
           | None => None
           end)
  end.
Proof.
  intros Hkey Hk. cbv zeta. unfold AzureBlobConfig, effectiveEndpoint.
  rewrite Hkey. destruct (wasbHint w endpoint wasb zeroConfig) as [endpoint' config0].
  cbn [fst snd].
  destruct (accountFromEndpoint w endpoint' _) as [a|e]; [|reflexivity].
  destruct (configFile_key_known a key (os_Getenv w "AZURE_CONFIG_DIR") Hk)
    as (t & a' & configDir' & -> & Ht & Ha).
  exists t, a', configDir'. split; [assumption|]. split; [assumption|].
  cbn [bind]. destruct (String.eqb a' ""); [cbn; now rewrite app_nil_r|].
  destruct (discover w endpoint' key a' configDir') as [td [[[[ep k] err]|e]|]];
    cbn; rewrite ?app_nil_r; reflexivity.
Qed.

Lemma storageEndpointOf_nonempty wasb : storageEndpointOf wasb <> "".
Proof. discriminate. Qed.

Lemma accountFromEndpoint_unchanged endpoint account :
  endpoint = "" \/ endpoint = emulatorEndpoint \/
  (exists u, url_Parse w endpoint = Ok u /\ Index (url_Hostname w u) "." = -1) ->
  accountFromEndpoint w endpoint account = Ok account.
Proof.
  unfold accountFromEndpoint. intros [->|[->|(u & Hu & Hdot)]]; [reflexivity..|].
  destruct (_ && _); [|reflexivity]. now rewrite Hu, Hdot.
Qed.

Lemma accountFromEndpoint_label endpoint account u :
  endpoint <> "" -> endpoint <> emulatorEndpoint ->
  url_Parse w endpoint = Ok u -> Index (url_Hostname w u) "." <> -1 ->
  accountFromEndpoint w endpoint account =
  Ok (slice_to (Z.to_nat (Index (url_Hostname w u) ".")) (url_Hostname w u)).
Proof.
  intros H1 H2 Hu Hdot. unfold accountFromEndpoint.
  apply String.eqb_neq in H1, H2. apply Z.eqb_neq in Hdot.
  now rewrite H1, H2, Hu, Hdot.
Qed.

(** What a run with AZURE_STORAGE_KEY set returns, by the account the
    endpoint leaves. *)
Lemma AzureBlobConfig_key_known_value endpoint wasb key a config :
  os_Getenv w "AZURE_STORAGE_KEY" = key -> key <> "" ->
  accountFromEndpoint w (effectiveEndpoint w endpoint wasb)
    (os_Getenv w "AZURE_STORAGE_ACCOUNT") = Ok a ->
  a <> "" ->
  value (AzureBlobConfig w endpoint wasb) = Some (config, None) ->
  AccountKeyValue config = key /\ AccountName config = a /\
  (effectiveEndpoint w endpoint wasb <> "" ->
   Endpoint config = effectiveEndpoint w endpoint wasb).
Proof.
  intros Hkey Hk Ha Hne Hv.
  pose proof (AzureBlobConfig_key_known endpoint wasb key Hkey Hk) as H.
  cbv zeta in H. rewrite Ha in H.
  destruct H as (t & a' & configDir' & _ & Ht & Heq).
  destruct (Ht Hne) as [-> ->]. rewrite Heq in Hv. clear Heq.
  apply String.eqb_neq in Hne. rewrite Hne in Hv. cbv zeta in Hv.
  cbn [value snd] in Hv.
  destruct (discover_key_known_trace (effectiveEndpoint w endpoint wasb) key a
              configDir' Hk) as [_ Hd].
  rewrite discover_key_known in Hv, Hd by assumption.
  destruct (String.eqb_spec (effectiveEndpoint w endpoint wasb) "") as [He|He].
  - rewrite value_bind in Hv.
    destruct (value (azureAccountsClient w a)) as [[client|e]|]; try discriminate.
    rewrite value_bind in Hv.
    destruct (value (azureFindAccount w client a)) as [[[blob rg]|e]|];
      try discriminate.
    cbn in Hv. injection Hv as <-. cbn. repeat split. intros; contradiction.
  - cbn in Hv. apply String.eqb_neq in He. rewrite He in Hv.
    injection Hv as <-. cbn. auto.
Qed.

(** C6 (amended). In every invocation of [AzureBlobConfig] in which both
    AZURE_STORAGE_ACCOUNT and AZURE_STORAGE_KEY are set: key listing is
    never performed, and when the endpoint in effect (the one of the
    wasb hint, else the explicit one) is not empty no control-plane call
    is made at all, the only call being a load of the ini file. When the
    function returns without error, [AccountKey] is the value of
    AZURE_STORAGE_KEY unchanged; [AccountName] is the value of
    AZURE_STORAGE_ACCOUNT unchanged when the endpoint in effect is empty,
    is the emulator address or has a host name without a dot, and is the
    first dot-delimited label of the host name of the endpoint (when that
    label is not empty) otherwise. *)
Theorem AzureBlobConfig_explicit_credentials endpoint wasb account key :
  os_Getenv w "AZURE_STORAGE_ACCOUNT" = account -> account <> "" ->
  os_Getenv w "AZURE_STORAGE_KEY" = key -> key <> "" ->
  let endpoint' := effectiveEndpoint w endpoint wasb in
  Forall (fun ev => isListKeys ev = false) (trace (AzureBlobConfig w endpoint wasb)) /\
  (endpoint' <> "" ->
   Forall (fun ev => isIniLoad ev = true) (trace (AzureBlobConfig w endpoint wasb))) /\
  (forall config,
     value (AzureBlobConfig w endpoint wasb) = Some (config, None) ->
     AccountKeyValue config = key /\
     (endpoint' = "" \/ endpoint' = emulatorEndpoint \/
      (exists u, url_Parse w endpoint' = Ok u /\ Index (url_Hostname w u) "." = -1) ->
      AccountName config = account) /\
     (forall u,
        endpoint' <> "" -> endpoint' <> emulatorEndpoint ->
        url_Parse w endpoint' = Ok u -> Index (url_Hostname w u) "." <> -1 ->
        slice_to (Z.to_nat (Index (url_Hostname w u) ".")) (url_Hostname w u) <> "" ->
        AccountName config =
        slice_to (Z.to_nat (Index (url_Hostname w u) ".")) (url_Hostname w u))).
Proof.
  intros Hacc Hane Hkey Hk. cbv zeta.
  pose proof (AzureBlobConfig_key_known endpoint wasb key Hkey Hk) as H.
  cbv zeta in H.
  assert (Htrace :
    Forall (fun ev => isListKeys ev = false) (trace (AzureBlobConfig w endpoint wasb)) /\
    (effectiveEndpoint w endpoint wasb <> "" ->
     Forall (fun ev => isIniLoad ev = true) (trace (AzureBlobConfig w endpoint wasb)))).
  { destruct (accountFromEndpoint w _ _) as [a|e]; [|rewrite H; split; constructor].
    destruct H as (t & a' & configDir' & Hini & _ & ->).
    assert (Hini' : Forall (fun ev => isListKeys ev = false) t).
    { revert Hini. apply List.Forall_impl. intros [] ?; try discriminate; reflexivity. }
    destruct (String.eqb a' ""); [split; auto|]. cbv zeta. cbn [trace fst].
    destruct (discover_key_known_trace (effectiveEndpoint w endpoint wasb) key a'
                configDir' Hk) as [Hd1 Hd2].
    split.
    - apply Forall_app; split; assumption.
    - intros Hne. rewrite (Hd2 Hne). cbn. now rewrite app_nil_r. }
  destruct Htrace as [Hlist Hini]. split; [assumption|]. split; [assumption|].
  intros config Hv. subst account. repeat split.
  - destruct (accountFromEndpoint w _ _) as [a|e] eqn:Ha.
    + destruct H as (t & a' & configDir' & _ & _ & Heq). rewrite Heq in Hv.
      destruct (String.eqb a' ""); [discriminate|]. cbv zeta in Hv.
      cbn [value snd] in Hv. rewrite discover_key_known in Hv by assumption.
      destruct (String.eqb (effectiveEndpoint w endpoint wasb) "").
      * rewrite value_bind in Hv.
        destruct (value (azureAccountsClient w a')) as [[client|e]|]; try discriminate.
        rewrite value_bind in Hv.
        destruct (value (azureFindAccount w client a')) as [[[blob rg]|e]|];
          try discriminate.
        cbn in Hv. now injection Hv as <-.
      * cbn in Hv. now injection Hv as <-.
    + rewrite H in Hv. discriminate.
  - intros Hun.
    apply (accountFromEndpoint_unchanged _ (os_Getenv w "AZURE_STORAGE_ACCOUNT")) in Hun.
    now destruct (AzureBlobConfig_key_known_value endpoint wasb key _ config
                    Hkey Hk Hun Hane Hv) as (_ & ? & _).
  - intros u H1 H2 Hu Hdot Hlabel.
    pose proof (accountFromEndpoint_label _ (os_Getenv w "AZURE_STORAGE_ACCOUNT")
                  u H1 H2 Hu Hdot) as Hl.
    now destruct (AzureBlobConfig_key_known_value endpoint wasb key _ config
                    Hkey Hk Hl Hlabel Hv) as (_ & ? & _).
Qed.

(** C7 (amended). When the wasb hint contains an "@" and the text after the
    first "@", prefixed with "https://", parses as a URL, [AzureBlobConfig]
    replaces the explicit endpoint with that whole text ("https://"
    followed by everything after the "@": the host and the path), sets
    [Container] to the text before the "@" and [Prefix] to the path of
    the URL with the slashes around it trimmed. Whatever the function
    then returns carries that container and prefix, and when
    AZURE_STORAGE_KEY is set a config returned without error has that
    endpoint. *)
Theorem AzureBlobConfig_wasb_hint endpoint wasb u :
  Index wasb "@" <> -1 ->
  url_Parse w (storageEndpointOf wasb) = Ok u ->
  wasbHint w endpoint wasb zeroConfig =
    (storageEndpointOf wasb,
     with_hint zeroConfig (slice_to (Z.to_nat (Index wasb "@")) wasb)
       (Trim (Path u) "/")) /\
  (forall config err,
     value (AzureBlobConfig w endpoint wasb) = Some (config, err) ->
     Container config = slice_to (Z.to_nat (Index wasb "@")) wasb /\
     Prefix config = Trim (Path u) "/") /\
  (os_Getenv w "AZURE_STORAGE_KEY" <> "" ->
   forall config,
     value (AzureBlobConfig w endpoint wasb) = Some (config, None) ->
     Endpoint config = storageEndpointOf wasb).
Proof.
  intros Hat Hu.
  pose proof (wasbHint_parsed endpoint wasb zeroConfig u Hat Hu) as Hhint.
  split; [assumption|]. split.
  - intros config err. unfold AzureBlobConfig. rewrite Hhint.
    destruct (accountFromEndpoint w _ _) as [a|e]; [|now intros [= <- <-]].
    rewrite value_bind.
    destruct (value (configFile w a _ _)) as [[[a' k'] cd']|]; [|discriminate].
    destruct (String.eqb a' ""); [now intros [= <- <-]|].
    rewrite value_bind.
    destruct (value (discover w _ k' a' cd')) as [[[[ep k''] er]|e']|];
      [| |discriminate]; now intros [= <- <-].
  - intros Hk config Hv.
    pose proof (AzureBlobConfig_key_known endpoint wasb _ eq_refl Hk) as H.
    cbv zeta in H. unfold effectiveEndpoint in H. rewrite Hhint in H.
    cbn [fst snd] in H.
    destruct (accountFromEndpoint w _ _) as [a|e];
      [|rewrite H in Hv; discriminate].
    destruct H as (t & a' & configDir' & _ & _ & Heq). rewrite Heq in Hv.
    destruct (String.eqb a' ""); [discriminate|]. cbv zeta in Hv.
    destruct (discover_key_known_trace (storageEndpointOf wasb) _ a' configDir' Hk)
      as [_ Hd].
    rewrite (Hd (storageEndpointOf_nonempty wasb)) in Hv. cbn in Hv.
    now injection Hv as <-.
Qed.

(** C9 (what the code does). With the account and the key taken from the
    environment, no endpoint and no wasb hint, when the accounts client
    is built and the lookup of the account fails, [AzureBlobConfig]
    synthesizes the public-cloud endpoint and fills the config, but the
    error of the lookup is still in [err] at the final return: the
    caller gets the filled config together with that error. *)
Theorem AzureBlobConfig_lookup_error_returned wasb account key client e :
  os_Getenv w "AZURE_STORAGE_ACCOUNT" = account -> account <> "" ->
  os_Getenv w "AZURE_STORAGE_KEY" = key -> key <> "" ->
  Index wasb "@" = -1 ->
  value (azureAccountsClient w account) = Some (Ok client) ->
  value (azureFindAccount w client account) = Some (Err e) ->
  value (AzureBlobConfig w "" wasb) =
  Some ({| Endpoint := publicEndpoint w account; AccountName := account;
           AccountKeyValue := key; TokenRenewBuffer := 15 * Minute;
           Container := ""; Prefix := "" |}, Some e).
Proof.
  intros Hacc Hane Hkey Hk Hat Hclient Hfind.
  pose proof (AzureBlobConfig_key_known "" wasb key Hkey Hk) as H.
  cbv zeta in H. unfold effectiveEndpoint in H.
  rewrite (wasbHint_none "" wasb zeroConfig Hat), Hacc in H. cbn [fst snd] in H.
  change (accountFromEndpoint w "" account) with (Ok (A:=string) account) in H.
  destruct H as (t & a' & configDir' & _ & Ha & ->).
  destruct (Ha Hane) as [-> ->].
  apply String.eqb_neq in Hane. rewrite Hane. cbv zeta. cbn [value snd].
  rewrite discover_key_known by assumption. cbn [String.eqb].
  rewrite value_bind, Hclient, value_bind, Hfind. reflexivity.
Qed.

(** The lookup block leaves an error in [err] only when the key was known
    and the lookup of the account failed with that error. *)
Lemma discover_continue_err endpoint key account configDir ep k e :
  value (discover w endpoint key account configDir) = Some (Continue (ep, k, Some e)) ->
  key <> "" /\
  exists client,
    value (azureAccountsClient w account) = Some (Ok client) /\
    value (azureFindAccount w client account) = Some (Err e).
Proof.
  unfold discover. destruct (_ || _); [|discriminate].
  rewrite value_bind.
  destruct (value (azureAccountsClient w account)) as [[client|e']|] eqn:Hc;
    try discriminate.
  rewrite value_bind.
  destruct (value (azureFindAccount w client account)) as [[[blob rg]|e']|] eqn:Hf;
    try discriminate; cbn [is_err andb].
  - destruct (String.eqb key ""); [|discriminate].
    rewrite bind_call. cbn [value snd].
    destruct (azblob_ListKeys w client rg account) as [keysRes|e']; [|discriminate].
    rewrite value_bind. destruct (Keys keysRes) as [keys|]; [|discriminate].
    cbn [deref ret value snd]. destruct (Nat.eqb (length keys) 0); [discriminate|].
    rewrite value_bind. destruct (value (selectKey keys key)); discriminate.
  - destruct (String.eqb_spec key "") as [->|Hk]; [discriminate|].
    intros [= <- <- <-]. split; [assumption|]. exists client. auto.
Qed.

(** The error returns of [AzureBlobConfig]: every return with an error
    carries a config whose endpoint, account, key and renewal buffer are
    unset, except the final return reached with the error of a failed
    account lookup still in [err]. *)
Lemma AzureBlobConfig_error_returns endpoint wasb config e :
  value (AzureBlobConfig w endpoint wasb) = Some (config, Some e) ->
  (Endpoint config = "" /\ AccountName config = "" /\
   AccountKeyValue config = "" /\ TokenRenewBuffer config = 0) \/
  (TokenRenewBuffer config = 15 * Minute /\
   exists client,
     value (azureAccountsClient w (AccountName config)) = Some (Ok client) /\
     value (azureFindAccount w client (AccountName config)) = Some (Err e)).
Proof.
  unfold AzureBlobConfig.
  destruct (wasbHint_config endpoint wasb) as (container & prefix & Hc).
  destruct (wasbHint w endpoint wasb zeroConfig) as [endpoint' config0].
  cbn [snd] in Hc. subst config0.
  destruct (accountFromEndpoint w endpoint' _) as [a|e']; [|intros [= <- <-]; left; auto].
  rewrite value_bind.
  destruct (value (configFile w a _ _)) as [[[a' k'] cd']|]; [|discriminate].
  destruct (String.eqb a' ""); [intros [= <- <-]; left; auto|].
  rewrite value_bind.
  destruct (value (discover w endpoint' k' a' cd')) as [[[[ep k''] er]|e']|] eqn:Hd;
    [| |discriminate].
  - intros [= <- ->]. right. split; [reflexivity|].
    apply discover_continue_err in Hd as (_ & client & ? & ?).
    exists client. auto.
  - intros [= <- <-]. left; auto.
Qed.

(** The lookup block when no key is known, the account is found and its
    keys are listed. *)
Lemma discover_lists_keys endpoint account configDir client blob rg first rest :
  value (azureAccountsClient w account) = Some (Ok client) ->
  value (azureFindAccount w client account) = Some (Ok (blob, rg)) ->
  azblob_ListKeys w client rg account = Ok {| Keys := Some (first :: rest) |} ->
  value (discover w endpoint "" account configDir) =
  match value (selectKey (first :: rest) "") with
  | Some key => Some (Continue (blob, key, None))
  | None => None
  end.
Proof.
  intros Hc Hf Hl. unfold discover. rewrite orb_true_r.
  rewrite value_bind, Hc, value_bind, Hf. cbn [is_err andb String.eqb].
  rewrite bind_call, Hl. cbn [value snd Keys deref]. rewrite bind_ret.
  cbn [length Nat.eqb]. rewrite value_bind.
  destruct (value (selectKey (first :: rest) "")); reflexivity.
Qed.

(** C1. In the key selection of [AzureBlobConfig] (the loop that prefers a
    full-permission key and the assignment after it), when the list of
    keys is not empty the key selected is the value of the first key of
    the list, whatever the permissions of the keys and whatever key the
    loop found: any key the selection yields is the first key's value,
    and when no key of the list has a nil value the selection does yield
    it. So a config returned after the keys of the account were listed has
    the value of the first listed key as its account key. *)
Theorem key_selection_takes_first_key first rest :
  (forall key0 key,
     value (selectKey (first :: rest) key0) = Some key ->
     keyValue first = Some key) /\
  (forall key0,
     Forall (fun k => keyValue k <> None) (first :: rest) ->
     exists key, keyValue first = Some key /\
                 value (selectKey (first :: rest) key0) = Some key) /\
  (forall endpoint wasb a account configDir client blob rg config err,
     accountFromEndpoint w (effectiveEndpoint w endpoint wasb)
       (os_Getenv w "AZURE_STORAGE_ACCOUNT") = Ok a ->
     value (configFile w a (os_Getenv w "AZURE_STORAGE_KEY")
              (os_Getenv w "AZURE_CONFIG_DIR")) = Some (account, "", configDir) ->
     account <> "" ->
     value (azureAccountsClient w account) = Some (Ok client) ->
     value (azureFindAccount w client account) = Some (Ok (blob, rg)) ->
     azblob_ListKeys w client rg account = Ok {| Keys := Some (first :: rest) |} ->
     value (AzureBlobConfig w endpoint wasb) = Some (config, err) ->
     keyValue first = Some (AccountKeyValue config) /\ err = None).
Proof.
  split; [|split].
  - intros key0 key. rewrite selectKey_value.
    destruct (value (preferFull (first :: rest) key0)); [auto|discriminate].
  - intros key0 Hall. rewrite selectKey_value.
    pose proof (preferFull_total _ key0 Hall) as Hp.
    destruct (value (preferFull (first :: rest) key0)); [|contradiction].
    inversion Hall as [|? ? Hfirst _]; subst.
    destruct (keyValue first) as [key|]; [eauto|contradiction].
  - intros endpoint wasb a account configDir client blob rg config err
           Ha Hcf Hne Hc Hf Hl.
    unfold AzureBlobConfig, effectiveEndpoint in *.
    destruct (wasbHint w endpoint wasb zeroConfig) as [endpoint' config0].
    cbn [fst] in Ha. rewrite Ha, value_bind, Hcf.
    apply String.eqb_neq in Hne. rewrite Hne, value_bind.
    rewrite (discover_lists_keys endpoint' account configDir client blob rg first rest)
      by assumption.
    rewrite selectKey_value.
    destruct (value (preferFull (first :: rest) "")); [|discriminate].
    destruct (keyValue first) as [key|]; [|discriminate].
    cbn. intros [= <- <-]. auto.
Qed.

End BlobConfig.

(** ** The properties on the concrete world *)

Import Sample.

Lemma key_selection_takes_first_key_witness :
  value (selectKey [readKey; fullKey] "") = Some "B" /\
  value (AzureBlobConfig (world listedKeys) "" "") =
    Some ({| Endpoint := "https://myaccount.blob.core.windows.net/";
             AccountName := "myaccount"; AccountKeyValue := "B";
             TokenRenewBuffer := 15 * Minute; Container := ""; Prefix := "" |}, None) /\
  keyValue readKey = Some "B".
Proof.
  destruct (key_selection_takes_first_key (world listedKeys) readKey [fullKey])
    as (_ & Htotal & Hconfig).
  split; [|split].
  - destruct (Htotal "") as (key & Hkey & Hsel).
    + repeat constructor; discriminate.
    + injection Hkey as <-. exact Hsel.
  - vm_compute. reflexivity.
  - destruct (Hconfig "" "" "myaccount" "myaccount" "/home/user/.azure" client
                "https://myaccount.blob.core.windows.net/" "rg1"
                {| Endpoint := "https://myaccount.blob.core.windows.net/";
                   AccountName := "myaccount"; AccountKeyValue := "B";
                   TokenRenewBuffer := 15 * Minute; Container := ""; Prefix := "" |}
                None) as [Hfirst _].
    + reflexivity.
    + vm_compute. reflexivity.
    + discriminate.
    + vm_compute. reflexivity.
    + vm_compute. reflexivity.
    + reflexivity.
    + vm_compute. reflexivity.
    + exact Hfirst.
Defined.

Lemma azureFindAccount_first_match_witness :
  value (azureFindAccount (world threeAccounts) client "myaccount")
  = Some (Ok ("https://myaccount.blob.core.windows.net/", "rg1")).
Proof.
  destruct (azureFindAccount_first_match (world threeAccounts) client "myaccount")
    as [_ H].
  destruct (H _ eq_refl) as [_ Hmatch].
  destruct (Hmatch [account "other" "/subscriptions/s1/resourceGroups/rg0/providers"]
              (account "myaccount" longID)
              [account "short" "/sub/rg/providers/x"] longID) as [_ Hfound].
  - reflexivity.
  - repeat constructor. exists "other". split; [reflexivity|discriminate].
  - reflexivity.
  - reflexivity.
  - destruct (Hfound {| Blob := Some "https://myaccount.blob.core.windows.net/" |}
                "https://myaccount.blob.core.windows.net/") as (rg & Hrg & Hv).
    + vm_compute. lia.
    + reflexivity.
    + reflexivity.
    + vm_compute in Hrg. injection Hrg as <-. exact Hv.
Defined.

(** C8, as worded, fails: an identifier of 9 slash-separated segments is
    not reported as malformed; the lookup succeeds with the fifth segment
    as the resource group. *)
Lemma azureFindAccount_long_id_counterexample :
  segments longID "/" = 9%nat /\
  value (azureFindAccount (world threeAccounts) client "myaccount")
  = Some (Ok ("https://myaccount.blob.core.windows.net/", "rg1")) /\
  ~ malformedUnlessSixSegments (world threeAccounts) client "myaccount".
Proof.
  split; [reflexivity|]. split; [reflexivity|].
  intros H.
  specialize (H _ [account "other" "/subscriptions/s1/resourceGroups/rg0/providers"]
                (account "myaccount" longID)
                [account "short" "/sub/rg/providers/x"] longID eq_refl eq_refl).
  assert (Hv : value (azureFindAccount (world threeAccounts) client "myaccount")
               = Some (Err ("Malformed account id: " +:+ longID))).
  { apply H.
    - repeat constructor. exists "other". split; [reflexivity|discriminate].
    - reflexivity.
    - reflexivity.
    - vm_compute. discriminate. }
  vm_compute in Hv. discriminate.
Qed.

(** The CLI profile of the examples gives the tenant "t1". *)
Lemma tenantStep_sample s :
  profile s = profile base ->
  tenantStep (world s) {| TenantId := "" |} tenant
    [EvProfilePath; EvLoadProfile "/home/user/.azure/azureProfile.json"].
Proof.
  intros Hp. right. split; [reflexivity|].
  exists "/home/user/.azure/azureProfile.json",
    {| Subscriptions := [sub "s0" "t0" false; sub "s1" "t1" true] |},
    [sub "s0" "t0" false], (sub "s1" "t1" true), [].
  repeat split; try reflexivity; [exact Hp|repeat constructor].
Defined.

Lemma Authorizer_first_success_wins_witness :
  Authorizer (world withEnvCredentials) {| TenantId := "" |} =
    ([EvProfilePath; EvLoadProfile "/home/user/.azure/azureProfile.json";
      EvGetSettingsFromEnvironment; EvEnvClientCredentials],
     Some (Ok "bearer:sp-env")) /\
  Authorizer (world withFileCredentials) {| TenantId := "" |} =
    ([EvProfilePath; EvLoadProfile "/home/user/.azure/azureProfile.json";
      EvGetSettingsFromEnvironment; EvEnvClientCredentials; EvGetSettingsFromFile],
     Some (Ok "bearer:sp-file")) /\
  Authorizer (world foreignThenFresh) {| TenantId := "" |} =
    ([EvProfilePath; EvLoadProfile "/home/user/.azure/azureProfile.json";
      EvGetSettingsFromEnvironment; EvEnvClientCredentials; EvGetSettingsFromFile;
      EvAccessTokensPath; EvLoadTokens tokensFile; EvEnsureFresh],
     Some (Ok "bearer:fresh")) /\
  Authorizer (world base) {| TenantId := "" |} =
    ([EvProfilePath; EvLoadProfile "/home/user/.azure/azureProfile.json";
      EvGetSettingsFromEnvironment; EvEnvClientCredentials; EvGetSettingsFromFile;
      EvAccessTokensPath; EvLoadTokens tokensFile; EvGetMSIVMEndpoint; EvEnsureFresh],
     Some (Ok "bearer:msi")).
Proof.
  assert (Henvfails : forall s, envCredentials s = Err "missing client id" ->
                                envFails (world s) settings).
  { intros s Hs cred Hcred. cbn in Hcred. rewrite Hs in Hcred. discriminate Hcred. }
  assert (Hfilefails : forall s, fileCredentials s = Err "auth file not found" ->
                                 fileFails (world s)).
  { intros s Hs st Hst. cbn in Hst. rewrite Hs in Hst. discriminate Hst. }
  split; [|split; [|split]].
  - destruct (Authorizer_first_success_wins (world withEnvCredentials)
                {| TenantId := "" |}) as [_ H].
    destruct (H tenant _ settings (tenantStep_sample withEnvCredentials eq_refl) eq_refl)
      as [Henv _].
    destruct (Henv "bearer:sp-env") as [Hrun _]; [|exact Hrun].
    exists "sp-env". split; reflexivity.
  - destruct (Authorizer_first_success_wins (world withFileCredentials)
                {| TenantId := "" |}) as [_ H].
    destruct (H tenant _ settings (tenantStep_sample withFileCredentials eq_refl) eq_refl)
      as [_ Hrest].
    destruct (Hrest (Henvfails withFileCredentials eq_refl)) as [Hfile _].
    destruct (Hfile "bearer:sp-file") as [Hrun _]; [|exact Hrun].
    exists "sp-file". split; reflexivity.
  - destruct (Authorizer_first_success_wins (world foreignThenFresh)
                {| TenantId := "" |}) as [_ H].
    destruct (H tenant _ settings (tenantStep_sample foreignThenFresh eq_refl) eq_refl)
      as [_ Hrest].
    destruct (Hrest (Henvfails foreignThenFresh eq_refl)) as [_ Hcache].
    destruct (Hcache (Hfilefails foreignThenFresh eq_refl) tokensFile [foreign; fresh]
                eq_refl eq_refl) as [Hfound _].
    destruct (Hfound [foreign] fresh [] "bearer:fresh") as [Hrun _]; [..|exact Hrun].
    + reflexivity.
    + constructor; [|constructor]. vm_compute. discriminate.
    + vm_compute. reflexivity.
    + exists {| Scheme := "https"; Host := "login.microsoftonline.com"; Path := "/t1";
                RawQuery := ""; Fragment := "" |},
        "https://login.microsoftonline.com/t1", "fresh", "fresh".
      repeat split; vm_compute; reflexivity.
  - destruct (Authorizer_first_success_wins (world base) {| TenantId := "" |}) as [_ H].
    destruct (H tenant _ settings (tenantStep_sample base eq_refl) eq_refl)
      as [_ Hrest].
    destruct (Hrest (Henvfails base eq_refl)) as [_ Hcache].
    destruct (Hcache (Hfilefails base eq_refl) tokensFile [] eq_refl eq_refl)
      as [_ Hmsi].
    destruct (Hmsi (List.Forall_nil _)) as [_ Hyield].
    apply (Hyield "bearer:msi").
    exists "http://169.254.169.254/metadata/identity/oauth2/token", "msi".
    repeat split; vm_compute; reflexivity.
Defined.

Lemma reachesTokenCache_sample s :
  envSettings s = Ok settings ->
  envCredentials s = Err "missing client id" ->
  fileCredentials s = Err "auth file not found" ->
  reachesTokenCache (world s) tenant tenant settings.
Proof.
  intros H1 H2 H3. unfold reachesTokenCache. repeat split.
  - exact H1.
  - unfold envClientCredentials. cbn. now rewrite H2.
  - unfold fileClientCredentials. cbn. now rewrite H3.
Defined.

Lemma Authorizer_scan_exhausted_witness :
  value (Authorizer (world staleToken) tenant) = Some (Err "refresh token has expired") /\
  ~ In EvGetMSIVMEndpoint (trace (Authorizer (world staleToken) tenant)).
Proof.
  destruct (Authorizer_scan_exhausted (world staleToken) tenant tenant settings
              tokensFile [stale; foreign]) as [_ H].
  - apply reachesTokenCache_sample; reflexivity.
  - reflexivity.
  - reflexivity.
  - apply (H [] stale [foreign] "refresh token has expired").
    + reflexivity.
    + constructor.
    + vm_compute. reflexivity.
    + vm_compute. reflexivity.
    + repeat constructor. vm_compute. discriminate.
Defined.

(** C3, as worded, fails: the only cached token of the tenant is stale, the
    managed identity would give an authorizer, and the chain returns the
    error of the conversion without trying the managed identity. *)
Lemma Authorizer_stale_token_counterexample :
  Authorizer (world staleToken) tenant =
    ([EvGetSettingsFromEnvironment; EvEnvClientCredentials; EvGetSettingsFromFile;
      EvAccessTokensPath; EvLoadTokens tokensFile; EvEnsureFresh],
     Some (Err "refresh token has expired")) /\
  value (msiToAuthorizer (world staleToken)
           (auth_GetMSI (world staleToken) (fillDefaults (world staleToken) settings)))
  = Some (Ok "bearer:msi") /\
  ~ exhaustedScanFallsBack (world staleToken) tenant.
Proof.
  split; [vm_compute; reflexivity|]. split; [vm_compute; reflexivity|].
  intros H.
  specialize (H tenant settings tokensFile [stale; foreign]).
  assert (Hv : value (Authorizer (world staleToken) tenant) =
               value (msiToAuthorizer (world staleToken)
                        (auth_GetMSI (world staleToken)
                           (fillDefaults (world staleToken) settings)))).
  { apply H.
    - apply reachesTokenCache_sample; reflexivity.
    - reflexivity.
    - reflexivity.
    - constructor; [|constructor; [|constructor]].
      + right. exists "refresh token has expired". vm_compute. reflexivity.
      + left. vm_compute. discriminate. }
  vm_compute in Hv. discriminate.
Qed.

Lemma Authorizer_token_cache_errors_witness :
  value (Authorizer (world staleThenFresh) tenant) = Some (Ok "bearer:fresh") /\
  value (Authorizer (world staleToken) tenant) = Some (Err "refresh token has expired") /\
  ~ In EvGetMSIVMEndpoint (trace (Authorizer (world staleToken) tenant)).
Proof.
  split.
  - destruct (Authorizer_token_cache_errors (world staleThenFresh) tenant tenant settings)
      as (_ & _ & Hskip & _).
    + apply reachesTokenCache_sample; reflexivity.
    + apply (Hskip tokensFile [stale] fresh [] "bearer:fresh").
      * reflexivity.
      * reflexivity.
      * constructor; [|constructor]. right. exists "refresh token has expired".
        vm_compute. reflexivity.
      * vm_compute. reflexivity.
      * vm_compute. reflexivity.
  - destruct (Authorizer_token_cache_errors (world staleToken) tenant tenant settings)
      as (_ & _ & _ & Hlast).
    + apply reachesTokenCache_sample; reflexivity.
    + destruct (Hlast tokensFile [] stale [foreign] "refresh token has expired")
        as (e' & Hv & Hno & He).
      * reflexivity.
      * reflexivity.
      * constructor.
      * vm_compute. reflexivity.
      * vm_compute. reflexivity.
      * constructor; [|constructor]. left. vm_compute. discriminate.
      * rewrite He in Hv; [split; assumption|].
        constructor; [|constructor]. vm_compute. discriminate.
Defined.

(** C4, as worded, fails: when the path of the token cache cannot be
    obtained the chain goes on to the managed identity, whose authorizer is
    the result.  Nor is a failed conversion only passed over: with one
    stale token of the tenant in the cache, the error of its conversion is
    the result of the chain and the managed identity is not tried. *)
Lemma Authorizer_token_path_error_counterexample :
  cli_AccessTokensPath (world noTokensPath) = Err "cannot expand user-specific home dir" /\
  Authorizer (world noTokensPath) tenant =
    ([EvGetSettingsFromEnvironment; EvEnvClientCredentials; EvGetSettingsFromFile;
      EvAccessTokensPath; EvGetMSIVMEndpoint; EvEnsureFresh],
     Some (Ok "bearer:msi")) /\
  ~ tokenPathErrorFatal (world noTokensPath) tenant /\
  cli_LoadTokens (world staleToken) tokensFile = Ok [stale; foreign] /\
  Authorizer (world staleToken) tenant =
    ([EvGetSettingsFromEnvironment; EvEnvClientCredentials; EvGetSettingsFromFile;
      EvAccessTokensPath; EvLoadTokens tokensFile; EvEnsureFresh],
     Some (Err "refresh token has expired")).
Proof.
  split; [reflexivity|]. split; [vm_compute; reflexivity|].
  split; [|split; [reflexivity|vm_compute; reflexivity]].
  intros H.
  destruct (H tenant settings "cannot expand user-specific home dir") as [Hv _].
  - apply reachesTokenCache_sample; reflexivity.
  - reflexivity.
  - vm_compute in Hv. discriminate.
Qed.

Lemma AzureBlobConfig_explicit_credentials_witness :
  AzureBlobConfig (world explicitCredentials) "http://localhost:10000/myaccount" "" =
    ([], Some ({| Endpoint := "http://localhost:10000/myaccount";
                  AccountName := "myaccount"; AccountKeyValue := "secret";
                  TokenRenewBuffer := 15 * Minute; Container := ""; Prefix := "" |}, None)) /\
  AccountKeyValue
    {| Endpoint := "http://localhost:10000/myaccount";
       AccountName := "myaccount"; AccountKeyValue := "secret";
       TokenRenewBuffer := 15 * Minute; Container := ""; Prefix := "" |}
  = os_Getenv (world explicitCredentials) "AZURE_STORAGE_KEY" /\
  AccountName
    {| Endpoint := "http://localhost:10000/myaccount";
       AccountName := "myaccount"; AccountKeyValue := "secret";
       TokenRenewBuffer := 15 * Minute; Container := ""; Prefix := "" |}
  = os_Getenv (world explicitCredentials) "AZURE_STORAGE_ACCOUNT".
Proof.
  split; [vm_compute; reflexivity|].
  destruct (AzureBlobConfig_explicit_credentials (world explicitCredentials)
              "http://localhost:10000/myaccount" "" "myaccount" "secret")
    as (_ & _ & H).
  - reflexivity.
  - discriminate.
  - reflexivity.
  - discriminate.
  - destruct (H {| Endpoint := "http://localhost:10000/myaccount";
                   AccountName := "myaccount"; AccountKeyValue := "secret";
                   TokenRenewBuffer := 15 * Minute; Container := ""; Prefix := "" |})
      as (Hkey & Hname & _); [vm_compute; reflexivity|].
    split; [exact Hkey|].
    apply Hname. right. right.
    exists {| Scheme := "http"; Host := "localhost:10000"; Path := "/myaccount";
              RawQuery := ""; Fragment := "" |}.
    split; vm_compute; reflexivity.
Defined.

(** C6, as worded, fails twice: with an endpoint whose host name has a dot
    the account name is the first label of the host name, not the value of
    AZURE_STORAGE_ACCOUNT; and with no endpoint the accounts client is
    built and the accounts are listed. *)
Lemma AzureBlobConfig_explicit_credentials_counterexample :
  (value (AzureBlobConfig (world explicitCredentials)
            "https://other.blob.core.windows.net" "")
   = Some ({| Endpoint := "https://other.blob.core.windows.net";
              AccountName := "other"; AccountKeyValue := "secret";
              TokenRenewBuffer := 15 * Minute; Container := ""; Prefix := "" |}, None) /\
   ~ explicitCredentialsUntouched (world explicitCredentials)
       "https://other.blob.core.windows.net" "") /\
  (In EvAccountsList (trace (AzureBlobConfig (world explicitCredentials) "" "")) /\
   ~ explicitCredentialsUntouched (world explicitCredentials) "" "").
Proof.
  split; split.
  - vm_compute. reflexivity.
  - intros H. destruct H as [H _]; [discriminate..|].
    destruct (H {| Endpoint := "https://other.blob.core.windows.net";
                   AccountName := "other"; AccountKeyValue := "secret";
                   TokenRenewBuffer := 15 * Minute; Container := ""; Prefix := "" |})
      as [Hname _]; [vm_compute; reflexivity|].
    vm_compute in Hname. discriminate.
  - vm_compute. tauto.
  - intros H. destruct H as [_ H]; [discriminate..|].
    vm_compute in H. repeat (inversion H as [|? ? ? H']; subst; clear H; rename H' into H);
      discriminate.
Qed.

Lemma AzureBlobConfig_wasb_hint_witness :
  wasbHint (world explicitCredentials) "" "data@myaccount.blob.core.windows.net/dir/sub/"
    zeroConfig =
  ("https://myaccount.blob.core.windows.net/dir/sub/",
   with_hint zeroConfig "data" "dir/sub").
Proof.
  destruct (AzureBlobConfig_wasb_hint (world explicitCredentials) ""
              "data@myaccount.blob.core.windows.net/dir/sub/"
              {| Scheme := "https"; Host := "myaccount.blob.core.windows.net";
                 Path := "/dir/sub/"; RawQuery := ""; Fragment := "" |})
    as (Hhint & _ & _).
  - vm_compute. discriminate.
  - vm_compute. reflexivity.
  - exact Hhint.
Defined.

(** C7, as worded, fails: the endpoint after the hint keeps the path that
    follows the host. *)
Lemma AzureBlobConfig_wasb_endpoint_counterexample :
  effectiveEndpoint (world explicitCredentials) ""
    "data@myaccount.blob.core.windows.net/dir/sub/"
  = "https://myaccount.blob.core.windows.net/dir/sub/" /\
  value (AzureBlobConfig (world explicitCredentials) ""
           "data@myaccount.blob.core.windows.net/dir/sub/")
  = Some ({| Endpoint := "https://myaccount.blob.core.windows.net/dir/sub/";
             AccountName := "myaccount"; AccountKeyValue := "secret";
             TokenRenewBuffer := 15 * Minute;
             Container := "data"; Prefix := "dir/sub" |}, None) /\
  ~ wasbEndpointIsHost (world explicitCredentials) ""
      "data@myaccount.blob.core.windows.net/dir/sub/".
Proof.
  split; [vm_compute; reflexivity|]. split; [vm_compute; reflexivity|].
  intros H.
  destruct (H {| Scheme := "https"; Host := "myaccount.blob.core.windows.net";
                 Path := "/dir/sub/"; RawQuery := ""; Fragment := "" |})
    as (_ & _ & Hep).
  - vm_compute. discriminate.
  - vm_compute. reflexivity.
  - vm_compute in Hep. discriminate.
Qed.

Lemma AzureBlobConfig_lookup_error_returned_witness :
  value (AzureBlobConfig (world explicitCredentials) "" "") =
  Some ({| Endpoint := "https://myaccount.blob.core.windows.net";
           AccountName := "myaccount"; AccountKeyValue := "secret";
           TokenRenewBuffer := 15 * Minute; Container := ""; Prefix := "" |},
        Some "Azure account not found: myaccount").
Proof.
  apply (AzureBlobConfig_lookup_error_returned (world explicitCredentials) ""
           "myaccount" "secret" client "Azure account not found: myaccount").
  - reflexivity.
  - discriminate.
  - reflexivity.
  - discriminate.
  - reflexivity.
  - vm_compute. reflexivity.
  - vm_compute. reflexivity.
Defined.

(** C10 at two inputs. With no account configured and a wasb hint, the
    missing-account error comes with a config whose container and prefix
    are those of the hint and whose other fields are unset. With
    AZURE_STORAGE_ACCOUNT and AZURE_STORAGE_KEY set, no endpoint, and an
    account the subscription does not list, the error of the lookup comes
    with a config whose endpoint, account name, account key and renewal
    buffer are all set. *)
Theorem AzureBlobConfig_error_with_filled_config :
  value (AzureBlobConfig (world base) "" "data@localhost/dir") =
    Some ({| Endpoint := ""; AccountName := ""; AccountKeyValue := "";
             TokenRenewBuffer := 0; Container := "data"; Prefix := "dir" |},
          Some (missingAccount "/home/user/.azure")) /\
  value (AzureBlobConfig (world explicitCredentials) "" "") =
    Some ({| Endpoint := "https://myaccount.blob.core.windows.net";
             AccountName := "myaccount"; AccountKeyValue := "secret";
             TokenRenewBuffer := 900000000000; Container := ""; Prefix := "" |},
          Some "Azure account not found: myaccount").
Proof. split; vm_compute; reflexivity. Qed.

(** ** More on the string primitives *)

Section StringProperties.

Local Open Scope nat_scope.

Lemma append_cons c a b : String c a +:+ b = String c (a +:+ b).
Proof. reflexivity. Qed.

Lemma prefix_split a b :
  String.prefix a b = true -> b = a +:+ slice_from (String.length a) b.
Proof.
  revert b. induction a as [|c a IH]; intros b; [destruct b; reflexivity|].
  destruct b as [|d b]; simpl; [discriminate|].
  destruct (Ascii.ascii_dec c d) as [->|]; [|discriminate].
  intros H. rewrite append_cons. cbn [slice_from String.length]. f_equal. now apply IH.
Qed.

Lemma prefix_slice_to a n b :
  String.prefix a (slice_to n b) = true -> String.prefix a b = true.
Proof.
  revert n b. induction a as [|c a IH]; intros n b; [now destruct b|].
  destruct n as [|n], b as [|d b]; simpl; try discriminate.
  destruct (Ascii.ascii_dec c d); [apply IH|discriminate].
Qed.

(** The string is the text before the first occurrence, the separator and
    the text after it. *)
Lemma index_nat_split s sep i :
  index_nat s sep = Some i ->
  s = slice_to i s +:+ sep +:+ slice_from (i + String.length sep) s.
Proof.
  revert i. induction s as [|c s IH]; intros i; rewrite index_nat_unfold;
    match goal with |- context [String.prefix sep ?t] =>
      destruct (String.prefix sep t) eqn:Hp end.
  - intros [= <-]. now apply prefix_split in Hp.
  - discriminate.
  - intros [= <-]. now apply prefix_split in Hp.
  - destruct (index_nat s sep) as [j|]; simpl; [|discriminate].
    intros [= <-]. cbn [slice_to slice_from Nat.add]. rewrite append_cons.
    f_equal. now apply IH.
Qed.

(** The text before the first occurrence has no occurrence. *)
Lemma index_nat_first s sep i :
  0 < String.length sep -> index_nat s sep = Some i ->
  index_nat (slice_to i s) sep = None.
Proof.
  intros Hsep. revert i. induction s as [|c s IH]; intros i;
    rewrite index_nat_unfold;
    match goal with |- context [String.prefix sep ?t] =>
      destruct (String.prefix sep t) eqn:Hp end.
  - intros [= <-]. now apply index_nat_empty.
  - discriminate.
  - intros [= <-]. now apply index_nat_empty.
  - destruct (index_nat s sep) as [j|] eqn:Hj; simpl; [|discriminate].
    intros [= <-]. cbn [slice_to]. rewrite index_nat_unfold.
    destruct (String.prefix sep (String c (slice_to j s))) eqn:Hp'.
    + apply (prefix_slice_to sep (S j) (String c s)) in Hp'. congruence.
    + now rewrite (IH j eq_refl).
Qed.

Lemma Index_none s sep : Index s sep = (-1)%Z <-> index_nat s sep = None.
Proof.
  unfold Index. destruct (index_nat s sep); split; try reflexivity; try discriminate.
  lia.
Qed.

Lemma Index_some s sep :
  Index s sep <> (-1)%Z -> index_nat s sep = Some (Z.to_nat (Index s sep)).
Proof.
  unfold Index. destruct (index_nat s sep); [|contradiction].
  intros _. now rewrite Nat2Z.id.
Qed.

Lemma TrimLeft_head s cutset c :
  head_char (TrimLeft s cutset) = Some c -> mem c cutset = false.
Proof.
  induction s as [|d s IH]; simpl; [discriminate|].
  destruct (mem d cutset) eqn:Hd; [assumption|]. simpl. now intros [= <-].
Qed.

Lemma TrimRight_last s cutset c :
  last_char (TrimRight s cutset) = Some c -> mem c cutset = false.
Proof.
  induction s as [|d s IH]; simpl; [discriminate|].
  destruct (TrimRight s cutset) as [|e r] eqn:Hr.
  - destruct (mem d cutset) eqn:Hd; simpl; [discriminate|]. now intros [= <-].
  - exact IH.
Qed.

Lemma TrimRight_head s cutset c :
  head_char (TrimRight s cutset) = Some c -> head_char s = Some c.
Proof.
  destruct s as [|d s]; simpl; [discriminate|].
  destruct (TrimRight s cutset); [destruct (mem d cutset)|]; simpl; congruence.
Qed.

(** [Trim] leaves no byte of the cutset at either end. *)
Lemma Trim_ends s cutset c :
  (head_char (Trim s cutset) = Some c -> mem c cutset = false) /\
  (last_char (Trim s cutset) = Some c -> mem c cutset = false).
Proof.
  unfold Trim. split.
  - intros H. apply TrimRight_head in H. now apply TrimLeft_head in H.
  - apply TrimRight_last.
Qed.

Lemma Trim_noSlashAround s : noSlashAround (Trim s "/").
Proof.
  split; intros H; apply (Trim_ends s "/") in H; discriminate.
Qed.

(** Every piece of a split but the last has no separator in it. *)
Lemma SplitN_piece s sep n i p :
  0 < String.length sep ->
  SplitN s sep n !! i = Some p -> S i < length (SplitN s sep n) ->
  index_nat p sep = None.
Proof.
  intros Hsep. revert s i. induction n as [|n IH]; intros s i; [discriminate|].
  destruct n as [|n]; [simpl; intros _ ?; lia|].
  rewrite SplitN_SS. destruct (index_nat s sep) as [j|] eqn:Hj; [|simpl; intros _ ?; lia].
  destruct i as [|i].
  - intros [= <-] _. now apply index_nat_first.
  - cbn [lookup list_lookup length]. intros Hp Hlen. eapply IH; [eassumption|lia].
Qed.

End StringProperties.

(** ** Further properties of the authorizer chain *)

Section AuthorizerFurther.

Context {AuthorizerT SPT OAuthConfig ADALToken Credentials FileSettings : Type}.
Context (w : @World AuthorizerT SPT OAuthConfig ADALToken Credentials FileSettings).

Lemma resolveTenant_configured c :
  TenantId c <> "" -> resolveTenant w c = ret (Ok c).
Proof. intros H. unfold resolveTenant. apply String.eqb_neq in H. now rewrite H. Qed.

Lemma step4_not1 t :
  Forall (fun ev => ofStep 4 ev = true) t -> Forall (fun ev => ofStep 1 ev = false) t.
Proof. apply List.Forall_impl. intros [] ?; try discriminate; reflexivity. Qed.

Lemma step5_not1 t :
  Forall (fun ev => ofStep 5 ev = true) t -> Forall (fun ev => ofStep 1 ev = false) t.
Proof. apply List.Forall_impl. intros [] ?; try discriminate; reflexivity. Qed.

(** X1. With a tenant configured, [Authorizer] never reads the CLI profile:
    its first call reads the settings of the environment and no event of
    the run belongs to tenant resolution. *)
Theorem Authorizer_tenant_configured c :
  TenantId c <> "" ->
  (exists rest, trace (Authorizer w c) = EvGetSettingsFromEnvironment :: rest) /\
  Forall (fun ev => ofStep 1 ev = false) (trace (Authorizer w c)).
Proof.
  intros Hc. pose proof (resolveTenant_configured c Hc) as Hr.
  destruct (auth_GetSettingsFromEnvironment w) as [env|e] eqn:Henv.
  - rewrite (Authorizer_reach w c c env) by (rewrite ?Hr; auto). rewrite Hr.
    cbn [trace fst ret app].
    destruct (envClientCredentials_eq w env) as (r2 & ->). cbn [value snd].
    destruct r2 as [a|]; [split; [eauto|repeat constructor]|].
    destruct (fileClientCredentials_eq w) as (r3 & ->). cbn [value snd].
    destruct r3 as [a|]; [split; [eauto|repeat constructor]|].
    destruct (cachedTokens_total w (adEndpointOf w (fillDefaults w env) c))
      as (t4 & r4 & -> & Ht4).
    destruct (msiToAuthorizer_total w (auth_GetMSI w (fillDefaults w env)))
      as (t5 & r5 & -> & Ht5).
    apply step4_not1 in Ht4. apply step5_not1 in Ht5.
    cbn [value snd trace fst].
    destruct r4 as [a|[e|]]; cbn [fst app]; (split; [eauto|]);
      repeat (constructor; [reflexivity|]); rewrite ?Forall_app; auto.
  - unfold Authorizer. rewrite Hr, bind_ret, bind_call, Henv. cbn.
    split; [eauto|repeat constructor].
Qed.

(** X2. The two fatal errors at the start of [Authorizer]: with no tenant
    configured, the error of [azureDefaultSubscription] is the result and
    only the CLI profile was touched; and the error of reading the
    settings of the environment is the result, no credential source being
    tried after it. *)
Theorem Authorizer_fatal_start c :
  (forall e,
     TenantId c = "" ->
     value (azureDefaultSubscription w) = Some (Err e) ->
     value (Authorizer w c) = Some (Err e) /\
     trace (Authorizer w c) = trace (azureDefaultSubscription w)) /\
  (forall c' e,
     value (resolveTenant w c) = Some (Ok c') ->
     auth_GetSettingsFromEnvironment w = Err e ->
     value (Authorizer w c) = Some (Err e) /\
     trace (Authorizer w c) =
       trace (resolveTenant w c) ++ [EvGetSettingsFromEnvironment]).
Proof.
  split.
  - intros e Hc Hs. unfold Authorizer, resolveTenant. rewrite Hc. cbn [String.eqb].
    destruct (azureDefaultSubscription_total w) as (t & r & Heq & _).
    rewrite Heq in *. cbn [value snd] in Hs. injection Hs as ->.
    cbn. now rewrite !app_nil_r.
  - intros c' e Hc He. unfold Authorizer.
    destruct (resolveTenant_total w c) as (t & r & Heq & _).
    rewrite Heq in *. cbn [value snd] in Hc. injection Hc as ->.
    cbn [bind]. rewrite bind_call, He. cbn. auto.
Qed.

Lemma map_get_insert (m : gmap string string) k v k' :
  map_get (<[k := v]> m) k' = if decide (k = k') then v else map_get m k'.
Proof. unfold map_get. rewrite lookup_insert. now destruct (decide (k = k')). Qed.

(** X3. The defaults written into [env.Values] never replace a value that
    is set: every non-empty value is kept, the environment is untouched,
    keys other than the two defaulted ones are untouched, and (the two
    keys being different) an empty resource becomes the resource-manager
    endpoint and an empty Active Directory endpoint becomes the one of the
    environment. *)
Theorem fillDefaults_keeps_configured env :
  Environment (fillDefaults w env) = Environment env /\
  (forall k, map_get (Values env) k <> "" ->
             map_get (Values (fillDefaults w env)) k = map_get (Values env) k) /\
  (forall k, k <> auth_Resource w -> k <> auth_ActiveDirectoryEndpoint w ->
             Values (fillDefaults w env) !! k = Values env !! k) /\
  (auth_Resource w <> auth_ActiveDirectoryEndpoint w ->
   (map_get (Values env) (auth_Resource w) = "" ->
    map_get (Values (fillDefaults w env)) (auth_Resource w) =
    ResourceManagerEndpoint (Environment env)) /\
   (map_get (Values env) (auth_ActiveDirectoryEndpoint w) = "" ->
    map_get (Values (fillDefaults w env)) (auth_ActiveDirectoryEndpoint w) =
    ActiveDirectoryEndpoint (Environment env))).
Proof.
  unfold fillDefaults.
  destruct (String.eqb_spec (map_get (Values env) (auth_Resource w)) "") as [HR|HR];
    match goal with |- context [String.eqb (map_get (Values ?e) ?k) ""] =>
      destruct (String.eqb_spec (map_get (Values e) k) "") as [HA|HA] end;
    cbn [set_Value Values Environment] in *;
    rewrite ?map_get_insert in *;
    (split; [reflexivity|]); (split; [|split; [|intros Hne; split]]).
  all: try (intros k Hk; rewrite ?map_get_insert; repeat case_decide; congruence).
  all: try (intros k H1 H2; rewrite ?lookup_insert_ne by congruence; reflexivity).
  all: try (intros H; rewrite ?map_get_insert in *; repeat case_decide; congruence).
Qed.

Lemma TrimRight_app_cut s cutset c :
  mem c cutset = true -> TrimRight (s +:+ String c EmptyString) cutset = TrimRight s cutset.
Proof.
  intros Hc. induction s as [|d s IH]; [simpl; now rewrite Hc|].
  rewrite append_cons. simpl. now rewrite IH.
Qed.

Lemma Trim_app_cut s cutset c :
  mem c cutset = true -> Trim (s +:+ String c EmptyString) cutset = Trim s cutset.
Proof.
  intros Hc. unfold Trim. induction s as [|d s IH]; [simpl; now rewrite Hc|].
  rewrite append_cons. simpl. destruct (mem d cutset); [assumption|].
  rewrite <- append_cons. now apply TrimRight_app_cut.
Qed.

(** What [TrimLeft] removes is a run of bytes of the cutset at the start
    of the string, and what [TrimRight] removes a run at its end. *)
Lemma TrimLeft_split s cutset :
  exists pre, s = pre +:+ TrimLeft s cutset /\ onlyOf cutset pre = true.
Proof.
  induction s as [|c s (pre & IH & Hpre)]; [exists ""; split; reflexivity|].
  simpl. destruct (mem c cutset) eqn:Hc.
  - exists (String c pre). rewrite append_cons, <- IH. simpl. now rewrite Hc.
  - exists "". split; reflexivity.
Qed.

Lemma TrimRight_split s cutset :
  exists post, s = TrimRight s cutset +:+ post /\ onlyOf cutset post = true.
Proof.
  induction s as [|c s (post & IH & Hpost)]; [exists ""; split; reflexivity|].
  simpl. destruct (TrimRight s cutset) as [|d r] eqn:Hr.
  - destruct (mem c cutset) eqn:Hc.
    + exists (String c post). split; [now rewrite IH|]. simpl. now rewrite Hc.
    + exists post. split; [now rewrite IH at 1|assumption].
  - exists post. split; [|assumption]. rewrite append_cons. now rewrite <- IH.
Qed.

Lemma Trim_split s cutset :
  exists pre post,
    s = pre +:+ Trim s cutset +:+ post /\
    onlyOf cutset pre = true /\ onlyOf cutset post = true.
Proof.
  destruct (TrimLeft_split s cutset) as (pre & Hs & Hpre).
  destruct (TrimRight_split (TrimLeft s cutset) cutset) as (post & Hl & Hpost).
  exists pre, post. unfold Trim. now rewrite <- Hl.
Qed.

(** A string with no slash at either end is left as it is. *)
Lemma TrimRight_id s :
  last_char s <> Some "/"%char -> TrimRight s "/" = s.
Proof.
  induction s as [|c s IH]; [reflexivity|]. intros H.
  destruct s as [|d s].
  - simpl in *. destruct (Ascii.eqb_spec c "/"%char) as [->|]; [contradiction|reflexivity].
  - change (last_char (String c (String d s))) with (last_char (String d s)) in H.
    change (TrimRight (String c (String d s)) "/")
      with (match TrimRight (String d s) "/" with
            | EmptyString => if mem c "/" then EmptyString else String c EmptyString
            | r => String c r
            end).
    now rewrite (IH H).
Qed.

Lemma Trim_id s : noSlashAround s -> Trim s "/" = s.
Proof.
  intros [Hh Hl]. unfold Trim.
  assert (Hleft : TrimLeft s "/" = s).
  { destruct s as [|c s]; [reflexivity|]. simpl in *.
    destruct (Ascii.eqb_spec c "/"%char) as [->|]; [contradiction|reflexivity]. }
  rewrite Hleft. now apply TrimRight_id.
Qed.

(** X4. The authority the cached tokens are compared with is made of the
    Active Directory endpoint of the settings: that endpoint with the
    slashes at its start and at its end removed, and nothing else, then
    one slash and the tenant.  An endpoint that has no slash at either end
    is taken as it is, and a slash more at the end of the endpoint gives
    the same authority. *)
Theorem adEndpointOf_shape env c :
  (exists pre base post,
     map_get (Values env) (auth_ActiveDirectoryEndpoint w) = pre +:+ base +:+ post /\
     onlyOf "/" pre = true /\ onlyOf "/" post = true /\ noSlashAround base /\
     adEndpointOf w env c = base +:+ "/" +:+ TenantId c) /\
  (noSlashAround (map_get (Values env) (auth_ActiveDirectoryEndpoint w)) ->
   adEndpointOf w env c =
     map_get (Values env) (auth_ActiveDirectoryEndpoint w) +:+ "/" +:+ TenantId c) /\
  (forall env',
     map_get (Values env') (auth_ActiveDirectoryEndpoint w) =
       map_get (Values env) (auth_ActiveDirectoryEndpoint w) +:+ "/" ->
     adEndpointOf w env' c = adEndpointOf w env c).
Proof.
  split; [|split].
  - destruct (Trim_split (map_get (Values env) (auth_ActiveDirectoryEndpoint w)) "/")
      as (pre & post & Hs & Hpre & Hpost).
    exists pre, (Trim (map_get (Values env) (auth_ActiveDirectoryEndpoint w)) "/"), post.
    repeat split; try assumption; apply Trim_noSlashAround.
  - intros H. unfold adEndpointOf. now rewrite Trim_id.
  - intros env' H. unfold adEndpointOf. rewrite H. now rewrite Trim_app_cut.
Qed.

(** X5. The scan of the token cache only looks at the tokens of the target
    authority: dropping the other tokens from the list changes neither the
    result nor the calls made, and when no token has the authority nothing
    is converted and [err] is as it was. *)
Theorem scanTokens_other_authorities adEndpoint accessTokens err :
  scanTokens w adEndpoint accessTokens err =
    scanTokens w adEndpoint
      (List.filter (fun t => String.eqb (Authority t) adEndpoint) accessTokens) err /\
  (List.filter (fun t => String.eqb (Authority t) adEndpoint) accessTokens = [] ->
   scanTokens w adEndpoint accessTokens err = ret (NotFound err)).
Proof.
  assert (H : forall e, scanTokens w adEndpoint accessTokens e =
    scanTokens w adEndpoint
      (List.filter (fun t => String.eqb (Authority t) adEndpoint) accessTokens) e).
  { induction accessTokens as [|t rest IH]; intros e; [reflexivity|].
    cbn [List.filter]. rewrite scanTokens_cons.
    destruct (String.eqb (Authority t) adEndpoint) eqn:Ht; [|apply IH].
    rewrite scanTokens_cons, Ht. apply bind_ext. intros [a|e']; [reflexivity|apply IH]. }
  split; [apply H|]. intros Hnone. now rewrite H, Hnone.
Qed.

(** X6. The scan stops at the first token of the authority that converts:
    the tokens after it are not looked at, so the result and the calls
    made are those of the list cut after that token. *)
Theorem scanTokens_stops_at_first adEndpoint l1 t l2 a err :
  Authority t = adEndpoint ->
  value (tokenToAuthorizer w t) = Some (Ok a) ->
  scanTokens w adEndpoint (l1 ++ t :: l2) err = scanTokens w adEndpoint (l1 ++ [t]) err.
Proof.
  intros Ht Ha. apply String.eqb_eq in Ht. revert err.
  induction l1 as [|x l1 IH]; intros err; cbn [app].
  - rewrite !scanTokens_cons, Ht.
    destruct (tokenToAuthorizer_total w t) as (tr & r & Heq & _).
    rewrite Heq in *. cbn [value snd] in Ha. injection Ha as ->. reflexivity.
  - rewrite !scanTokens_cons.
    destruct (String.eqb (Authority x) adEndpoint); [|apply IH].
    apply bind_ext. intros [b|e]; [reflexivity|apply IH].
Qed.

(** X7. An authorizer that [tokenToAuthorizer] or [msiToAuthorizer] returns
    wraps a service-principal token whose [EnsureFresh] has just
    succeeded, and that refresh is the last call of the conversion. *)
Theorem converted_authorizer_is_fresh :
  (forall t a,
     value (tokenToAuthorizer w t) = Some (Ok a) ->
     exists spt,
       a = autorest_NewBearerAuthorizer w spt /\ adal_EnsureFresh w spt = None /\
       trace (tokenToAuthorizer w t) = [EvEnsureFresh]) /\
  (forall mc a,
     value (msiToAuthorizer w mc) = Some (Ok a) ->
     exists spt,
       a = autorest_NewBearerAuthorizer w spt /\ adal_EnsureFresh w spt = None /\
       trace (msiToAuthorizer w mc) = [EvGetMSIVMEndpoint; EvEnsureFresh]).
Proof.
  split.
  - intros t a. unfold tokenToAuthorizer. rewrite bind_ret.
    destruct (url_Parse w (Authority t)) as [u|e]; [|discriminate].
    rewrite bind_ret.
    destruct (adal_NewOAuthConfig _ _ _) as [oauth|e]; [|discriminate].
    rewrite bind_ret.
    destruct (cli_ToADALToken w t) as [aToken|e]; [|discriminate].
    rewrite bind_ret.
    destruct (adal_NewServicePrincipalTokenFromManualToken _ _ _ _ _) as [spt|e];
      [|discriminate].
    rewrite sptTest_eq. cbn [value snd trace fst].
    destruct (adal_EnsureFresh w spt) eqn:Hf; [discriminate|].
    intros [= <-]. exists spt. auto.
  - intros mc a. unfold msiToAuthorizer. rewrite bind_call.
    destruct (adal_GetMSIVMEndpoint w) as [ep|e]; [|discriminate].
    cbv beta iota. rewrite bind_ret.
    match goal with |- context [match ?x with Ok _ => _ | Err _ => _ end] =>
      destruct x as [spt|e] end; [|discriminate].
    rewrite sptTest_eq. cbn [value snd trace fst].
    destruct (adal_EnsureFresh w spt) eqn:Hf; [discriminate|].
    intros [= <-]. exists spt. auto.
Qed.

End AuthorizerFurther.

(** ** Further properties of the accounts client and the account lookup *)

Section AccountsFurther.

Context {AuthorizerT SPT OAuthConfig ADALToken Credentials FileSettings : Type}.
Context (w : @World AuthorizerT SPT OAuthConfig ADALToken Credentials FileSettings).

(** X8. A client that [azureAccountsClient] returns is scoped to the default
    subscription and carries the authorizer that [Authorizer] gives for
    the tenant of that subscription; when there is no default subscription
    the error is returned before any client is built or any credential
    source is tried. *)
Theorem azureAccountsClient_scoped account :
  (forall client,
     value (azureAccountsClient w account) = Some (Ok client) ->
     exists s a,
       value (azureDefaultSubscription w) = Some (Ok s) /\
       SubscriptionID client = ID s /\ ClientAuthorizer client = Some a /\
       value (Authorizer w {| TenantId := TenantID s |}) = Some (Ok a)) /\
  (forall e,
     value (azureDefaultSubscription w) = Some (Err e) ->
     azureAccountsClient w account = (trace (azureDefaultSubscription w), Some (Err e))).
Proof.
  unfold azureAccountsClient.
  destruct (azureDefaultSubscription_total w) as (t & r & Heq & _). rewrite Heq.
  cbn [value snd trace fst]. split.
  - intros client. destruct r as [s|e]; cbn [bind]; [|cbn; discriminate].
    rewrite bind_call. cbv beta iota. rewrite value_bind. cbn [value snd].
    destruct (value (Authorizer w {| TenantId := TenantID s |})) as [[a|e]|] eqn:Ha;
      cbn; try discriminate.
    intros [= <-]. exists s, a. auto.
  - intros e [= ->]. cbn. now rewrite app_nil_r.
Qed.

Lemma findAccount_no_panic accs account :
  Forall wellFormedAccount accs -> value (findAccount accs account) <> None.
Proof.
  induction 1 as [|acc rest (Hn & Hid & pe & Hpe & Hb) _ IH]; [discriminate|].
  rewrite findAccount_cons.
  destruct (accName acc) as [name|]; [|contradiction]. cbn [deref]. rewrite bind_ret.
  destruct (String.eqb name account); [|assumption].
  destruct (accID acc) as [id|]; [|contradiction]. cbn [deref]. rewrite bind_ret.
  cbv zeta. remember (SplitN id "/" 6) as parts eqn:Hparts.
  destruct (Nat.eqb_spec (length parts) 6) as [Hlen|]; [|discriminate].
  cbn [negb]. rewrite Hpe. cbn [deref]. rewrite bind_ret.
  destruct (Blob pe) as [blob|]; [|contradiction]. cbn [deref]. rewrite bind_ret.
  destruct (lookup_lt_is_Some_2 parts 4) as [rg ->]; [lia|].
  cbn [deref]. rewrite bind_ret. discriminate.
Qed.

(** X9. The account lookup lists the accounts once and makes no other call.
    It does not panic when the listing holds a list whose accounts all
    have a name, an identifier and a blob endpoint; a listing with a nil
    list pointer makes it panic. *)
Theorem azureFindAccount_safe client account :
  trace (azureFindAccount w client account) = [EvAccountsList] /\
  (forall accs,
     azblob_List w client = Ok {| accValue := Some accs |} ->
     Forall wellFormedAccount accs ->
     value (azureFindAccount w client account) <> None) /\
  (azblob_List w client = Ok {| accValue := None |} ->
   value (azureFindAccount w client account) = None).
Proof.
  split; [apply azureFindAccount_trace|]. split.
  - intros accs Hl Hwf. rewrite (azureFindAccount_listed w _ _ _ Hl). cbn [value snd].
    now apply findAccount_no_panic.
  - intros Hl. unfold azureFindAccount. now rewrite bind_call, Hl.
Qed.

Lemma findAccount_resource_group accs account blob rg :
  value (findAccount accs account) = Some (Ok (blob, rg)) -> Index rg "/" = -1.
Proof.
  induction accs as [|acc rest IH]; [discriminate|]. rewrite findAccount_cons.
  destruct (accName acc) as [name|]; [|discriminate]. cbn [deref]. rewrite bind_ret.
  destruct (String.eqb name account); [|assumption].
  destruct (accID acc) as [id|]; [|discriminate]. cbn [deref]. rewrite bind_ret.
  cbv zeta. remember (SplitN id "/" 6) as parts eqn:Hparts.
  destruct (Nat.eqb_spec (length parts) 6) as [Hlen|]; [|discriminate].
  cbn [negb].
  destruct (PrimaryEndpoints acc) as [pe|]; [|discriminate]. cbn [deref]. rewrite bind_ret.
  destruct (Blob pe) as [b|]; [|discriminate]. cbn [deref]. rewrite bind_ret.
  destruct (parts !! 4%nat) as [p|] eqn:Hp; [|discriminate].
  cbn [deref]. rewrite bind_ret. intros [= <- <-].
  apply Index_none. subst parts.
  apply (SplitN_piece id "/" 6 4 p); [simpl; lia|assumption|lia].
Qed.

(** X10. The resource group that [azureFindAccount] returns has no slash in
    it. *)
Theorem azureFindAccount_resource_group client account blob rg :
  value (azureFindAccount w client account) = Some (Ok (blob, rg)) ->
  Index rg "/" = -1.
Proof.
  unfold azureFindAccount. rewrite bind_call. cbn [value snd].
  destruct (azblob_List w client) as [listing|e]; [|discriminate].
  destruct (accValue listing) as [accs|]; [|discriminate].
  cbn [deref]. rewrite bind_ret. apply findAccount_resource_group.
Qed.

Lemma preferFull_panics keys key0 :
  value (preferFull keys key0) = None <->
  exists l1 k l2,
    keys = l1 ++ k :: l2 /\ Forall (fun x => Permissions x <> Full) l1 /\
    Permissions k = Full /\ keyValue k = None.
Proof.
  induction keys as [|x rest IH]; simpl.
  - split; [discriminate|]. intros ([|? ?] & ? & ? & ? & _); discriminate.
  - destruct (String.eqb_spec (Permissions x) Full) as [Hx|Hx].
    + split.
      * intros Hv. exists [], x, rest. repeat split; auto.
        destruct (keyValue x); [discriminate|reflexivity].
      * intros ([|y l1] & k & l2 & Heq & Hl1 & Hk & Hnil).
        -- injection Heq as <- <-. now rewrite Hnil.
        -- injection Heq as <- _. inversion Hl1; contradiction.
    + rewrite IH. split.
      * intros (l1 & k & l2 & -> & Hl1 & Hk & Hnil).
        exists (x :: l1), k, l2. repeat split; auto.
      * intros ([|y l1] & k & l2 & Heq & Hl1 & Hk & Hnil).
        -- injection Heq as <- _. contradiction.
        -- injection Heq as <- ->. inversion Hl1; subst. eauto 10.
Qed.

(** X11. The key selection panics exactly when the value of the first key is
    nil or the value of the first full-permission key is nil (the value
    the loop reads and then discards). *)
Theorem selectKey_panics first rest key0 :
  value (selectKey (first :: rest) key0) = None <->
  keyValue first = None \/
  exists l1 k l2,
    first :: rest = l1 ++ k :: l2 /\ Forall (fun x => Permissions x <> Full) l1 /\
    Permissions k = Full /\ keyValue k = None.
Proof.
  rewrite selectKey_value, <- (preferFull_panics (first :: rest) key0).
  destruct (value (preferFull (first :: rest) key0)) as [k|].
  - split; [now left|]. intros [H|H]; [assumption|discriminate].
  - split; [now right|reflexivity].
Qed.

End AccountsFurther.

(** ** Further properties of the blob configuration *)

Section BlobConfigFurther.

Context {AuthorizerT SPT OAuthConfig ADALToken Credentials FileSettings : Type}.
Context (w : @World AuthorizerT SPT OAuthConfig ADALToken Credentials FileSettings).

(** Whatever [AzureBlobConfig] returns has the container and the prefix the
    hint left. *)
Lemma AzureBlobConfig_hint_kept endpoint wasb config err :
  value (AzureBlobConfig w endpoint wasb) = Some (config, err) ->
  Container config = Container (snd (wasbHint w endpoint wasb zeroConfig)) /\
  Prefix config = Prefix (snd (wasbHint w endpoint wasb zeroConfig)).
Proof.
  unfold AzureBlobConfig.
  destruct (wasbHint w endpoint wasb zeroConfig) as [endpoint' config0]. cbn [snd].
  destruct (accountFromEndpoint w _ _) as [a|e]; [|now intros [= <- <-]].
  rewrite value_bind.
  destruct (value (configFile w a _ _)) as [[[a' k'] cd']|]; [|discriminate].
  destruct (String.eqb a' ""); [now intros [= <- <-]|].
  rewrite value_bind.
  destruct (value (discover w _ k' a' cd')) as [[[[ep k''] er]|e']|];
    [| |discriminate]; now intros [= <- <-].
Qed.

Lemma wasbHint_cases endpoint wasb :
  wasbHint w endpoint wasb zeroConfig = (endpoint, zeroConfig) \/
  exists u,
    Index wasb "@" <> -1 /\ url_Parse w (storageEndpointOf wasb) = Ok u /\
    wasbHint w endpoint wasb zeroConfig =
    (storageEndpointOf wasb,
     with_hint zeroConfig (slice_to (Z.to_nat (Index wasb "@")) wasb) (Trim (Path u) "/")).
Proof.
  destruct (Z.eq_dec (Index wasb "@") (-1)) as [Hat|Hat].
  - left. now apply wasbHint_none.
  - destruct (url_Parse w (storageEndpointOf wasb)) as [u|e] eqn:Hu.
    + right. exists u. split; [assumption|]. split; [reflexivity|].
      now apply wasbHint_parsed.
    + left. unfold wasbHint. apply Z.eqb_neq in Hat. rewrite Hat. cbn [negb].
      fold (storageEndpointOf wasb). now rewrite Hu.
Qed.

(** X12. The hint can be put together again from what it was split into: when
    the hint is taken, the wasb text is the container, an "@", and the
    endpoint in effect without its "https://"; the container is the text
    before the first "@" and so has no "@" in it. *)
Theorem wasbHint_round_trip endpoint wasb u :
  Index wasb "@" <> -1 ->
  url_Parse w (storageEndpointOf wasb) = Ok u ->
  wasb = Container (snd (wasbHint w endpoint wasb zeroConfig)) +:+ "@" +:+
         slice_from 8 (effectiveEndpoint w endpoint wasb) /\
  Index (Container (snd (wasbHint w endpoint wasb zeroConfig))) "@" = -1.
Proof.
  intros Hat Hu. unfold effectiveEndpoint.
  rewrite (wasbHint_parsed w endpoint wasb zeroConfig u Hat Hu). cbn [fst snd Container with_hint].
  pose proof (Index_some wasb "@" Hat) as Hi. split.
  - change (slice_from 8 (storageEndpointOf wasb))
      with (slice_from (Z.to_nat (Index wasb "@" + 1)) wasb).
    replace (Z.to_nat (Index wasb "@" + 1))
      with (Z.to_nat (Index wasb "@") + String.length "@")%nat.
    + now apply index_nat_split.
    + unfold Index in *. destruct (index_nat wasb "@"); [|contradiction].
      cbn [String.length]. lia.
  - apply Index_none. apply index_nat_first; [simpl; lia|assumption].
Qed.

(** X13. In whatever [AzureBlobConfig] returns, with or without an error, the
    prefix has no slash at either end and the container has no "@". *)
Theorem AzureBlobConfig_hint_fields endpoint wasb config err :
  value (AzureBlobConfig w endpoint wasb) = Some (config, err) ->
  noSlashAround (Prefix config) /\ Index (Container config) "@" = -1.
Proof.
  intros Hv. destruct (AzureBlobConfig_hint_kept _ _ _ _ Hv) as [-> ->].
  destruct (wasbHint_cases endpoint wasb) as [->|(u & Hat & Hu & ->)];
    cbn [snd Prefix Container with_hint zeroConfig].
  - split; [split; discriminate|reflexivity].
  - split; [apply Trim_noSlashAround|].
    apply Index_none. apply index_nat_first; [simpl; lia|].
    now apply Index_some.
Qed.

(** X14. A hint without "@", or whose text after the "@" does not parse as a
    URL, is ignored: the explicit endpoint stays in effect and whatever the
    function returns has an empty container and an empty prefix. *)
Theorem AzureBlobConfig_hint_ignored endpoint wasb :
  Index wasb "@" = -1 \/ (exists e, url_Parse w (storageEndpointOf wasb) = Err e) ->
  effectiveEndpoint w endpoint wasb = endpoint /\
  forall config err,
    value (AzureBlobConfig w endpoint wasb) = Some (config, err) ->
    Container config = "" /\ Prefix config = "".
Proof.
  intros H.
  assert (Hh : wasbHint w endpoint wasb zeroConfig = (endpoint, zeroConfig)).
  { destruct (wasbHint_cases endpoint wasb) as [Hh|(u & Hat & Hu & _)]; [assumption|].
    destruct H as [H|[e H]]; congruence. }
  unfold effectiveEndpoint. rewrite Hh. split; [reflexivity|].
  intros config err Hv. destruct (AzureBlobConfig_hint_kept _ _ _ _ Hv) as [-> ->].
  now rewrite Hh.
Qed.

(** X15. The account the endpoint gives is the first label of its host
    name.  The empty endpoint and the emulator address leave the account
    as it was.  Any other endpoint is parsed; with no dot in its host name
    the account stays as it was, and otherwise the account becomes the
    text of the host name before its first dot: the host name is that
    text, a dot and the rest, and the text has no dot. *)
Theorem accountFromEndpoint_first_label endpoint account a :
  accountFromEndpoint w endpoint account = Ok a ->
  (a = account \/ Index a "." = -1) /\
  (endpoint = "" \/ endpoint = emulatorEndpoint -> a = account) /\
  (endpoint <> "" -> endpoint <> emulatorEndpoint ->
   exists u,
     url_Parse w endpoint = Ok u /\
     (Index (url_Hostname w u) "." = -1 -> a = account) /\
     (Index (url_Hostname w u) "." <> -1 ->
      Index a "." = -1 /\
      exists rest, url_Hostname w u = a +:+ "." +:+ rest)).
Proof.
  unfold accountFromEndpoint.
  destruct (String.eqb_spec endpoint "") as [->|H1];
    [intros [= <-]; repeat split; auto; congruence|].
  destruct (String.eqb_spec endpoint emulatorEndpoint) as [->|H2];
    [intros [= <-]; repeat split; auto; congruence|].
  cbn [negb andb]. destruct (url_Parse w endpoint) as [u|e]; [|discriminate].
  cbv zeta. destruct (Z.eqb_spec (Index (url_Hostname w u) ".") (-1)) as [Hd|Hd];
    cbn [negb]; intros [= <-].
  - split; [auto|]. split; [intros [?|?]; contradiction|].
    intros _ _. exists u. split; [reflexivity|]. split; [auto|contradiction].
  - pose proof (Index_some _ _ Hd) as Hi.
    assert (Hno : Index (slice_to (Z.to_nat (Index (url_Hostname w u) "."))
                           (url_Hostname w u)) "." = -1).
    { apply Index_none. apply index_nat_first; [simpl; lia|assumption]. }
    split; [auto|]. split; [intros [?|?]; contradiction|].
    intros _ _. exists u. split; [reflexivity|]. split; [contradiction|].
    intros _. split; [assumption|]. eexists. now apply index_nat_split.
Qed.

(** X16. An endpoint that does not parse is fatal at once: the parse error
    is returned with the zero config, before the ini file is read or any
    call is made. *)
Theorem AzureBlobConfig_endpoint_parse_error endpoint wasb e :
  effectiveEndpoint w endpoint wasb <> "" ->
  effectiveEndpoint w endpoint wasb <> emulatorEndpoint ->
  url_Parse w (effectiveEndpoint w endpoint wasb) = Err e ->
  AzureBlobConfig w endpoint wasb = ([], Some (zeroConfig, Some e)).
Proof.
  unfold effectiveEndpoint. intros H1 H2 He.
  destruct (wasbHint_cases endpoint wasb) as [Hh|(u & Hat & Hu & Hh)];
    rewrite Hh in *; cbn [fst] in *; [|congruence].
  unfold AzureBlobConfig, accountFromEndpoint. rewrite Hh.
  apply String.eqb_neq in H1, H2. now rewrite H1, H2, He.
Qed.

Lemma configFile_total account key configDir :
  exists t r, configFile w account key configDir = (t, Some r) /\
              Forall (fun ev => isIniLoad ev = true) t.
Proof.
  unfold configFile. destruct (_ || _);
    [|do 2 eexists; split; [reflexivity|constructor]].
  rewrite bind_call.
  match goal with |- context [ini_Load w ?p] => destruct (ini_Load w p) as [f|e] end;
    [destruct (f !! "storage") as [sect|]|];
    do 2 eexists; (split; [reflexivity|repeat constructor]).
Qed.

(** X17. The ini file never overrides what is already known: it is not
    loaded at all when the account and the key are both known, and when it
    is loaded a non-empty account and a non-empty key come out unchanged.
    Reading it never fails the function: a missing file, a missing
    [storage] section or a missing entry leave the values as they were. *)
Theorem configFile_precedence account key configDir :
  (account <> "" -> key <> "" ->
   configFile w account key configDir = ret (account, key, configDir)) /\
  (exists account' key' configDir',
     value (configFile w account key configDir) = Some (account', key', configDir') /\
     (account <> "" -> account' = account) /\
     (key <> "" -> key' = key) /\
     (forall path,
        trace (configFile w account key configDir) = [EvIniLoad path] ->
        (forall e, ini_Load w path = Err e -> account' = account /\ key' = key) /\
        (forall f, ini_Load w path = Ok f -> f !! "storage" = None ->
                   account' = account /\ key' = key))).
Proof.
  split.
  - intros Ha Hk. unfold configFile. apply String.eqb_neq in Ha, Hk.
    now rewrite Ha, Hk.
  - unfold configFile. destruct (_ || _).
    + rewrite bind_call.
      match goal with |- context [ini_Load w ?p] =>
        destruct (ini_Load w p) as [f|e] eqn:Hl end;
        [destruct (f !! "storage") as [sect|] eqn:Hs|].
      * do 3 eexists. split; [reflexivity|]. repeat split.
        -- intros Ha. apply String.eqb_neq in Ha. now rewrite Ha.
        -- intros Hk. apply String.eqb_neq in Hk. now rewrite Hk.
        -- cbn in H. injection H as <-. congruence.
        -- cbn in H. injection H as <-. congruence.
        -- cbn in H. injection H as <-. congruence.
        -- cbn in H. injection H as <-. congruence.
      * do 3 eexists. split; [reflexivity|]. repeat split.
      * do 3 eexists. split; [reflexivity|]. repeat split.
    + do 3 eexists. split; [reflexivity|]. repeat split; discriminate.
Qed.

End BlobConfigFurther.

(** ** Outcomes of the blob configuration *)

Section BlobConfigOutcomes.

Context {AuthorizerT SPT OAuthConfig ADALToken Credentials FileSettings : Type}.
Context (w : @World AuthorizerT SPT OAuthConfig ADALToken Credentials FileSettings).

(** [AzureBlobConfig] once the account, the key and the config directory
    after the ini file are known. *)
Lemma AzureBlobConfig_after_configFile endpoint wasb a account key configDir :
  accountFromEndpoint w (effectiveEndpoint w endpoint wasb)
    (os_Getenv w "AZURE_STORAGE_ACCOUNT") = Ok a ->
  value (configFile w a (os_Getenv w "AZURE_STORAGE_KEY")
           (os_Getenv w "AZURE_CONFIG_DIR")) = Some (account, key, configDir) ->
  let config0 := snd (wasbHint w endpoint wasb zeroConfig) in
  let before := trace (configFile w a (os_Getenv w "AZURE_STORAGE_KEY")
                         (os_Getenv w "AZURE_CONFIG_DIR")) in
  AzureBlobConfig w endpoint wasb =
  if String.eqb account "" then (before, Some (config0, Some (missingAccount configDir)))
  else
    let d := discover w (effectiveEndpoint w endpoint wasb) key account configDir in
    (before ++ trace d,
     match value d with
     | Some (Return e) => Some (config0, Some e)
     | Some (Continue (ep, k, err)) =>
         Some (finish config0
                 (if String.eqb ep "" then publicEndpoint w account else ep) account k, err)
     | None => None
     end).
Proof.
  intros Ha Hcf. cbv zeta. unfold AzureBlobConfig, effectiveEndpoint in *.
  destruct (wasbHint w endpoint wasb zeroConfig) as [endpoint' config0].
  cbn [fst snd] in *. rewrite Ha.
  destruct (configFile_total w a (os_Getenv w "AZURE_STORAGE_KEY")
              (os_Getenv w "AZURE_CONFIG_DIR")) as (t & r & Heq & _).
  rewrite Heq in *. cbn [value snd trace fst] in *. injection Hcf as ->.
  cbn [bind]. destruct (String.eqb account ""); [cbn; now rewrite app_nil_r|].
  destruct (discover w endpoint' key account configDir) as [td [[[[ep k] err]|e]|]];
    cbn; rewrite ?app_nil_r; reflexivity.
Qed.

(** X18. When neither the environment, nor the host name of the endpoint, nor
    the ini file gives an account, [AzureBlobConfig] returns the error
    "Missing account: configure via AZURE_STORAGE_ACCOUNT or <dir>/config"
    naming the config directory it used; it has made no call but the load
    of the ini file. *)
Theorem AzureBlobConfig_missing_account endpoint wasb a key configDir :
  accountFromEndpoint w (effectiveEndpoint w endpoint wasb)
    (os_Getenv w "AZURE_STORAGE_ACCOUNT") = Ok a ->
  value (configFile w a (os_Getenv w "AZURE_STORAGE_KEY")
           (os_Getenv w "AZURE_CONFIG_DIR")) = Some ("", key, configDir) ->
  value (AzureBlobConfig w endpoint wasb) =
    Some (snd (wasbHint w endpoint wasb zeroConfig), Some (missingAccount configDir)) /\
  Forall (fun ev => isIniLoad ev = true) (trace (AzureBlobConfig w endpoint wasb)).
Proof.
  intros Ha Hcf.
  rewrite (AzureBlobConfig_after_configFile endpoint wasb a "" key configDir Ha Hcf).
  cbn. split; [reflexivity|].
  destruct (configFile_total w a (os_Getenv w "AZURE_STORAGE_KEY")
              (os_Getenv w "AZURE_CONFIG_DIR")) as (t & r & -> & Ht).
  exact Ht.
Qed.

(** X19. With an account and no key configured, every failure on the way to
    a key ends the function with an error and the config of the hint: a
    failure to build the accounts client is returned as it is; a failed
    lookup of the account is reported as "Missing key: configure via
    AZURE_STORAGE_KEY or <dir>/config" and the keys are not listed; a
    failed or empty key listing is reported with the same message. *)
Theorem AzureBlobConfig_missing_key endpoint wasb a account configDir :
  accountFromEndpoint w (effectiveEndpoint w endpoint wasb)
    (os_Getenv w "AZURE_STORAGE_ACCOUNT") = Ok a ->
  value (configFile w a (os_Getenv w "AZURE_STORAGE_KEY")
           (os_Getenv w "AZURE_CONFIG_DIR")) = Some (account, "", configDir) ->
  account <> "" ->
  let config0 := snd (wasbHint w endpoint wasb zeroConfig) in
  (forall e,
     value (azureAccountsClient w account) = Some (Err e) ->
     value (AzureBlobConfig w endpoint wasb) = Some (config0, Some e)) /\
  (forall client e,
     value (azureAccountsClient w account) = Some (Ok client) ->
     value (azureFindAccount w client account) = Some (Err e) ->
     value (AzureBlobConfig w endpoint wasb) = Some (config0, Some (missingKey configDir)) /\
     Forall (fun ev => isListKeys ev = false) (trace (AzureBlobConfig w endpoint wasb))) /\
  (forall client blob rg,
     value (azureAccountsClient w account) = Some (Ok client) ->
     value (azureFindAccount w client account) = Some (Ok (blob, rg)) ->
     (exists e, azblob_ListKeys w client rg account = Err e) \/
     azblob_ListKeys w client rg account = Ok {| Keys := Some [] |} ->
     value (AzureBlobConfig w endpoint wasb) = Some (config0, Some (missingKey configDir))).
Proof.
  intros Ha Hcf Hne. cbv zeta.
  rewrite (AzureBlobConfig_after_configFile endpoint wasb a account "" configDir Ha Hcf).
  apply String.eqb_neq in Hne. rewrite Hne. cbv zeta. cbn [value snd trace fst].
  unfold discover. rewrite orb_true_r. split; [|split].
  - intros e Hc. now rewrite value_bind, Hc.
  - intros client e Hc Hf.
    destruct (configFile_total w a (os_Getenv w "AZURE_STORAGE_KEY")
                (os_Getenv w "AZURE_CONFIG_DIR")) as (t & r & -> & Ht).
    destruct (azureAccountsClient_total w account) as (tc & rc & Hceq & Htc).
    rewrite Hceq in *. cbn [value snd] in Hc. injection Hc as ->. cbn [bind].
    pose proof (azureFindAccount_trace w client account) as Htr.
    destruct (azureFindAccount w client account) as [tf rf].
    cbn [trace fst value snd] in *. subst tf rf. cbn. split; [reflexivity|].
    rewrite !Forall_app. split; [|split; [assumption|repeat constructor]].
    revert Ht. apply List.Forall_impl. intros [] ?; try discriminate; reflexivity.
  - intros client blob rg Hc Hf Hl.
    rewrite value_bind, Hc, value_bind, Hf. cbn [is_err andb String.eqb].
    rewrite bind_call. cbn [value snd].
    destruct Hl as [[e ->]| ->]; reflexivity.
Qed.

(** X20. A config returned without error has an account name and an endpoint
    that are not empty and a renewal buffer of fifteen minutes. *)
Theorem AzureBlobConfig_success_invariant endpoint wasb config :
  value (AzureBlobConfig w endpoint wasb) = Some (config, None) ->
  AccountName config <> "" /\ Endpoint config <> "" /\
  TokenRenewBuffer config = 15 * 60 * 1000000000.
Proof.
  unfold AzureBlobConfig.
  destruct (wasbHint w endpoint wasb zeroConfig) as [endpoint' config0].
  destruct (accountFromEndpoint w endpoint' _) as [a|e]; [|discriminate].
  rewrite value_bind.
  destruct (value (configFile w a _ _)) as [[[a' k'] cd']|]; [|discriminate].
  destruct (String.eqb_spec a' "") as [|Ha]; [discriminate|].
  rewrite value_bind.
  destruct (value (discover w endpoint' k' a' cd')) as [[[[ep k''] er]|e']|];
    try discriminate.
  intros [= <- ->]. cbn [finish AccountName Endpoint TokenRenewBuffer].
  split; [assumption|]. split; [|reflexivity].
  destruct (String.eqb_spec ep ""); [discriminate|assumption].
Qed.

(** X21. When the key has to be fetched, the endpoint found by the lookup
    replaces whatever endpoint was in effect, an explicit one included:
    the config has the blob endpoint of the account (or, if that is
    empty, the endpoint synthesized from the account name), the account
    name, and no error. *)
Theorem AzureBlobConfig_discovered_endpoint
        endpoint wasb a account configDir client blob rg first rest config err :
  accountFromEndpoint w (effectiveEndpoint w endpoint wasb)
    (os_Getenv w "AZURE_STORAGE_ACCOUNT") = Ok a ->
  value (configFile w a (os_Getenv w "AZURE_STORAGE_KEY")
           (os_Getenv w "AZURE_CONFIG_DIR")) = Some (account, "", configDir) ->
  account <> "" ->
  value (azureAccountsClient w account) = Some (Ok client) ->
  value (azureFindAccount w client account) = Some (Ok (blob, rg)) ->
  azblob_ListKeys w client rg account = Ok {| Keys := Some (first :: rest) |} ->
  value (AzureBlobConfig w endpoint wasb) = Some (config, err) ->
  Endpoint config = (if String.eqb blob "" then publicEndpoint w account else blob) /\
  AccountName config = account /\ err = None.
Proof.
  intros Ha Hcf Hne Hc Hf Hl.
  rewrite (AzureBlobConfig_after_configFile endpoint wasb a account "" configDir Ha Hcf).
  apply String.eqb_neq in Hne. rewrite Hne. cbv zeta. cbn [value snd].
  rewrite (discover_lists_keys w _ account configDir client blob rg first rest)
    by assumption.
  destruct (value (selectKey (first :: rest) "")) as [key|]; [|discriminate].
  intros [= <- <-]. auto.
Qed.

End BlobConfigOutcomes.

(** ** The further properties on the concrete world *)

Lemma Authorizer_tenant_configured_witness :
  Forall (fun ev => ofStep 1 ev = false) (trace (Authorizer (world base) tenant)).
Proof.
  destruct (Authorizer_tenant_configured (world base) tenant) as [_ H].
  - discriminate.
  - exact H.
Defined.

Lemma Authorizer_fatal_start_witness :
  value (Authorizer (world noProfile) {| TenantId := "" |}) =
    Some (Err "open /home/user/.azure/azureProfile.json: no such file or directory") /\
  trace (Authorizer (world noProfile) {| TenantId := "" |}) =
    [EvProfilePath; EvLoadProfile "/home/user/.azure/azureProfile.json"].
Proof.
  destruct (Authorizer_fatal_start (world noProfile) {| TenantId := "" |}) as [H _].
  apply (H "open /home/user/.azure/azureProfile.json: no such file or directory").
  - reflexivity.
  - vm_compute. reflexivity.
Defined.

Lemma fillDefaults_keeps_configured_witness :
  map_get (Values (fillDefaults (world base) settings)) "AZURE_AD_RESOURCE"
  = "https://management.azure.com/".
Proof.
  destruct (fillDefaults_keeps_configured (world base) settings) as (_ & _ & _ & H).
  destruct H as [H _].
  - discriminate.
  - apply H. vm_compute. reflexivity.
Defined.

Lemma adEndpointOf_shape_witness :
  adEndpointOf (world base) (settingsWith "https://login.microsoftonline.com") tenant =
    "https://login.microsoftonline.com/t1" /\
  adEndpointOf (world base) (settingsWith "https://login.microsoftonline.com/") tenant =
    "https://login.microsoftonline.com/t1".
Proof.
  destruct (adEndpointOf_shape (world base)
              (settingsWith "https://login.microsoftonline.com") tenant)
    as (_ & Hid & Hslash).
  assert (H : adEndpointOf (world base)
                (settingsWith "https://login.microsoftonline.com") tenant =
              "https://login.microsoftonline.com/t1").
  { apply Hid. split; vm_compute; discriminate. }
  split; [exact H|].
  rewrite (Hslash (settingsWith "https://login.microsoftonline.com/")); [exact H|].
  vm_compute. reflexivity.
Defined.

Lemma scanTokens_other_authorities_witness :
  scanTokens (world staleToken) "https://login.microsoftonline.com/t1"
    [foreign; foreign] None = ret (NotFound None).
Proof.
  destruct (scanTokens_other_authorities (world staleToken)
              "https://login.microsoftonline.com/t1" [foreign; foreign] None) as [_ H].
  apply H. vm_compute. reflexivity.
Defined.

Lemma scanTokens_stops_at_first_witness :
  scanTokens (world staleThenFresh) "https://login.microsoftonline.com/t1"
    ([stale] ++ fresh :: [stale; foreign]) None =
  scanTokens (world staleThenFresh) "https://login.microsoftonline.com/t1"
    ([stale] ++ [fresh]) None.
Proof.
  apply (scanTokens_stops_at_first (world staleThenFresh)
           "https://login.microsoftonline.com/t1" [stale] fresh [stale; foreign]
           "bearer:fresh" None).
  - reflexivity.
  - vm_compute. reflexivity.
Defined.

Lemma converted_authorizer_is_fresh_witness :
  exists spt,
    "bearer:fresh" = autorest_NewBearerAuthorizer (world staleThenFresh) spt /\
    adal_EnsureFresh (world staleThenFresh) spt = None /\
    trace (tokenToAuthorizer (world staleThenFresh) fresh) = [EvEnsureFresh].
Proof.
  destruct (converted_authorizer_is_fresh (world staleThenFresh)) as [H _].
  apply (H fresh "bearer:fresh"). vm_compute. reflexivity.
Defined.

Lemma azureAccountsClient_scoped_witness :
  exists s a,
    value (azureDefaultSubscription (world base)) = Some (Ok s) /\
    SubscriptionID client = ID s /\ ClientAuthorizer client = Some a /\
    value (Authorizer (world base) {| TenantId := TenantID s |}) = Some (Ok a).
Proof.
  destruct (azureAccountsClient_scoped (world base) "myaccount") as [H _].
  apply (H client). vm_compute. reflexivity.
Defined.

Lemma azureFindAccount_safe_witness :
  value (azureFindAccount (world threeAccounts) client "short") <> None.
Proof.
  destruct (azureFindAccount_safe (world threeAccounts) client "short") as (_ & H & _).
  apply (H [account "other" "/subscriptions/s1/resourceGroups/rg0/providers";
            account "myaccount" longID;
            account "short" "/sub/rg/providers/x"]).
  - reflexivity.
  - repeat constructor; try discriminate; eexists; (split; [reflexivity|discriminate]).
Defined.

Lemma azureFindAccount_resource_group_witness : Index "rg1" "/" = -1.
Proof.
  apply (azureFindAccount_resource_group (world threeAccounts) client "myaccount"
           "https://myaccount.blob.core.windows.net/" "rg1").
  vm_compute. reflexivity.
Defined.

Lemma selectKey_panics_witness :
  value (selectKey [readKey; nilKey] "") = None.
Proof.
  apply (selectKey_panics readKey [nilKey] ""). right.
  exists [readKey], nilKey, []. repeat split.
  repeat constructor. vm_compute. discriminate.
Defined.

Lemma wasbHint_round_trip_witness :
  "data@myaccount.blob.core.windows.net/dir/sub/" =
  Container (snd (wasbHint (world base) "" "data@myaccount.blob.core.windows.net/dir/sub/"
                    zeroConfig)) +:+ "@" +:+
  slice_from 8 (effectiveEndpoint (world base) ""
                  "data@myaccount.blob.core.windows.net/dir/sub/").
Proof.
  destruct (wasbHint_round_trip (world base) ""
              "data@myaccount.blob.core.windows.net/dir/sub/"
              {| Scheme := "https"; Host := "myaccount.blob.core.windows.net";
                 Path := "/dir/sub/"; RawQuery := ""; Fragment := "" |}) as [H _].
  - vm_compute. discriminate.
  - vm_compute. reflexivity.
  - exact H.
Defined.

Lemma AzureBlobConfig_hint_fields_witness :
  noSlashAround "dir/sub" /\ Index "data" "@" = -1.
Proof.
  apply (AzureBlobConfig_hint_fields (world explicitCredentials) ""
           "data@myaccount.blob.core.windows.net//dir/sub/"
           {| Endpoint := "https://myaccount.blob.core.windows.net//dir/sub/";
              AccountName := "myaccount"; AccountKeyValue := "secret";
              TokenRenewBuffer := 15 * Minute;
              Container := "data"; Prefix := "dir/sub" |} None).
  vm_compute. reflexivity.
Defined.

Lemma AzureBlobConfig_hint_ignored_witness :
  effectiveEndpoint (world explicitCredentials) "http://localhost:10000/myaccount"
    "data@bad host" = "http://localhost:10000/myaccount".
Proof.
  destruct (AzureBlobConfig_hint_ignored (world explicitCredentials)
              "http://localhost:10000/myaccount" "data@bad host") as [H _].
  - right. exists "invalid character in host name". vm_compute. reflexivity.
  - exact H.
Defined.

Lemma accountFromEndpoint_first_label_witness :
  accountFromEndpoint (world base) "https://other.blob.core.windows.net:443/data" ""
    = Ok "other" /\
  exists u rest,
    url_Parse (world base) "https://other.blob.core.windows.net:443/data" = Ok u /\
    url_Hostname (world base) u = "other" +:+ "." +:+ rest /\
    Index "other" "." = -1.
Proof.
  split; [vm_compute; reflexivity|].
  destruct (accountFromEndpoint_first_label (world base)
              "https://other.blob.core.windows.net:443/data" "" "other")
    as (_ & _ & H).
  - vm_compute. reflexivity.
  - destruct H as (u & Hu & _ & Hlabel); [discriminate..|].
    destruct Hlabel as (Hno & rest & Hhost).
    + vm_compute in Hu. injection Hu as <-. vm_compute. discriminate.
    + exists u, rest. auto.
Defined.

Lemma AzureBlobConfig_endpoint_parse_error_witness :
  AzureBlobConfig (world explicitCredentials) "https://bad host" "" =
  ([], Some (zeroConfig, Some "invalid character in host name")).
Proof.
  apply (AzureBlobConfig_endpoint_parse_error (world explicitCredentials)
           "https://bad host" "" "invalid character in host name").
  - vm_compute. discriminate.
  - vm_compute. discriminate.
  - vm_compute. reflexivity.
Defined.

Lemma configFile_precedence_witness :
  configFile (world base) "myaccount" "secret" "" = ret ("myaccount", "secret", "").
Proof.
  destruct (configFile_precedence (world base) "myaccount" "secret" "") as [H _].
  apply H; discriminate.
Defined.

Lemma AzureBlobConfig_missing_account_witness :
  value (AzureBlobConfig (world base) "" "data@localhost/dir") =
    Some (snd (wasbHint (world base) "" "data@localhost/dir" zeroConfig),
          Some (missingAccount "/home/user/.azure")) /\
  Forall (fun ev => isIniLoad ev = true)
         (trace (AzureBlobConfig (world base) "" "data@localhost/dir")).
Proof.
  apply (AzureBlobConfig_missing_account (world base) "" "data@localhost/dir" "" "").
  - vm_compute. reflexivity.
  - vm_compute. reflexivity.
Defined.

Lemma AzureBlobConfig_missing_key_witness :
  value (AzureBlobConfig (world accountOnly) "" "") =
    Some (zeroConfig, Some (missingKey "/home/user/.azure")) /\
  Forall (fun ev => isListKeys ev = false)
         (trace (AzureBlobConfig (world accountOnly) "" "")).
Proof.
  destruct (AzureBlobConfig_missing_key (world accountOnly) "" "" "myaccount" "myaccount"
              "/home/user/.azure") as (_ & H & _).
  - reflexivity.
  - vm_compute. reflexivity.
  - discriminate.
  - apply (H client "Azure account not found: myaccount").
    + vm_compute. reflexivity.
    + vm_compute. reflexivity.
Defined.

Lemma AzureBlobConfig_success_invariant_witness :
  "other" <> "" /\ "https://other.blob.core.windows.net" <> "" /\
  15 * Minute = 15 * 60 * 1000000000.
Proof.
  apply (AzureBlobConfig_success_invariant (world explicitCredentials)
           "https://other.blob.core.windows.net" ""
           {| Endpoint := "https://other.blob.core.windows.net";
              AccountName := "other"; AccountKeyValue := "secret";
              TokenRenewBuffer := 15 * Minute; Container := ""; Prefix := "" |}).
  vm_compute. reflexivity.
Defined.

Lemma AzureBlobConfig_discovered_endpoint_witness :
  Endpoint {| Endpoint := "https://myaccount.blob.core.windows.net/";
              AccountName := "myaccount"; AccountKeyValue := "B";
              TokenRenewBuffer := 15 * Minute; Container := ""; Prefix := "" |}
  = "https://myaccount.blob.core.windows.net/" /\
  value (AzureBlobConfig (world listedKeys) "https://myaccount.example.org/" "") =
    Some ({| Endpoint := "https://myaccount.blob.core.windows.net/";
             AccountName := "myaccount"; AccountKeyValue := "B";
             TokenRenewBuffer := 15 * Minute; Container := ""; Prefix := "" |}, None).
Proof.
  split; [|vm_compute; reflexivity].
  destruct (AzureBlobConfig_discovered_endpoint (world listedKeys)
              "https://myaccount.example.org/" "" "myaccount" "myaccount"
              "/home/user/.azure" client
              "https://myaccount.blob.core.windows.net/" "rg1" readKey [fullKey]
              {| Endpoint := "https://myaccount.blob.core.windows.net/";
                 AccountName := "myaccount"; AccountKeyValue := "B";
                 TokenRenewBuffer := 15 * Minute; Container := ""; Prefix := "" |}
              None) as (H & _ & _).
  - vm_compute. reflexivity.
  - vm_compute. reflexivity.
  - discriminate.
  - vm_compute. reflexivity.
  - vm_compute. reflexivity.
  - reflexivity.
  - vm_compute. reflexivity.
  - exact H.
Defined.
